(** * Walk-forward backtesting pipeline of [backend/Stock_Functions.py]

    A shallow embedding of the stock pipeline ([clean_data],
    [add_predictors], [predict], [backtest], [buy_stock]) and of the
    [/api/buy_stock] and [/api/get_stock_data] routes of [backend/app.py]
    and of [get_news] of [backend/News_Functions.py], together with the
    part of pandas and scikit-learn these functions call.

    DataFrames are columnar: a row index of dates and named columns of
    numbers.  Frames that the code edits in place live in an object store
    and are passed by reference, so aliasing between caller and callee is
    visible.  Numbers are exact rationals extended with NaN and the two
    infinities; binary64 rounding is not modelled, comparisons and the
    NaN rules are. *)

From Stdlib Require Import QArith ZArith Lia Lqa List String Bool Sorted.
From Stdlib Require DecimalString.
From stdpp Require Import base list.

Open Scope string_scope.
Open Scope list_scope.
Open Scope nat_scope.

(** ** Numbers *)

Module Float.

Inductive float : Type :=
| NaN
| Inf (negative : bool)
| Fin (q : Q).

Definition zero : float := Fin 0.
Definition one : float := Fin 1.

Definition isna (x : float) : bool :=
  match x with NaN => true | _ => false end.

(** IEEE comparison: [None] when either side is NaN. *)
Definition compare (x y : float) : option comparison :=
  match x, y with
  | NaN, _ | _, NaN => None
  | Inf true, Inf true | Inf false, Inf false => Some Eq
  | Inf true, _ | _, Inf false => Some Lt
  | Inf false, _ | _, Inf true => Some Gt
  | Fin a, Fin b => Some (a ?= b)%Q
  end.

Definition gt (x y : float) : bool :=
  match compare x y with Some Gt => true | _ => false end.

Definition ge (x y : float) : bool :=
  match compare x y with Some Gt | Some Eq => true | _ => false end.

Definition lt (x y : float) : bool :=
  match compare x y with Some Lt => true | _ => false end.

Definition Qneg (q : Q) : bool :=
  match (q ?= 0)%Q with Lt => true | _ => false end.

Definition Qzero (q : Q) : bool :=
  match (q ?= 0)%Q with Eq => true | _ => false end.

(** Division; the sign of a zero divisor is taken as positive. *)
Definition div (x y : float) : float :=
  match x, y with
  | NaN, _ | _, NaN => NaN
  | Inf _, Inf _ => NaN
  | Inf s, Fin b => Inf (xorb s (Qneg b))
  | Fin _, Inf _ => Fin 0
  | Fin a, Fin b =>
      if Qzero b then (if Qzero a then NaN else Inf (Qneg a))
      else Fin (a / b)
  end.

End Float.

Import Float.

(** ** Exceptions *)

Inductive exn : Type :=
| KeyError
| ValueError
| IndexError
| Dangling.  (* a reference outside the store; no Python program reaches it *)

Inductive result (A : Type) : Type :=
| Ok (a : A)
| Raise (e : exn).

Arguments Ok {A} a.
Arguments Raise {A} e.

Definition rbind {A B} (r : result A) (k : A -> result B) : result B :=
  match r with
  | Ok a => k a
  | Raise e => Raise e
  end.

Declare Scope result_scope.
Delimit Scope result_scope with res.
Notation "'let*' x ':=' r 'in' k" := (rbind r (fun x => k))
  (at level 10, x pattern, r at level 100, k at level 200) : result_scope.

(** ** pandas *)

Module pd.

Definition Series := list float.

Record DataFrame : Type := mkFrame {
  index : list Z;                       (* DatetimeIndex, in days *)
  columns : list (string * Series)
}.

Definition shape0 (df : DataFrame) : nat := length (index df).

Definition names (df : DataFrame) : list string := map fst (columns df).

(** Every column is as long as the index. *)
Definition aligned (df : DataFrame) : Prop :=
  Forall (fun c => length (snd c) = shape0 df) (columns df).

Fixpoint lookup_col (name : string) (cols : list (string * Series))
  : option Series :=
  match cols with
  | [] => None
  | (n, c) :: rest => if String.eqb n name then Some c else lookup_col name rest
  end.

(** [df[name]] *)
Definition getitem (df : DataFrame) (name : string) : result Series :=
  match lookup_col name (columns df) with
  | Some c => Ok c
  | None => Raise KeyError
  end.

Fixpoint remove_col (name : string) (cols : list (string * Series))
  : option (list (string * Series)) :=
  match cols with
  | [] => None
  | (n, c) :: rest =>
      if String.eqb n name then Some rest
      else option_map (cons (n, c)) (remove_col name rest)
  end.

(** [del df[name]] *)
Definition delitem (df : DataFrame) (name : string) : result DataFrame :=
  match remove_col name (columns df) with
  | Some cols => Ok (mkFrame (index df) cols)
  | None => Raise KeyError
  end.

Fixpoint assign_col (name : string) (c : Series) (cols : list (string * Series))
  : list (string * Series) :=
  match cols with
  | [] => [(name, c)]
  | (n, c0) :: rest =>
      if String.eqb n name then (n, c) :: rest
      else (n, c0) :: assign_col name c rest
  end.

(** [df[name] = c]: replaces the column in place or appends it; a value
    of the wrong length is refused. *)
Definition setitem (df : DataFrame) (name : string) (c : Series)
  : result DataFrame :=
  if Nat.eqb (length c) (shape0 df)
  then Ok (mkFrame (index df) (assign_col name c (columns df)))
  else Raise ValueError.

(** [df[names]] *)
Fixpoint select_cols (cols : list (string * Series)) (ns : list string)
  : result (list (string * Series)) :=
  match ns with
  | [] => Ok []
  | n :: rest =>
      match lookup_col n cols with
      | Some c =>
          match select_cols cols rest with
          | Ok cs => Ok ((n, c) :: cs)
          | Raise e => Raise e
          end
      | None => Raise KeyError
      end
  end.

Definition getitems (df : DataFrame) (ns : list string) : result DataFrame :=
  match select_cols (columns df) ns with
  | Ok cs => Ok (mkFrame (index df) cs)
  | Raise e => Raise e
  end.

(** [s.shift(periods)] *)
Definition shift (periods : Z) (s : Series) : Series :=
  let k := Nat.min (Z.abs_nat periods) (length s) in
  if (periods <? 0)%Z
  then drop k s ++ repeat NaN k
  else repeat NaN k ++ take (length s - k) s.

(** [a > b], elementwise *)
Fixpoint gt (a b : Series) : list bool :=
  match a, b with
  | x :: a', y :: b' => Float.gt x y :: gt a' b'
  | _, _ => []
  end.

(** [.astype(int)] on a boolean column *)
Definition astype_int (bs : list bool) : Series :=
  map (fun b : bool => if b then Float.one else Float.zero) bs.

(** [a / b], elementwise *)
Fixpoint truediv (a b : Series) : Series :=
  match a, b with
  | x :: a', y :: b' => Float.div x y :: truediv a' b'
  | _, _ => []
  end.

(** [df.iloc[a:b]] for non-negative bounds *)
Definition slice {A} (a b : nat) (l : list A) : list A :=
  take (b - a) (drop a l).

(** The same operation on every column. *)
Definition map_columns (g : Series -> Series) (cols : list (string * Series))
  : list (string * Series) :=
  map (fun c => (fst c, g (snd c))) cols.

Definition iloc (a b : nat) (df : DataFrame) : DataFrame :=
  mkFrame (slice a b (index df)) (map_columns (slice a b) (columns df)).

(** [df.iloc[a:]] *)
Definition iloc_from (a : nat) (df : DataFrame) : DataFrame :=
  mkFrame (drop a (index df)) (map_columns (drop a) (columns df)).

(** Position of the first label that is not before [label]. *)
Fixpoint first_not_before (label : Z) (idx : list Z) : nat :=
  match idx with
  | [] => 0
  | d :: rest => if (d <? label)%Z then S (first_not_before label rest) else 0
  end.

(** [df.loc[label:]] on an index in ascending order, which is how the
    provider returns the dates: the rows from the first date that is not
    before [label] on.  On an index that is not ascending pandas does not
    slice by position (it keeps the rows at or after the label when the
    label is one of the dates, and raises [KeyError] when it is not);
    that case is not modelled. *)
Definition loc_from (label : Z) (df : DataFrame) : DataFrame :=
  iloc_from (first_not_before label (index df)) df.

(** Sum of a window; undefined as soon as one observation is missing.
    Rolling aggregations read an infinity as a missing observation. *)
Fixpoint window_sum (w : Series) : option Q :=
  match w with
  | [] => Some 0%Q
  | Fin q :: rest => option_map (Qplus q) (window_sum rest)
  | _ :: _ => None
  end.

Definition window_mean (w : Series) : float :=
  match w with
  | [] => NaN
  | _ =>
      match window_sum w with
      | Some s => Fin (s / inject_Z (Z.of_nat (length w)))
      | None => NaN
      end
  end.

(** [s.rolling(window).mean()]: the mean of the last [window]
    observations, NaN until that many exist. *)
Definition rolling_mean (window : nat) (s : Series) : Series :=
  map (fun k =>
         if k + 1 <? window then NaN
         else window_mean (slice (k + 1 - window) (k + 1) s))
      (seq 0 (length s)).

(** Keep the positions whose mask is set. *)
Fixpoint compress {A} (mask : list bool) (l : list A) : list A :=
  match mask, l with
  | m :: mask', x :: l' => if m then x :: compress mask' l' else compress mask' l'
  | _, _ => []
  end.

(** Row [k] has no NaN in any of the given columns. *)
Definition row_complete (cols : list Series) (k : nat) : bool :=
  forallb (fun c => negb (Float.isna (nth k c NaN))) cols.

(** [df.dropna(subset=ns)] *)
Definition dropna (df : DataFrame) (ns : list string) : result DataFrame :=
  match select_cols (columns df) ns with
  | Ok sub =>
      let mask := map (row_complete (map snd sub)) (seq 0 (shape0 df)) in
      Ok (mkFrame (compress mask (index df))
                  (map_columns (compress mask) (columns df)))
  | Raise e => Raise e
  end.

(** Column [name] of a frame, NaN-filled when the frame lacks it. *)
Definition col_or_nan (name : string) (df : DataFrame) : Series :=
  match lookup_col name (columns df) with
  | Some c => c
  | None => repeat NaN (shape0 df)
  end.

(** [pd.concat(frames)] along the rows, for frames that carry the same
    columns as the first one (all callers here); an empty list of frames
    is refused ("No objects to concatenate"). *)
Definition concat (frames : list DataFrame) : result DataFrame :=
  match frames with
  | [] => Raise ValueError
  | f :: _ =>
      Ok (mkFrame (List.concat (map index frames))
            (map (fun n => (n, List.concat (map (col_or_nan n) frames)))
                 (names f)))
  end.

(** [pd.concat([a, b], axis=1)] of two named Series on the same index. *)
Definition concat_axis1 (idx : list Z) (a b : string * Series) : DataFrame :=
  mkFrame idx [a; b].

End pd.

Import pd.

(** ** The object store

    A DataFrame that is edited in place is an object; variables hold
    references to it.  A reference is the position of the object in the
    store, in allocation order. *)

Definition ref := nat.

Definition Py (A : Type) : Type :=
  list DataFrame -> result A * list DataFrame.

Definition ret {A} (a : A) : Py A := fun h => (Ok a, h).

Definition bind {A B} (m : Py A) (k : A -> Py B) : Py B :=
  fun h =>
    match m h with
    | (Ok a, h') => k a h'
    | (Raise e, h') => (Raise e, h')
    end.

Declare Scope py_scope.
Delimit Scope py_scope with py.
Notation "x <- c1 ;; c2" := (bind c1 (fun x => c2))
  (at level 100, c1 at next level, right associativity) : py_scope.
Notation "c1 ;; c2" := (bind c1 (fun _ => c2))
  (at level 100, right associativity) : py_scope.

Open Scope py_scope.

Definition lift {A} (r : result A) : Py A := fun h => (r, h).

Definition deref (r : ref) : Py DataFrame :=
  fun h =>
    match h !! r with
    | Some df => (Ok df, h)
    | None => (Raise Dangling, h)
    end.

Definition assign (r : ref) (df : DataFrame) : Py unit :=
  fun h => (Ok tt, <[r := df]> h).

(** A new object, as [.copy()] and every operation that builds a new
    frame make one. *)
Definition alloc (df : DataFrame) : Py ref :=
  fun h => (Ok (length h), h ++ [df]).

(** Methods of a frame object. *)
Module obj.

Definition del (data : ref) (name : string) : Py unit :=
  df <- deref data ;;
  df' <- lift (delitem df name) ;;
  assign data df'.

Definition get (data : ref) (name : string) : Py Series :=
  df <- deref data ;;
  lift (getitem df name).

Definition set (data : ref) (name : string) (c : Series) : Py unit :=
  df <- deref data ;;
  df' <- lift (setitem df name c) ;;
  assign data df'.

Definition shape0 (data : ref) : Py nat :=
  df <- deref data ;;
  ret (pd.shape0 df).

(** [data.iloc[a:b].copy()], held in a local variable that is only read. *)
Definition iloc_copy (data : ref) (a b : nat) : Py DataFrame :=
  df <- deref data ;;
  ret (iloc a b df).

End obj.

(** ** scikit-learn *)

(** The classifier is any model with the two operations the pipeline
    calls.  [fit] updates the model object, so it maps the state before to
    the state after; [predict_proba] gives the positive-class column
    [[:, 1]] of the probabilities, one per row. *)
Class Classifier (Model : Type) : Type := {
  fit : Model -> DataFrame -> Series -> Model;
  predict_proba : Model -> DataFrame -> Series
}.

Class ClassifierLaws (Model : Type) `{Classifier Model} : Prop := {
  predict_proba_length :
    forall (m : Model) (X : DataFrame),
      length (predict_proba m X) = shape0 X
}.

Module metrics.

Definition is_one (x : float) : bool :=
  match Float.compare x Float.one with Some Eq => true | _ => false end.

Definition is_zero (x : float) : bool :=
  match Float.compare x Float.zero with Some Eq => true | _ => false end.

Definition is_label (x : float) : bool := is_zero x || is_one x.

(** The class a value stands for.  scikit-learn reads a float column as
    class labels only when every entry is a finite whole number; NaN, an
    infinity or a fractional value is refused. *)
Definition as_class (x : float) : option Z :=
  match x with
  | Fin q =>
      if (Qden (Qred q) =? 1)%positive then Some (Qnum (Qred q)) else None
  | _ => None
  end.

Fixpoint classes (s : Series) : option (list Z) :=
  match s with
  | [] => Some []
  | x :: rest =>
      match as_class x, classes rest with
      | Some c, Some cs => Some (c :: cs)
      | _, _ => None
      end
  end.

(** [unique_labels(y_true, y_pred)], up to order. *)
Definition present_labels (cs : list Z) : list Z := nodup Z.eq_dec cs.

(** Rows predicted positive, and those among them whose target is
    positive. *)
Fixpoint positives (y_true y_pred : Series) : nat * nat :=
  match y_true, y_pred with
  | t :: y_true', p :: y_pred' =>
      let '(tp, pp) := positives y_true' y_pred' in
      if is_one p then ((if is_one t then S tp else tp), S pp) else (tp, pp)
  | _, _ => (0, 0)
  end.

(** [precision_score(y_true, y_pred)] with its defaults
    ([average="binary"], [pos_label=1], [zero_division="warn"]).  It
    raises [ValueError] when the two columns differ in length, when they
    are empty, when an entry is not a class label, when more than two
    labels are present (a multiclass target), and when two labels are
    present and neither is 1.  Otherwise the score is that of label 1;
    when nothing is predicted 1 it is 0 and a warning is printed. *)
Definition precision_score (y_true y_pred : Series) : result Q :=
  if negb (length y_true =? length y_pred) then Raise ValueError
  else if length y_true =? 0 then Raise ValueError
  else
    match classes (y_true ++ y_pred) with
    | None => Raise ValueError
    | Some cs =>
        let present := present_labels cs in
        if 2 <? length present then Raise ValueError
        else if negb (existsb (Z.eqb 1) present) && (2 <=? length present)
        then Raise ValueError
        else
          let '(tp, pp) := positives y_true y_pred in
          if pp =? 0 then Ok 0%Q
          else Ok (inject_Z (Z.of_nat tp) / inject_Z (Z.of_nat pp))%Q
    end.

End metrics.

(** ** backend/Stock_Functions.py *)

Module Stock_Functions.

(** What [get_stock_data] returns: the provider's daily bars as a frame
    with the provider's columns. *)
Record Bar : Type := mkBar {
  Date : Z;
  Open : float;
  High : float;
  Low : float;
  Close : float;
  Volume : float;
  Dividends : float;
  Stock_Splits : float
}.

Definition history (bars : list Bar) : DataFrame :=
  mkFrame (map Date bars)
    [("Open", map Open bars); ("High", map High bars);
     ("Low", map Low bars); ("Close", map Close bars);
     ("Volume", map Volume bars); ("Dividends", map Dividends bars);
     ("Stock Splits", map Stock_Splits bars)].

(** 2000-01-01, in days since 1970-01-01. *)
Definition floor_date : Z := 10957.

Definition clean_data (data : ref) : Py ref :=
  obj.del data "Dividends" ;;
  obj.del data "Stock Splits" ;;
  obj.del data "Volume" ;;
  obj.del data "Low" ;;
  obj.del data "High" ;;
  obj.del data "Open" ;;
  close <- obj.get data "Close" ;;
  obj.set data "Tomorrow" (shift (-1) close) ;;
  tomorrow <- obj.get data "Tomorrow" ;;
  close <- obj.get data "Close" ;;
  obj.set data "Target" (astype_int (gt tomorrow close)) ;;
  df <- deref data ;;
  alloc (loc_from floor_date df).

Definition benchmarks : list nat := [2; 5; 21; 21 * 3; 252; 252 * 5].

(** [f"Close_Ratio_{benchmark}"] *)
Definition ratio_column (benchmark : nat) : string :=
  "Close_Ratio_" ++ DecimalString.NilEmpty.string_of_uint (Nat.to_uint benchmark).

(** The loop over the benchmarks. *)
Fixpoint add_ratios (data : ref) (bs : list nat) (new_predictors : list string)
  : Py (list string) :=
  match bs with
  | [] => ret new_predictors
  | benchmark :: rest =>
      close <- obj.get data "Close" ;;
      let rolling_averages := rolling_mean benchmark close in
      obj.set data (ratio_column benchmark) (truediv close rolling_averages) ;;
      add_ratios data rest (new_predictors ++ [ratio_column benchmark])
  end.

Definition add_predictors (data : ref) : Py (ref * list string) :=
  new_predictors <- add_ratios data benchmarks [] ;;
  df <- deref data ;;
  dropped <- lift (dropna df
               (List.filter (fun n => negb (String.eqb n "Tomorrow")) (names df))) ;;
  data' <- alloc dropped ;;
  ret (data', new_predictors).

(** [s[s >= t] = v] and [s[s < t] = v] *)
Definition mask_ge (t v : float) (s : Series) : Series :=
  map (fun x => if Float.ge x t then v else x) s.

Definition mask_lt (t v : float) (s : Series) : Series :=
  map (fun x => if Float.lt x t then v else x) s.

(** The two assignments of [predict] that turn probabilities into
    labels, for a cut-off [t]; [predict] uses 0.60. *)
Definition threshold (t : Q) (preds : Series) : Series :=
  mask_lt (Fin t) Float.zero (mask_ge (Fin t) Float.one preds).

Definition cutoff_60 : Q := 6 # 10.

(** [range(start, stop, step)] for a non-negative start: [start],
    [start + step], ... below [stop]; a zero step is refused. *)
Definition range (start stop step : nat) : result (list nat) :=
  if step =? 0 then Raise ValueError
  else Ok (map (fun k => start + k * step)
             (seq 0 ((stop - start + step - 1) / step))).

(** The defaults of [backtest]: ten years and one quarter of trading
    days. *)
Definition default_start : nat := 252 * 10.
Definition default_step : nat := 21 * 3.

Section WithClassifier.

Context {Model : Type} `{Classifier Model}.

Definition predict (train test : DataFrame) (predictors : list string)
    (model : Model) : result (DataFrame * Model) :=
  (let* X := getitems train predictors in
   let* y := getitem train "Target" in
   let model := fit model X y in
   let* X_test := getitems test predictors in
   let preds := predict_proba model X_test in
   let preds_60 := threshold cutoff_60 preds in
   if negb (length preds_60 =? shape0 test) then Raise ValueError
   else
     let* target := getitem test "Target" in
     Ok (concat_axis1 (index test)
           ("Target", target) ("Predictions_60%", preds_60), model))%res.

(** The body of the [for] loop, over the remaining window starts. *)
Fixpoint backtest_loop (data : ref) (predictors : list string) (step : nat)
    (starts : list nat) (model : Model) (all_predictions : list DataFrame)
  : Py (list DataFrame * Model) :=
  match starts with
  | [] => ret (all_predictions, model)
  | i :: rest =>
      train <- obj.iloc_copy data 0 i ;;
      test <- obj.iloc_copy data i (i + step) ;;
      r <- lift (predict train test predictors model) ;;
      let '(predictions, model') := r in
      backtest_loop data predictors step rest model'
        (all_predictions ++ [predictions])
  end.

Definition backtest (data : ref) (model : Model) (predictors : list string)
    (start step : nat) : Py (DataFrame * Model) :=
  n <- obj.shape0 data ;;
  starts <- lift (range start n step) ;;
  r <- backtest_loop data predictors step starts model [] ;;
  let '(all_predictions, model') := r in
  res <- lift (concat all_predictions) ;;
  ret (res, model').

(** [buy_stock], from the frame [get_stock_data] returned and the
    model [create_model] made: an unfitted classifier, here any instance
    of [Classifier], whose [fit] and [predict_proba] always answer.  (The
    random forest of scikit-learn can also raise, for instance when it is
    fitted on no rows.) *)
Definition buy_stock (raw : ref) (model : Model) : Py (DataFrame * Model) :=
  data <- clean_data raw ;;
  r <- add_predictors data ;;
  let '(data, new_predictors) := r in
  let new_predictors := new_predictors ++ ["Close"] in
  n <- obj.shape0 data ;;
  let start_value := n / 5 in
  backtest data model new_predictors start_value default_step.

End WithClassifier.

End Stock_Functions.

(** ** backend/app.py *)

Module app.

Import Stock_Functions metrics.

(** [bool(x)] of a number *)
Definition truthy (x : float) : bool := negb (is_zero x).

(** [predictions.iloc[-1][1]] *)
Definition last_row_at (df : DataFrame) (pos : nat) : result float :=
  match shape0 df with
  | 0 => Raise IndexError
  | S k =>
      match columns df !! pos with
      | Some (_, c) => Ok (nth k c NaN)
      | None => Raise IndexError
      end
  end.

(** The two values the [/api/buy_stock] route reports, the score before
    it is formatted as a percentage. *)
Definition buy_stock_summary (predictions : DataFrame) : result (string * Q) :=
  (let* last := last_row_at predictions 1 in
   let should_buy_stock := truthy last in
   let* y_true := getitem predictions "Target" in
   let* y_pred := getitem predictions "Predictions_60%" in
   let* buy_stock_precision_score := precision_score y_true y_pred in
   Ok (if should_buy_stock then "Yes" else "No", buy_stock_precision_score))%res.

End app.

(** ** Derived notions used in the statements *)

Module Notions.

Import Stock_Functions.

(** What the two masked assignments of [predict] do to one entry. *)
Definition label (t : Q) (x : float) : float :=
  let x' := if Float.ge x (Fin t) then Float.one else x in
  if Float.lt x' (Fin t) then Float.zero else x'.

(** Number of 1-decisions in a column of labels. *)
Definition count_ones (s : Series) : nat :=
  length (List.filter metrics.is_one s).

(** The frame [clean_data] leaves behind under the reference it was
    given: the provider's columns cut down to the close, plus the two
    new columns. *)
Definition labelled (bars : list Bar) : DataFrame :=
  let close := map Close bars in
  let tomorrow := shift (-1) close in
  mkFrame (map Date bars)
    [("Close", close); ("Tomorrow", tomorrow);
     ("Target", astype_int (gt tomorrow close))].

(** The frame [clean_data] returns. *)
Definition cleaned (bars : list Bar) : DataFrame :=
  loc_from floor_date (labelled bars).

(** A frame with the three columns of a cleaned series. *)
Definition cleaned_series (idx : list Z) (close tomorrow target : Series)
  : DataFrame :=
  mkFrame idx [("Close", close); ("Tomorrow", tomorrow); ("Target", target)].

(** [data["Close"] / data.rolling(w).mean()["Close"]] *)
Definition ratio (w : nat) (close : Series) : Series :=
  truediv close (rolling_mean w close).

(** The cleaned series after the loop of [add_predictors]. *)
Definition with_ratios (idx : list Z) (close tomorrow target : Series)
  : DataFrame :=
  mkFrame idx
    ([("Close", close); ("Tomorrow", tomorrow); ("Target", target)]
     ++ map (fun w => (ratio_column w, ratio w close)) benchmarks).

(** The rows [dropna] keeps: those with the close, the target and the
    six ratios all defined. *)
Definition complete (close target : Series) (n : nat) : list bool :=
  map (row_complete (close :: target :: map (fun w => ratio w close) benchmarks))
      (seq 0 n).

(** The frame [add_predictors] returns. *)
Definition featured (idx : list Z) (close tomorrow target : Series)
  : DataFrame :=
  let mask := complete close target (length idx) in
  mkFrame (compress mask idx)
    (map_columns (compress mask)
       (columns (with_ratios idx close tomorrow target))).

(** The same two frames for a cleaned series given as a frame. *)
Definition ratios_added (df : DataFrame) : DataFrame :=
  with_ratios (index df) (col_or_nan "Close" df) (col_or_nan "Tomorrow" df)
    (col_or_nan "Target" df).

Definition complete_rows (df : DataFrame) : DataFrame :=
  featured (index df) (col_or_nan "Close" df) (col_or_nan "Tomorrow" df)
    (col_or_nan "Target" df).

(** A program that leaves the store as it found it, whatever it
    returns. *)
Definition reads_only {A} (m : Py A) : Prop :=
  forall h : list DataFrame, snd (m h) = h.

(** Rows predicted positive whose target is positive. *)
Definition true_positives (y_true y_pred : Series) : nat :=
  length (List.filter
            (fun r : float * float => metrics.is_one (fst r) && metrics.is_one (snd r))
            (combine y_true y_pred)).

Section WalkForward.

Context {Model : Type} `{Classifier Model}.

(** One more [fit] of the running model, on the first [i] rows of the
    features [X] and targets [y]. *)
Definition refit (X : DataFrame) (y : Series) (m : Model) (i : nat) : Model :=
  fit m (iloc 0 i X) (slice 0 i y).

(** What [predict] returns for the test rows from [i] on, given the
    model it has just fitted. *)
Definition window_frame (X : DataFrame) (y : Series) (step : nat)
    (fitted : Model) (i : nat) : DataFrame :=
  concat_axis1 (slice i (i + step) (index X))
    ("Target", slice i (i + step) y)
    ("Predictions_60%",
     threshold cutoff_60 (predict_proba fitted (iloc i (i + step) X))).

(** The frames of the successive windows and the final model. *)
Fixpoint walk_forward (X : DataFrame) (y : Series) (step : nat)
    (starts : list nat) (m : Model) : list DataFrame * Model :=
  match starts with
  | [] => ([], m)
  | i :: rest =>
      let fitted := refit X y m i in
      let '(frames, final) := walk_forward X y step rest fitted in
      (window_frame X y step fitted i :: frames, final)
  end.

(** The values [range(start, stop, step)] runs through. *)
Definition starts_of (start stop step : nat) : list nat :=
  map (fun k => start + k * step)
      (seq 0 ((stop - start + step - 1) / step)).

(** Window starts from [start] up to [i], in steps of [step]. *)
Definition starts_upto (start step i : nat) : list nat :=
  map (fun k => start + k * step) (seq 0 (S ((i - start) / step))).

(** The model after the expanding-window fits on a training set: it
    is given the training rows and nothing else. *)
Definition expanding_fit (start step : nat) (m : Model)
    (X_train : DataFrame) (y_train : Series) : Model :=
  fold_left (refit X_train y_train)
    (starts_upto start step (shape0 X_train)) m.

End WalkForward.

(** The longest rolling window. *)
Definition horizon : nat := list_max benchmarks.

(** A defined, positive price. *)
Definition positive (x : float) : Prop :=
  match x with
  | Fin q => (0 < q)%Q
  | _ => False
  end.

End Notions.

(** ** Sample data *)

Module Sample.

Import Stock_Functions Notions.

(** A bar dated [day] days after the floor with the given close. *)
Definition bar (day : Z) (price : Q) : Bar :=
  mkBar (floor_date + day) (Fin price) (Fin price) (Fin price)
    (Fin price) (Fin 1000) (Fin 0) (Fin 0).


(** Friday 31 December 1999, then Monday and Tuesday. *)
Definition three_bars : list Bar := [bar (-1) 10; bar 2 12; bar 3 11].

(** A long flat series: [n] days from the floor on at price 1, every day
    labelled 0. *)
Definition flat_index (n : nat) : list Z :=
  map (fun k => (floor_date + Z.of_nat k)%Z) (seq 0 n).
Definition flat_close (n : nat) : Series := repeat (Fin 1) n.
Definition flat_tomorrow (n : nat) : Series := shift (-1) (flat_close n).
Definition flat_target (n : nat) : Series := repeat Float.zero n.

Definition flat_series (n : nat) : DataFrame :=
  cleaned_series (flat_index n) (flat_close n) (flat_tomorrow n) (flat_target n).

(** A classifier that predicts the share of positive targets it was
    last fitted on. *)
#[global] Instance base_rate : Classifier float := {
  fit _ _ y := window_mean y;
  predict_proba m X := repeat m (shape0 X)
}.

End Sample.

#[global] Instance base_rate_laws : ClassifierLaws float.
Proof. constructor. intros m X. apply repeat_length. Qed.

(** ** backend/News_Functions.py *)

Module News_Functions.

(** An article of the news provider's response, with the keys the
    docstring of [get_news] lists; [source_name] is
    [article['source']['name']]. *)
Record Article : Type := mkArticle {
  source_name : string;
  author : string;
  article_title : string;
  description : string;
  article_url : string;
  urlToImage : string;
  publishedAt : string;
  content : string
}.

(** One entry of the returned list: [{'source', 'title', 'url'}]. *)
Record Headline : Type := mkHeadline {
  source : string;
  title : string;
  url : string
}.

(** The [for] loop of [get_news] over [three_articles]. *)
Fixpoint collect (three_articles : list Article)
    (sources_and_titles : list Headline) : list Headline :=
  match three_articles with
  | [] => sources_and_titles
  | article :: rest =>
      if negb (String.eqb (source_name article) "[Removed]")
      then collect rest
             (sources_and_titles
              ++ [mkHeadline (source_name article) (article_title article)
                    (article_url article)])
      else collect rest sources_and_titles
  end.

(** [get_news], from the articles of the provider's response. *)
Definition get_news (articles : list Article) : list Headline :=
  let three_articles := take 10 articles in
  collect three_articles [].

End News_Functions.

(** ** Arithmetic and formatting used by the routes *)

Module Arith.

Definition opp (x : float) : float :=
  match x with
  | NaN => NaN
  | Inf s => Inf (negb s)
  | Fin q => Fin (- q)
  end.

Definition add (x y : float) : float :=
  match x, y with
  | NaN, _ | _, NaN => NaN
  | Inf a, Inf b => if Bool.eqb a b then Inf a else NaN
  | Inf a, Fin _ => Inf a
  | Fin _, Inf b => Inf b
  | Fin a, Fin b => Fin (a + b)
  end.

Definition sub (x y : float) : float := add x (opp y).

Definition mul (x y : float) : float :=
  match x, y with
  | NaN, _ | _, NaN => NaN
  | Inf a, Inf b => Inf (xorb a b)
  | Inf a, Fin q | Fin q, Inf a =>
      if Float.Qzero q then NaN else Inf (xorb a (Float.Qneg q))
  | Fin a, Fin b => Fin (a * b)
  end.

(** The nearest integer, ties to the even one. *)
Definition round_half_even (q : Q) : Z :=
  let n := Qnum q in
  let d := Z.pos (Qden q) in
  let f := (n / d)%Z in
  match (2 * (n mod d) ?= d)%Z with
  | Lt => f
  | Gt => (f + 1)%Z
  | Eq => if Z.even f then f else (f + 1)%Z
  end.

(** [round(x, 2)] *)
Definition round2 (x : float) : float :=
  match x with
  | Fin q => Fin (inject_Z (round_half_even (q * 100)) / 100)
  | _ => x
  end.

(** [min(values)] and [max(values)] of Python: the first value is kept
    until a later one compares below (above) it; an empty argument is
    refused. *)
Definition py_min (values : Series) : result float :=
  match values with
  | [] => Raise ValueError
  | v :: rest =>
      Ok (fold_left (fun best x => if Float.lt x best then x else best) rest v)
  end.

Definition py_max (values : Series) : result float :=
  match values with
  | [] => Raise ValueError
  | v :: rest =>
      Ok (fold_left (fun best x => if Float.gt x best then x else best) rest v)
  end.

(** Year, month and day of a day number (days since 1970-01-01) in the
    Gregorian calendar. *)
Definition civil_from_days (day : Z) : Z * Z * Z :=
  let z := (day + 719468)%Z in
  let era := (z / 146097)%Z in
  let doe := (z - era * 146097)%Z in
  let yoe := ((doe - doe / 1460 + doe / 36524 - doe / 146096) / 365)%Z in
  let doy := (doe - (365 * yoe + yoe / 4 - yoe / 100))%Z in
  let mp := ((5 * doy + 2) / 153)%Z in
  let d := (doy - (153 * mp + 2) / 5 + 1)%Z in
  let m := if (mp <? 10)%Z then (mp + 3)%Z else (mp - 9)%Z in
  let y := (yoe + era * 400)%Z in
  (if (m <=? 2)%Z then (y + 1)%Z else y, m, d).

Definition decimal (z : Z) : string :=
  DecimalString.NilZero.string_of_uint (N.to_uint (Z.to_N z)).

Definition two_digits (z : Z) : string :=
  if (z <? 10)%Z then "0" ++ decimal z else decimal z.

(** [.strftime('%Y-%m-%d')] *)
Definition strftime (day : Z) : string :=
  let '(y, m, d) := civil_from_days day in
  decimal y ++ "-" ++ two_digits m ++ "-" ++ two_digits d.

End Arith.

(** ** backend/app.py: the other routes *)

Module views.

Import Stock_Functions Arith.

(** [df.tail(n)] on a list of rows *)
Definition tail {A} (n : nat) (rows : list A) : list A :=
  drop (length rows - n) rows.

Definition period_days : list (string * nat) :=
  [("1d", 1 + 1); ("1w", 5 + 1); ("1mo", 21 + 1); ("3mo", 21 * 3 + 1);
   ("6mo", 21 * 6 + 1); ("1y", 252 + 1); ("2y", 252 * 2 + 1);
   ("5y", 252 * 5 + 1)].

(** [d.get(key, default)] *)
Fixpoint dict_get {V} (d : list (string * V)) (key : string) (default : V) : V :=
  match d with
  | [] => default
  | (k, v) :: rest => if String.eqb k key then v else dict_get rest key default
  end.

(** The JSON body of [/api/get_stock_data]; [None] is [null]. *)
Record StockData : Type := mkStockData {
  stock_data : list (string * float);          (* records {Date, Close} *)
  percent_change : option float;
  closing_cost_range : option float * option float   (* min, max *)
}.

(** [get_stock_data], from the frame the provider returned and the
    [period] query parameter when it is given.  The percent change and
    the rounding are computed exactly, where the code computes them in
    binary64: the two can differ in the last digit kept. *)
Definition get_stock_data (raw : ref) (period_arg : option string)
  : Py StockData :=
  let period := match period_arg with Some p => p | None => "1y" end in
  cleaned_data <- clean_data raw ;;
  df <- deref cleaned_data ;;
  close <- lift (getitem df "Close") ;;
  let filtered_data := combine (map strftime (index df)) close in
  let days := dict_get period_days period (252 + 1) in
  let filtered_data := tail days filtered_data in
  if days <=? length filtered_data then
    let latest_close := snd (List.last filtered_data ("", NaN)) in
    let old_close := snd (hd ("", NaN) filtered_data) in
    let percent_change :=
      round2 (mul (Float.div (sub latest_close old_close) old_close) (Fin 100)) in
    let closing_prices := map snd filtered_data in
    lo <- lift (py_min closing_prices) ;;
    hi <- lift (py_max closing_prices) ;;
    ret (mkStockData filtered_data (Some percent_change)
           (Some (round2 lo), Some (round2 hi)))
  else
    ret (mkStockData filtered_data None (None, None)).

(** [news], from the articles of the provider's response. *)
Definition news (articles : list News_Functions.Article)
  : list News_Functions.Headline :=
  News_Functions.get_news articles.

End views.
(** ** Derived notions for the remaining functions *)

Module Further.

Import Stock_Functions News_Functions Notions.

(** The entry [get_news] makes of an article. *)
Definition headline_of (a : Article) : Headline :=
  mkHeadline (source_name a) (article_title a) (article_url a).

(** The article has not been removed by the provider. *)
Definition kept (a : Article) : bool :=
  negb (String.eqb (source_name a) "[Removed]").

(** A label: 0, 1, or NaN where the probability was NaN. *)
Definition label_or_nan (x : float) : Prop :=
  x = Float.one \/ x = Float.zero \/ x = NaN.

(** The entry [predict] writes for a probability: 1 at or above 0.60,
    0 below it, and NaN exactly for a NaN probability. *)
Definition decided (p d : float) : Prop :=
  (d = Float.one <-> Float.ge p (Fin cutoff_60) = true) /\
  (d = Float.zero <-> Float.lt p (Fin cutoff_60) = true) /\
  (d = NaN <-> p = NaN).

(** A number, neither NaN nor infinite. *)
Definition finite (x : float) : Prop :=
  match x with
  | Fin _ => True
  | _ => False
  end.

(** The [{Date, Close}] records of a cleaned series. *)
Definition records (df : DataFrame) : list (string * float) :=
  combine (map Arith.strftime (index df)) (col_or_nan "Close" df).

(** The [Predictions_60%] entries of the successive windows, one after
    the other. *)
Definition window_predictions {Model : Type} `{Classifier Model}
    (X : DataFrame) (y : Series) (step : nat) (starts : list nat) (m : Model)
  : Series :=
  List.concat (map (col_or_nan "Predictions_60%")
                 (fst (walk_forward X y step starts m))).

End Further.

Module Sample2.

Import Stock_Functions News_Functions.

(** [n] daily bars from the floor on, all at price 1. *)
Definition flat_bars (n : nat) : list Bar :=
  map (fun k => Sample.bar (Z.of_nat k) 1) (seq 0 n).

Definition article (src headline : string) : Article :=
  mkArticle src "" headline "" ("https://example.org/" ++ headline)%string "" "" "".

Definition two_articles : list Article :=
  [article "[Removed]" "gone"; article "Reuters" "markets"].

End Sample2.

(** ** Proof automation *)

(** Reads the object that was allocated last, behind an updated store. *)
Ltac lookup_allocated :=
  rewrite lookup_app_r; rewrite length_insert;
  [rewrite Nat.sub_diag; reflexivity | lia].

(** Closes a bound between numerals by evaluation. *)
Ltac by_evaluation :=
  first [ apply Nat.leb_le; vm_compute; reflexivity
        | apply Nat.ltb_lt; vm_compute; reflexivity
        | vm_compute; reflexivity ].

Create HintDb reads.

(** * Properties *)

Import Stock_Functions Notions.

(** ** The probability cut-off *)

Section Threshold.

Lemma threshold_map t s : threshold t s = map (label t) s.
Proof. unfold threshold, mask_lt, mask_ge. rewrite map_map. reflexivity. Qed.

Lemma ge_Fin p t : Float.ge (Fin p) (Fin t) = true <-> (t <= p)%Q.
Proof.
  unfold Float.ge; simpl. destruct (p ?= t)%Q eqn:E.
  - apply Qeq_alt in E. split; [intros _; lra | reflexivity].
  - apply Qlt_alt in E. split; [discriminate | lra].
  - apply Qgt_alt in E. split; [intros _; lra | reflexivity].
Qed.

Lemma lt_Fin p t : Float.lt (Fin p) (Fin t) = true <-> (p < t)%Q.
Proof.
  unfold Float.lt; simpl. destruct (p ?= t)%Q eqn:E.
  - apply Qeq_alt in E. split; [discriminate | lra].
  - apply Qlt_alt in E. split; [intros _; lra | reflexivity].
  - apply Qgt_alt in E. split; [discriminate | lra].
Qed.

Lemma ge_antitone x t1 t2 :
  (t1 <= t2)%Q -> Float.ge x (Fin t2) = true -> Float.ge x (Fin t1) = true.
Proof.
  intros Ht. destruct x as [|[]|p]; try (intros; assumption || reflexivity).
  rewrite !ge_Fin. lra.
Qed.

Lemma lt_monotone x t1 t2 :
  (t1 <= t2)%Q -> Float.lt x (Fin t1) = true -> Float.lt x (Fin t2) = true.
Proof.
  intros Ht. destruct x as [|[]|p]; try (intros; assumption || reflexivity).
  rewrite !lt_Fin. lra.
Qed.

(** An entry that is neither at least [t] nor below [t] is NaN. *)
Lemma unordered_is_nan x t :
  Float.ge x (Fin t) = false -> Float.lt x (Fin t) = false -> x = NaN.
Proof.
  destruct x as [|[]|p]; try reflexivity; try discriminate.
  intros G L. destruct (Qlt_le_dec p t) as [H|H].
  - apply lt_Fin in H. congruence.
  - apply ge_Fin in H. congruence.
Qed.

Lemma one_lt_false t : Float.lt Float.one (Fin t) = false <-> (t <= 1)%Q.
Proof.
  unfold Float.one. destruct (Float.lt (Fin 1) (Fin t)) eqn:L.
  - apply lt_Fin in L. split; [discriminate | lra].
  - split; [intros _ | reflexivity].
    destruct (Qlt_le_dec 1 t) as [H|H]; [|exact H].
    apply lt_Fin in H. congruence.
Qed.

Lemma label_one_iff t x :
  label t x = Float.one <-> Float.ge x (Fin t) = true /\ (t <= 1)%Q.
Proof.
  unfold label. destruct (Float.ge x (Fin t)) eqn:G.
  - destruct (Float.lt Float.one (Fin t)) eqn:L.
    + apply lt_Fin in L. split; [discriminate | intros [_ ?]; lra].
    + apply one_lt_false in L. tauto.
  - destruct (Float.lt x (Fin t)) eqn:L.
    + split; [discriminate | intros [? _]; discriminate].
    + rewrite (unordered_is_nan x t G L).
      split; [discriminate | intros [? _]; discriminate].
Qed.

Lemma label_zero_iff t x :
  label t x = Float.zero <->
  Float.lt x (Fin t) = true \/ (Float.ge x (Fin t) = true /\ (1 < t)%Q).
Proof.
  unfold label. destruct (Float.ge x (Fin t)) eqn:G.
  - destruct (Float.lt Float.one (Fin t)) eqn:L.
    + apply lt_Fin in L. tauto.
    + apply one_lt_false in L. split; [discriminate|].
      intros [Hlt | [_ Hlt]]; [|lra].
      destruct x as [|[]|p]; try discriminate.
      apply ge_Fin in G. apply lt_Fin in Hlt. lra.
  - destruct (Float.lt x (Fin t)) eqn:L.
    + tauto.
    + rewrite (unordered_is_nan x t G L).
      split; [discriminate | intros [? | [? _]]; discriminate].
Qed.

Lemma label_cases t x :
  label t x = Float.one \/ label t x = Float.zero \/ label t x = NaN.
Proof.
  unfold label. destruct (Float.ge x (Fin t)) eqn:G.
  - destruct (Float.lt Float.one (Fin t)); auto.
  - destruct (Float.lt x (Fin t)) eqn:L; auto.
    rewrite (unordered_is_nan x t G L). auto.
Qed.

Lemma is_one_label t x :
  metrics.is_one (label t x) = true <-> label t x = Float.one.
Proof.
  destruct (label_cases t x) as [-> | [-> | ->]];
    split; (reflexivity || discriminate).
Qed.

Lemma label_one_antitone t1 t2 x :
  (t1 <= t2)%Q -> label t2 x = Float.one -> label t1 x = Float.one.
Proof.
  intros Ht. rewrite !label_one_iff. intros [G H1].
  split; [eapply ge_antitone; eassumption | lra].
Qed.

Lemma label_zero_monotone t1 t2 x :
  (t1 <= t2)%Q -> label t1 x = Float.zero -> label t2 x = Float.zero.
Proof.
  intros Ht. rewrite !label_zero_iff. intros [L | [G H1]].
  - left. eapply lt_monotone; eassumption.
  - destruct (Float.ge x (Fin t2)) eqn:G2.
    + right. split; [reflexivity | lra].
    + left. destruct (Float.lt x (Fin t2)) eqn:L2; [reflexivity|].
      rewrite (unordered_is_nan x t2 G2 L2) in G. discriminate.
Qed.

Lemma count_ones_antitone t1 t2 s :
  (t1 <= t2)%Q ->
  count_ones (threshold t2 s) <= count_ones (threshold t1 s).
Proof.
  intros Ht. rewrite !threshold_map. unfold count_ones.
  induction s as [|x s IH]; simpl; [lia|].
  destruct (metrics.is_one (label t2 x)) eqn:E2.
  - apply is_one_label in E2. apply (label_one_antitone t1 t2 x Ht) in E2.
    rewrite E2. simpl. lia.
  - destruct (metrics.is_one (label t1 x)); simpl; lia.
Qed.

End Threshold.

(** C7. With the cut-off 0.60 of [predict], a probability [p] between 0
    and 1 gets label 1 exactly when [p >= 0.60] and label 0 exactly when
    [p < 0.60]; the boundary 0.60 itself gets 1. *)
Theorem threshold_60_decides (p : Q) :
  (0 <= p <= 1)%Q ->
  exists l : float,
    threshold cutoff_60 [Fin p] = [l] /\
    (l = Float.one <-> (6 # 10 <= p)%Q) /\
    (l = Float.zero <-> (p < 6 # 10)%Q) /\
    threshold cutoff_60 [Fin (6 # 10)] = [Float.one].
Proof.
  intros _. exists (label cutoff_60 (Fin p)).
  split; [apply threshold_map|].
  split; [|split; [|reflexivity]].
  - rewrite label_one_iff, ge_Fin. unfold cutoff_60. split; [tauto|].
    intros. split; [assumption | lra].
  - rewrite label_zero_iff, ge_Fin, lt_Fin. unfold cutoff_60. split.
    + intros [? | [_ ?]]; [assumption | lra].
    + auto.
Qed.

Lemma threshold_60_decides_at_boundary :
  (0 <= 6 # 10 <= 1)%Q /\
  exists l : float,
    threshold cutoff_60 [Fin (6 # 10)] = [l] /\
    (l = Float.one <-> (6 # 10 <= 6 # 10)%Q) /\
    (l = Float.zero <-> (6 # 10 < 6 # 10)%Q) /\
    threshold cutoff_60 [Fin (6 # 10)] = [Float.one].
Proof.
  assert (Hp : (0 <= 6 # 10 <= 1)%Q) by (split; discriminate).
  split; [exact Hp | exact (threshold_60_decides (6 # 10) Hp)].
Defined.

(** C9. Raising the cut-off from [t1] to [t2] never turns a 0 into a 1:
    an entry labelled 1 under [t2] is labelled 1 under [t1], an entry
    labelled 0 under [t1] is labelled 0 under [t2], and a probability
    column has at most as many 1-decisions under [t2] as under [t1]. *)
Theorem threshold_monotone (t1 t2 : Q) :
  (t1 <= t2)%Q ->
  (forall x : float,
      threshold t2 [x] = [Float.one] -> threshold t1 [x] = [Float.one]) /\
  (forall x : float,
      threshold t1 [x] = [Float.zero] -> threshold t2 [x] = [Float.zero]) /\
  (forall preds : Series,
      count_ones (threshold t2 preds) <= count_ones (threshold t1 preds)).
Proof.
  intros Ht. repeat split.
  - intros x. rewrite !threshold_map. simpl. intros [= E].
    f_equal. eapply label_one_antitone; eassumption.
  - intros x. rewrite !threshold_map. simpl. intros [= E].
    f_equal. eapply label_zero_monotone; eassumption.
  - intros preds. apply count_ones_antitone, Ht.
Qed.

Lemma threshold_monotone_50_60 :
  (5 # 10 <= 6 # 10)%Q /\
  (forall x : float,
      threshold (6 # 10) [x] = [Float.one] ->
      threshold (5 # 10) [x] = [Float.one]) /\
  (forall x : float,
      threshold (5 # 10) [x] = [Float.zero] ->
      threshold (6 # 10) [x] = [Float.zero]) /\
  (forall preds : Series,
      count_ones (threshold (6 # 10) preds)
      <= count_ones (threshold (5 # 10) preds)).
Proof.
  assert (Ht : (5 # 10 <= 6 # 10)%Q) by discriminate.
  split; [exact Ht | exact (threshold_monotone (5 # 10) (6 # 10) Ht)].
Defined.

(** ** Running programs against the store *)

Section Store.

Lemma bind_ok {A B} (m : Py A) (k : A -> Py B) h a h' :
  m h = (Ok a, h') -> bind m k h = k a h'.
Proof. unfold bind. intros ->. reflexivity. Qed.

Lemma deref_at (h : list DataFrame) data df :
  h !! data = Some df -> deref data h = (Ok df, h).
Proof. unfold deref. intros ->. reflexivity. Qed.

Lemma held_again (h : list DataFrame) data df :
  data < length h -> <[data := df]> h !! data = Some df.
Proof. apply list_lookup_insert_eq. Qed.

Lemma run_del (h : list DataFrame) data df df' name :
  data < length h -> delitem df name = Ok df' ->
  obj.del data name (<[data := df]> h) = (Ok tt, <[data := df']> h).
Proof.
  intros Hlt Hdel. unfold obj.del.
  rewrite (bind_ok _ _ _ _ _ (deref_at _ _ _ (held_again _ _ df Hlt))).
  unfold lift, bind, assign. rewrite Hdel, list_insert_insert_eq. reflexivity.
Qed.

Lemma run_get (h : list DataFrame) data df c name :
  h !! data = Some df -> getitem df name = Ok c ->
  obj.get data name h = (Ok c, h).
Proof.
  intros Hh Hget. unfold obj.get.
  rewrite (bind_ok _ _ _ _ _ (deref_at _ _ _ Hh)).
  unfold lift. rewrite Hget. reflexivity.
Qed.

Lemma run_set (h : list DataFrame) data df c name :
  data < length h -> length c = shape0 df ->
  obj.set data name c (<[data := df]> h)
  = (Ok tt, <[data := mkFrame (index df) (assign_col name c (columns df))]> h).
Proof.
  intros Hlt Hlen. unfold obj.set.
  rewrite (bind_ok _ _ _ _ _ (deref_at _ _ _ (held_again _ _ df Hlt))).
  unfold lift, bind, assign, setitem.
  rewrite Hlen, Nat.eqb_refl, list_insert_insert_eq. reflexivity.
Qed.

Lemma run_shape0 (h : list DataFrame) data df :
  h !! data = Some df -> obj.shape0 data h = (Ok (shape0 df), h).
Proof.
  intros Hh. unfold obj.shape0.
  rewrite (bind_ok _ _ _ _ _ (deref_at _ _ _ Hh)). reflexivity.
Qed.

Lemma run_iloc_copy (h : list DataFrame) data df a b :
  h !! data = Some df -> obj.iloc_copy data a b h = (Ok (iloc a b df), h).
Proof.
  intros Hh. unfold obj.iloc_copy.
  rewrite (bind_ok _ _ _ _ _ (deref_at _ _ _ Hh)). reflexivity.
Qed.

End Store.

(** ** [clean_data] *)

Section Cleaning.

Lemma length_shift p (s : Series) : length (shift p s) = length s.
Proof.
  unfold shift. destruct (p <? 0)%Z;
    rewrite length_app, repeat_length.
  - rewrite length_drop. lia.
  - rewrite length_take. lia.
Qed.

Lemma length_gt (a b : Series) :
  length a = length b -> length (gt a b) = length a.
Proof.
  revert b. induction a as [|x a IH]; intros [|y b]; simpl; try lia.
  intros [= E]. rewrite IH; auto.
Qed.

Lemma length_astype_int bs : length (astype_int bs) = length bs.
Proof. apply length_map. Qed.

(** [clean_data] on the provider's frame: it succeeds, edits the frame
    it was given into [labelled bars] and returns a new object holding
    [cleaned bars]. *)
Lemma clean_data_run (h : list DataFrame) data bars :
  h !! data = Some (history bars) ->
  clean_data data h
  = (Ok (length h), <[data := labelled bars]> h ++ [cleaned bars]).
Proof.
  intros Hh. pose proof (lookup_lt_Some _ _ _ Hh) as Hlt.
  rewrite <- (list_insert_id h data (history bars) Hh) at 1.
  unfold clean_data, history.
  do 6 (erewrite bind_ok; [|apply run_del; [exact Hlt | reflexivity]]).
  erewrite bind_ok;
    [|eapply run_get; [apply held_again, Hlt | reflexivity]].
  erewrite bind_ok; [|apply run_set; [exact Hlt|]].
  2:{ rewrite length_shift. unfold shape0. simpl. rewrite !length_map. reflexivity. }
  erewrite bind_ok;
    [|eapply run_get; [apply held_again, Hlt | reflexivity]].
  erewrite bind_ok;
    [|eapply run_get; [apply held_again, Hlt | reflexivity]].
  erewrite bind_ok; [|apply run_set; [exact Hlt|]].
  2:{ rewrite length_astype_int, length_gt; rewrite length_shift;
      unfold shape0; simpl; rewrite ?length_map; reflexivity. }
  erewrite bind_ok; [|apply deref_at, held_again, Hlt].
  unfold alloc. rewrite length_insert. reflexivity.
Qed.

End Cleaning.

Section LastLabel.

Lemma shift_back_snoc (s : Series) :
  s <> [] -> shift (-1) s = drop 1 s ++ [NaN].
Proof.
  destruct s as [|x s]; [congruence|]. intros _.
  unfold shift. simpl. reflexivity.
Qed.

Lemma gt_snoc_nan (a b : Series) :
  length b = S (length a) -> gt (a ++ [NaN]) b = gt a b ++ [false].
Proof.
  revert b. induction a as [|x a IH]; intros [|y b]; simpl; try lia.
  - destruct b; [reflexivity | simpl; lia].
  - intros [= E]. rewrite IH; [reflexivity | exact E].
Qed.

Lemma last_drop {A} (l : list A) k :
  k < length l -> last (drop k l) = last l.
Proof.
  revert k. induction l as [|x l IH]; intros k; simpl; [lia|].
  destruct k as [|k]; [reflexivity|]. simpl. intros Hk.
  rewrite IH by lia. destruct l; [simpl in Hk; lia | reflexivity].
Qed.

(** The last entries of the two new columns, before the floor cut. *)
Lemma labelled_last (bars : list Bar) :
  bars <> [] ->
  last (shift (-1) (map Close bars)) = Some NaN /\
  last (astype_int (gt (shift (-1) (map Close bars)) (map Close bars)))
  = Some Float.zero.
Proof.
  intros Hne.
  assert (Hcl : map Close bars <> []) by (destruct bars; [congruence | discriminate]).
  rewrite (shift_back_snoc _ Hcl). split; [apply last_snoc|].
  rewrite gt_snoc_nan.
  - unfold astype_int. rewrite map_app. apply last_snoc.
  - rewrite length_drop. destruct (map Close bars); [congruence | simpl; lia].
Qed.

End LastLabel.

Section FloorCut.

Lemma filter_all {A} (p : A -> bool) (l : list A) :
  Forall (fun x => p x = true) l -> List.filter p l = l.
Proof.
  induction 1 as [|x l Hx _ IH]; simpl; [reflexivity|].
  rewrite Hx, IH. reflexivity.
Qed.

(** On ascending dates the cut keeps exactly the bars dated on or after
    the floor. *)
Lemma floor_cut_bars (label : Z) (bars : list Bar) :
  Sorted Z.lt (map Date bars) ->
  drop (first_not_before label (map Date bars)) bars
  = List.filter (fun b => (label <=? Date b)%Z) bars.
Proof.
  intros Hs. apply Sorted_StronglySorted in Hs; [|intros x y z; apply Z.lt_trans].
  induction bars as [|b rest IH]; [reflexivity|].
  inversion Hs as [|? ? Hrest Hd]; subst.
  simpl. destruct (Date b <? label)%Z eqn:E.
  - apply Z.ltb_lt in E.
    assert (E' : (label <=? Date b)%Z = false) by (apply Z.leb_gt; exact E).
    rewrite E'. apply IH, Hrest.
  - apply Z.ltb_ge in E.
    assert (E' : (label <=? Date b)%Z = true) by (apply Z.leb_le; exact E).
    rewrite E'. simpl. f_equal. symmetry. apply filter_all.
    apply List.Forall_forall. intros x Hx.
    assert (Hin : In (Date x) (map Date rest)) by (apply in_map; exact Hx).
    pose proof (proj1 (List.Forall_forall _ _) Hd _ Hin) as Hlt. simpl in Hlt.
    apply Z.leb_le. lia.
Qed.

Lemma last_map {A B} (f : A -> B) (l : list A) x :
  last l = Some x -> last (map f l) = Some (f x).
Proof.
  induction l as [|a l IH]; [discriminate|].
  destruct l as [|a' l]; [intros [= ->]; reflexivity|].
  intros H. apply IH, H.
Qed.

(** A last date on or after the floor survives the cut. *)
Lemma first_not_before_last (label : Z) (idx : list Z) d :
  last idx = Some d -> (label <= d)%Z ->
  first_not_before label idx < length idx.
Proof.
  induction idx as [|x idx IH]; [discriminate|].
  intros Hl Hd. cbn [first_not_before length].
  destruct (x <? label)%Z eqn:E; [|lia].
  destruct idx as [|x' idx].
  - injection Hl as ->. apply Z.ltb_lt in E. lia.
  - specialize (IH Hl Hd). lia.
Qed.

Lemma cleaned_close_length (bars : list Bar) :
  length (col_or_nan "Close" (cleaned bars)) = length (index (cleaned bars)).
Proof.
  unfold cleaned, loc_from, iloc_from, labelled, col_or_nan. simpl.
  rewrite !length_drop, !length_map. reflexivity.
Qed.

End FloorCut.




(** C10. On bars in ascending date order whose last bar is dated on or
    after the floor, the frame [clean_data] returns ends with that bar:
    its last row carries the date and close of the last bar, an undefined
    [Tomorrow], and [Target] 0, the outcome of comparing NaN with the
    close.  (With the last bar before the floor the frame has no row.) *)
Theorem clean_data_last_target (h : list DataFrame) (data : ref)
    (bars : list Stock_Functions.Bar) (b : Stock_Functions.Bar) :
  h !! data = Some (history bars) ->
  Sorted Z.lt (map Date bars) ->
  last bars = Some b ->
  (floor_date <= Date b)%Z ->
  exists (out : ref) (h' : list DataFrame) (df : DataFrame)
         (close tomorrow target : Series),
    clean_data data h = (Ok out, h') /\
    h' !! out = Some df /\
    index df
    = map Date (List.filter (fun b => (floor_date <=? Date b)%Z) bars) /\
    columns df = [("Close", close); ("Tomorrow", tomorrow); ("Target", target)] /\
    close = map Close (List.filter (fun b => (floor_date <=? Date b)%Z) bars) /\
    last (index df) = Some (Date b) /\
    last close = Some (Close b) /\
    last tomorrow = Some NaN /\
    last target = Some Float.zero.
Proof.
  intros Hh Hs Hlast Hfloor. rewrite (clean_data_run h data bars Hh).
  set (k := first_not_before floor_date (map Date bars)).
  assert (Hne : bars <> []) by (intros ->; discriminate).
  assert (Hk : k < length bars).
  { rewrite <- (length_map Date).
    apply (first_not_before_last floor_date (map Date bars) (Date b));
      [apply last_map, Hlast | exact Hfloor]. }
  assert (Hlen : length (astype_int (gt (shift (-1) (map Close bars)) (map Close bars)))
                 = length bars).
  { rewrite length_astype_int, length_gt; rewrite length_shift, ?length_map; reflexivity. }
  destruct (labelled_last bars Hne) as [Ht Hl].
  exists (length h), (<[data := labelled bars]> h ++ [cleaned bars]), (cleaned bars).
  exists (drop k (map Close bars)), (drop k (shift (-1) (map Close bars))).
  exists (drop k (astype_int (gt (shift (-1) (map Close bars)) (map Close bars)))).
  split; [reflexivity|].
  split; [lookup_allocated|].
  rewrite <- (floor_cut_bars floor_date bars Hs), <- !skipn_map. fold k.
  split; [reflexivity|]. split; [reflexivity|]. split; [reflexivity|].
  change (index (cleaned bars)) with (drop k (map Date bars)).
  rewrite !last_drop by (rewrite ?Hlen, ?length_shift, ?length_map; exact Hk).
  split; [apply last_map, Hlast|]. split; [apply last_map, Hlast|].
  split; assumption.
Qed.

Lemma clean_data_last_target_three_bars :
  [history Sample.three_bars] !! 0 = Some (history Sample.three_bars) /\
  Sorted Z.lt (map Date Sample.three_bars) /\
  last Sample.three_bars = Some (Sample.bar 3 11) /\
  (floor_date <= Date (Sample.bar 3 11))%Z /\
  exists (out : ref) (h' : list DataFrame) (df : DataFrame)
         (close tomorrow target : Series),
    clean_data 0 [history Sample.three_bars] = (Ok out, h') /\
    h' !! out = Some df /\
    index df = [10959; 10960]%Z /\
    columns df = [("Close", close); ("Tomorrow", tomorrow); ("Target", target)] /\
    close = [Fin 12; Fin 11] /\
    last (index df) = Some 10960%Z /\
    last close = Some (Fin 11) /\
    last tomorrow = Some NaN /\
    last target = Some Float.zero.
Proof.
  assert (Hs : Sorted Z.lt (map Date Sample.three_bars))
    by (repeat (constructor; try reflexivity)).
  assert (Hf : (floor_date <= Date (Sample.bar 3 11))%Z) by (vm_compute; discriminate).
  split; [reflexivity|]. split; [exact Hs|]. split; [reflexivity|].
  split; [exact Hf|].
  exact (clean_data_last_target [history Sample.three_bars] 0
           Sample.three_bars (Sample.bar 3 11) eq_refl Hs eq_refl Hf).
Defined.

(** ** [add_predictors] *)

Section Features.

Lemma length_truediv (a b : Series) :
  length a = length b -> length (truediv a b) = length a.
Proof.
  revert b. induction a as [|x a IH]; intros [|y b]; simpl; try lia.
  intros [= E]. rewrite IH; auto.
Qed.

Lemma length_rolling_mean w (s : Series) : length (rolling_mean w s) = length s.
Proof. unfold rolling_mean. rewrite length_map, length_seq. reflexivity. Qed.

Lemma length_ratio w (s : Series) : length (ratio w s) = length s.
Proof.
  unfold ratio. apply length_truediv. symmetry. apply length_rolling_mean.
Qed.

(** The loop of [add_predictors] on a cleaned series. *)
Lemma add_ratios_run (h : list DataFrame) data idx close tomorrow target :
  data < length h ->
  length close = length idx ->
  add_ratios data benchmarks []
    (<[data := cleaned_series idx close tomorrow target]> h)
  = (Ok (map ratio_column benchmarks),
     <[data := with_ratios idx close tomorrow target]> h).
Proof.
  intros Hlt Hlen. unfold cleaned_series, benchmarks, add_ratios.
  do 6 (erewrite bind_ok;
          [|eapply run_get; [apply held_again, Hlt | reflexivity]];
        erewrite bind_ok;
          [|apply run_set; [exact Hlt | apply (eq_trans (length_ratio _ _) Hlen)]]).
  reflexivity.
Qed.

(** [add_predictors] on a cleaned series: it adds the six ratio columns
    to the frame it was given and returns a new object with the rows
    that are complete. *)
Lemma add_predictors_run (h : list DataFrame) data idx close tomorrow target :
  h !! data = Some (cleaned_series idx close tomorrow target) ->
  length close = length idx ->
  add_predictors data h
  = (Ok (length h, map ratio_column benchmarks),
     <[data := with_ratios idx close tomorrow target]> h
     ++ [featured idx close tomorrow target]).
Proof.
  intros Hh Hlen. pose proof (lookup_lt_Some _ _ _ Hh) as Hlt.
  rewrite <- (list_insert_id h data _ Hh) at 1.
  unfold add_predictors.
  erewrite bind_ok; [|apply add_ratios_run; assumption].
  erewrite bind_ok; [|apply deref_at, held_again, Hlt].
  unfold bind, lift, alloc, ret. simpl. rewrite length_insert. reflexivity.
Qed.

Lemma nth_truediv (a b : Series) k :
  length a = length b ->
  nth k (truediv a b) NaN = Float.div (nth k a NaN) (nth k b NaN).
Proof.
  revert b k. induction a as [|x a IH]; intros [|y b] k; simpl; try lia.
  - destruct k; reflexivity.
  - intros [= E]. destruct k; [reflexivity | apply IH, E].
Qed.

Lemma nth_map_seq {A} (f : nat -> A) s n k d :
  k < n -> nth k (map f (seq s n)) d = f (s + k).
Proof.
  intros Hk. rewrite (nth_indep _ d (f 0)) by (rewrite length_map, length_seq; exact Hk).
  rewrite (map_nth f), seq_nth by exact Hk. reflexivity.
Qed.

Lemma nth_rolling_mean w (s : Series) k :
  k < length s ->
  nth k (rolling_mean w s) NaN
  = if k + 1 <? w then NaN else window_mean (slice (k + 1 - w) (k + 1) s).
Proof.
  intros Hk. unfold rolling_mean. rewrite nth_map_seq by exact Hk. reflexivity.
Qed.

Lemma div_nan_r x : Float.div x NaN = NaN.
Proof. destruct x as [|[]|q]; reflexivity. Qed.

(** A ratio is undefined until its window is full. *)
Lemma ratio_early w (s : Series) k :
  k + 1 < w -> nth k (ratio w s) NaN = NaN.
Proof.
  intros Hk. destruct (Nat.lt_ge_cases k (length s)) as [Hlt|Hge].
  - unfold ratio. rewrite nth_truediv by (symmetry; apply length_rolling_mean).
    rewrite nth_rolling_mean by exact Hlt.
    apply Nat.ltb_lt in Hk. rewrite Hk. apply div_nan_r.
  - apply nth_overflow. rewrite length_ratio. exact Hge.
Qed.

Lemma window_sum_positive (w : Series) :
  Forall positive w ->
  exists s, window_sum w = Some s /\ (0 <= s)%Q /\ (w <> [] -> (0 < s)%Q).
Proof.
  induction 1 as [|x w Hx Hw (s & Hs & Hs0 & _)].
  - exists 0%Q. repeat split; [lra | congruence].
  - destruct x as [| |q]; simpl in Hx; try contradiction.
    exists (q + s)%Q. simpl. rewrite Hs. repeat split; [lra | intros _; lra].
Qed.

Lemma window_mean_positive (w : Series) :
  Forall positive w -> w <> [] -> positive (window_mean w).
Proof.
  intros Hw Hne. destruct (window_sum_positive w Hw) as (s & Hs & _ & Hpos).
  specialize (Hpos Hne). unfold window_mean. rewrite Hs.
  destruct w as [|x w]; [congruence|]. simpl positive.
  apply Qlt_shift_div_l; [|lra].
  change 0%Q with (inject_Z 0). rewrite <- Zlt_Qlt. simpl length. lia.
Qed.

Lemma div_positive x y : positive x -> positive y -> positive (Float.div x y).
Proof.
  destruct x as [| |a], y as [| |b]; simpl; try contradiction.
  intros Ha Hb. unfold Float.Qzero.
  destruct (b ?= 0)%Q eqn:E.
  - apply Qeq_alt in E. lra.
  - apply Qlt_alt in E. lra.
  - simpl. apply Qlt_shift_div_l; lra.
Qed.

Lemma positive_not_na x : positive x -> Float.isna x = false.
Proof. destruct x; simpl; [contradiction | reflexivity | reflexivity]. Qed.

(** With positive prices a ratio is defined as soon as its window is
    full. *)
Lemma ratio_late w (s : Series) k :
  Forall positive s -> 0 < w -> w <= k + 1 -> k < length s ->
  positive (nth k (ratio w s) NaN).
Proof.
  intros Hs Hw Hwk Hk. unfold ratio.
  rewrite nth_truediv by (symmetry; apply length_rolling_mean).
  rewrite nth_rolling_mean by exact Hk.
  assert (E : (k + 1 <? w) = false) by (apply Nat.ltb_ge; exact Hwk).
  rewrite E. apply div_positive.
  - apply Forall_nth; [exact Hs | exact Hk].
  - apply window_mean_positive.
    + unfold slice. apply Forall_take, Forall_drop, Hs.
    + intros Hnil. apply (f_equal (@length float)) in Hnil.
      unfold slice in Hnil. rewrite length_take, length_drop in Hnil.
      simpl in Hnil. lia.
Qed.

Lemma compress_nil_r {A} mask : compress mask (@nil A) = [].
Proof. destruct mask as [|[]]; reflexivity. Qed.

Lemma compress_sublist {A} mask (l : list A) : compress mask l `sublist_of` l.
Proof.
  revert l. induction mask as [|m mask IH]; intros [|x l]; simpl;
    try apply sublist_nil_l.
  destruct m; [apply sublist_skip | apply sublist_cons]; apply IH.
Qed.

(** A mask that is unset on its first [m] positions drops them. *)
Lemma compress_skip {A} (f : nat -> bool) m : forall s n (l : list A),
  (forall k, k < m -> f (s + k) = false) -> m <= n ->
  compress (map f (seq s n)) l
  = compress (map f (seq (s + m) (n - m))) (drop m l).
Proof.
  induction m as [|m IH]; intros s n l Hf Hmn.
  - rewrite Nat.add_0_r, Nat.sub_0_r. reflexivity.
  - destruct n as [|n]; [lia|]. simpl seq. simpl map.
    destruct l as [|x l]; [rewrite drop_nil, !compress_nil_r; reflexivity|].
    simpl compress. pose proof (Hf 0 ltac:(lia)) as H0.
    rewrite Nat.add_0_r in H0. rewrite H0.
    rewrite (IH (S s) n l); [|intros k Hk|lia].
    + replace (S s + m) with (s + S m) by lia. reflexivity.
    + replace (S s + k) with (s + S k) by lia. apply Hf. lia.
Qed.

(** A mask that is set everywhere keeps everything. *)
Lemma compress_all {A} (f : nat -> bool) : forall n s (l : list A),
  (forall k, k < n -> f (s + k) = true) -> length l = n ->
  compress (map f (seq s n)) l = l.
Proof.
  induction n as [|n IH]; intros s [|x l] Hf Hl; simpl in *; try lia;
    try reflexivity.
  pose proof (Hf 0 ltac:(lia)) as H0. rewrite Nat.add_0_r in H0. rewrite H0.
  f_equal. apply IH; [|lia].
  intros k Hk. replace (S s + k) with (s + S k) by lia. apply Hf. lia.
Qed.

Lemma horizon_is : horizon = 1260.
Proof. reflexivity. Qed.

(** No row is complete before the longest window is full. *)
Lemma complete_early close target k :
  k < horizon - 1 ->
  row_complete (close :: target :: map (fun w => ratio w close) benchmarks) k
  = false.
Proof.
  intros Hk. rewrite horizon_is in Hk.
  destruct (row_complete _ k) eqn:E; [|reflexivity].
  unfold row_complete in E. rewrite forallb_forall in E.
  specialize (E (ratio (252 * 5) close)).
  rewrite ratio_early in E by (change (252 * 5) with 1260; lia).
  discriminate E. unfold benchmarks. cbn [map In]. auto 10.
Qed.

Lemma benchmarks_bounds : Forall (fun w => 0 < w <= horizon) benchmarks.
Proof.
  apply List.Forall_forall. intros w Hw.
  assert (E : forallb (fun w => (0 <? w) && (w <=? horizon)) benchmarks = true)
    by reflexivity.
  rewrite forallb_forall in E. specialize (E w Hw).
  apply andb_true_iff in E as [E1 E2].
  apply Nat.ltb_lt in E1. apply Nat.leb_le in E2. split; assumption.
Qed.

(** With positive prices and defined targets every later row is
    complete. *)
Lemma complete_late close target k :
  Forall positive close -> Forall (fun x => Float.isna x = false) target ->
  length target = length close ->
  horizon - 1 <= k -> k < length close ->
  row_complete (close :: target :: map (fun w => ratio w close) benchmarks) k
  = true.
Proof.
  intros Hc Ht Hlen Hk Hkn. unfold row_complete. apply forallb_forall.
  intros c [<- | [<- | Hin]].
  - apply negb_true_iff, positive_not_na, Forall_nth; assumption.
  - apply negb_true_iff.
    apply (proj1 (Forall_nth (fun x => Float.isna x = false) NaN target) Ht k). lia.
  - apply in_map_iff in Hin as (w & <- & Hw).
    pose proof (proj1 (List.Forall_forall _ _) benchmarks_bounds w Hw) as [Hw0 Hw1].
    apply negb_true_iff, positive_not_na, ratio_late; try assumption. lia.
Qed.

(** Rows of the returned frame come from position [horizon - 1] on, in
    the order of the input. *)
Lemma featured_index_late idx close tomorrow target :
  index (featured idx close tomorrow target)
    `sublist_of` drop (horizon - 1) idx.
Proof.
  unfold featured, complete. simpl index.
  destruct (Nat.le_gt_cases (horizon - 1) (length idx)) as [Hle|Hgt].
  - rewrite (compress_skip _ (horizon - 1) 0 (length idx) idx);
      [apply compress_sublist | | exact Hle].
    intros k Hk. apply complete_early. exact Hk.
  - rewrite drop_ge by lia.
    rewrite (compress_skip _ (length idx) 0 (length idx) idx);
      [|intros k Hk; apply complete_early; lia | lia].
    rewrite drop_all, compress_nil_r. constructor.
Qed.

(** With at least [horizon] rows of positive prices the returned frame
    is the input from row [horizon - 1] on, ratios included. *)
Lemma featured_exact idx close tomorrow target :
  length close = length idx -> length tomorrow = length idx ->
  length target = length idx ->
  Forall positive close -> Forall (fun x => Float.isna x = false) target ->
  featured idx close tomorrow target
  = iloc_from (horizon - 1) (with_ratios idx close tomorrow target).
Proof.
  intros Hc Htm Htg Hpos Hna. unfold featured, iloc_from.
  assert (Hmask : forall {A} (l : list A), length l = length idx ->
            compress (complete close target (length idx)) l = drop (horizon - 1) l).
  { intros A l Hl. unfold complete.
    destruct (Nat.le_gt_cases (horizon - 1) (length idx)) as [Hle|Hgt].
    - rewrite (compress_skip _ (horizon - 1) 0 (length idx) l);
        [|intros k Hk; apply complete_early, Hk | exact Hle].
      apply compress_all; [|rewrite length_drop; lia].
      intros k Hk. apply complete_late; try assumption; lia.
    - rewrite (compress_skip _ (length idx) 0 (length idx) l);
        [|intros k Hk; apply complete_early; lia | lia].
      rewrite <- Hl, drop_all, compress_nil_r, drop_ge by lia. reflexivity. }
  cbv zeta. rewrite (Hmask _ idx eq_refl). f_equal. unfold map_columns.
  apply map_ext_in. intros [n c] Hin. simpl. f_equal. apply Hmask.
  unfold with_ratios in Hin. cbn [columns app] in Hin.
  destruct Hin as [E | [E | [E | Hin]]]; try (inversion E; subst; assumption).
  apply in_map_iff in Hin as (w & E & _). inversion E; subst.
  rewrite length_ratio. exact Hc.
Qed.

Lemma Forall_repeat_same {A} (P : A -> Prop) x n : P x -> Forall P (repeat x n).
Proof. intros Hx. induction n; simpl; constructor; assumption. Qed.

End Features.

(** C6 (as amended). Rows of the frame [add_predictors] returns come from
    position [horizon - 1] on of the cleaned series, in the order of the
    input, so there are at most [length - (horizon - 1)] of them; when the
    series has at least [horizon] rows, positive closes and defined
    targets, the returned frame is exactly the input from row
    [horizon - 1] on: its first row is that row, it is [horizon - 1] rows
    shorter and no later row is missing. *)
Theorem add_predictors_boundary (h : list DataFrame) (data : ref)
    (idx : list Z) (close tomorrow target : Series) :
  h !! data = Some (cleaned_series idx close tomorrow target) ->
  length close = length idx ->
  length tomorrow = length idx ->
  length target = length idx ->
  exists (out : ref) (new_predictors : list string) (h' : list DataFrame)
         (df : DataFrame),
    add_predictors data h = (Ok (out, new_predictors), h') /\
    h' !! out = Some df /\
    index df `sublist_of` drop (horizon - 1) idx /\
    shape0 df <= length idx - (horizon - 1) /\
    (horizon <= length idx ->
     Forall positive close ->
     Forall (fun x => Float.isna x = false) target ->
     df = iloc_from (horizon - 1) (with_ratios idx close tomorrow target) /\
     index df = drop (horizon - 1) idx /\
     head (index df) = idx !! (horizon - 1) /\
     shape0 df + (horizon - 1) = length idx).
Proof.
  intros Hh Hc Htm Htg.
  exists (length h), (map ratio_column benchmarks).
  exists (<[data := with_ratios idx close tomorrow target]> h
          ++ [featured idx close tomorrow target]).
  exists (featured idx close tomorrow target).
  split; [apply add_predictors_run; assumption|].
  split; [lookup_allocated|].
  split; [apply featured_index_late|].
  split.
  - pose proof (sublist_length _ _ (featured_index_late idx close tomorrow target)) as Hl.
    rewrite length_drop in Hl. exact Hl.
  - intros Hn Hpos Hna.
    rewrite (featured_exact idx close tomorrow target Hc Htm Htg Hpos Hna).
    split; [reflexivity|]. unfold iloc_from, shape0, with_ratios. cbn [index].
    split; [reflexivity|]. split.
    + rewrite head_lookup, lookup_drop, Nat.add_0_r. reflexivity.
    + rewrite length_drop. lia.
Qed.

Lemma add_predictors_boundary_flat :
  [Sample.flat_series 1262] !! 0 = Some (Sample.flat_series 1262) /\
  horizon <= length (Sample.flat_index 1262) /\
  Forall positive (Sample.flat_close 1262) /\
  exists (h' : list DataFrame) (df : DataFrame),
    add_predictors 0 [Sample.flat_series 1262]
    = (Ok (1, map ratio_column benchmarks), h') /\
    h' !! 1 = Some df /\
    index df = [12216%Z; 12217%Z; 12218%Z] /\
    shape0 df = 3.
Proof.
  assert (Hlen : length (Sample.flat_close 1262) = length (Sample.flat_index 1262))
    by (vm_compute; reflexivity).
  assert (Htm : length (Sample.flat_tomorrow 1262) = length (Sample.flat_index 1262))
    by (vm_compute; reflexivity).
  assert (Htg : length (Sample.flat_target 1262) = length (Sample.flat_index 1262))
    by (vm_compute; reflexivity).
  assert (Hn : horizon <= length (Sample.flat_index 1262))
    by (apply Nat.leb_le; vm_compute; reflexivity).
  assert (Hpos : Forall positive (Sample.flat_close 1262))
    by (apply Forall_repeat_same; reflexivity).
  assert (Hna : Forall (fun x => Float.isna x = false) (Sample.flat_target 1262))
    by (apply Forall_repeat_same; reflexivity).
  split; [reflexivity|]. split; [exact Hn|]. split; [exact Hpos|].
  destruct (add_predictors_boundary [Sample.flat_series 1262] 0
              (Sample.flat_index 1262) (Sample.flat_close 1262)
              (Sample.flat_tomorrow 1262) (Sample.flat_target 1262)
              eq_refl Hlen Htm Htg)
    as (out & names & h' & df & Hrun & Hdf & _ & _ & Hexact).
  destruct (Hexact Hn Hpos Hna) as (_ & Hidx & _ & Hshape).
  exists h', df.
  assert (Hout : (out, names) = (1, map ratio_column benchmarks)).
  { pose proof (add_predictors_run [Sample.flat_series 1262] 0
                  (Sample.flat_index 1262) (Sample.flat_close 1262)
                  (Sample.flat_tomorrow 1262) (Sample.flat_target 1262)
                  eq_refl Hlen) as Hrun'.
    rewrite Hrun in Hrun'. inversion Hrun'. reflexivity. }
  inversion Hout; subst out names.
  split; [exact Hrun|]. split; [exact Hdf|].
  split; [rewrite Hidx; vm_compute; reflexivity|].
  unfold shape0. rewrite Hidx. vm_compute. reflexivity.
Defined.

(** A cleaned series of two rows: the returned frame is empty, which is
    two rows shorter, not [horizon - 1]. *)
Lemma add_predictors_short_series :
  exists (h' : list DataFrame) (df : DataFrame),
    add_predictors 0 [cleaned Sample.three_bars]
    = (Ok (1, map ratio_column benchmarks), h') /\
    h' !! 1 = Some df /\
    shape0 (cleaned Sample.three_bars) = 2 /\
    shape0 df = 0 /\
    ~ (shape0 df + (horizon - 1) <= shape0 (cleaned Sample.three_bars)).
Proof.
  eexists _, _. split; [vm_compute; reflexivity|].
  split; [reflexivity|]. split; [reflexivity|]. split; [reflexivity|].
  intros H. apply Nat.leb_le in H. vm_compute in H. discriminate H.
Qed.

(** ** Precision *)

Section Precision.

Import metrics.

Lemma positives_counts (y_true y_pred : Series) :
  length y_true = length y_pred ->
  positives y_true y_pred
  = (true_positives y_true y_pred, count_ones y_pred).
Proof.
  revert y_pred. induction y_true as [|t y_true IH]; intros [|p y_pred];
    simpl; try lia; [reflexivity|].
  intros [= E]. rewrite (IH _ E).
  unfold true_positives, count_ones. simpl.
  destruct (is_one p), (is_one t); reflexivity.
Qed.

Lemma as_class_label x :
  is_label x = true -> as_class x = Some 0%Z \/ as_class x = Some 1%Z.
Proof.
  unfold is_label, is_zero, is_one. destruct x as [| s | q]; simpl.
  - discriminate.
  - destruct s; discriminate.
  - intros H. apply orb_true_iff in H as [H|H]; [left | right].
    + destruct (q ?= 0)%Q eqn:E; try discriminate.
      apply Qeq_alt in E. rewrite (Qred_complete _ _ E). reflexivity.
    + destruct (q ?= 1)%Q eqn:E; try discriminate.
      apply Qeq_alt in E. rewrite (Qred_complete _ _ E). reflexivity.
Qed.

Lemma classes_labels (s : Series) :
  forallb is_label s = true ->
  exists cs, classes s = Some cs /\ Forall (fun c => c = 0%Z \/ c = 1%Z) cs.
Proof.
  induction s as [|x s IH]; simpl; [exists []; split; [reflexivity | constructor]|].
  intros H. apply andb_true_iff in H as [Hx Hs].
  destruct (IH Hs) as (cs & -> & Hcs).
  destruct (as_class_label x Hx) as [-> | ->];
    eexists; (split; [reflexivity | constructor; [auto | exact Hcs]]).
Qed.

(** With labels 0 and 1 only, none of the label checks fires. *)
Lemma binary_labels_accepted (cs : list Z) :
  Forall (fun c => c = 0%Z \/ c = 1%Z) cs ->
  (2 <? length (present_labels cs)) = false /\
  negb (existsb (Z.eqb 1) (present_labels cs)) && (2 <=? length (present_labels cs))
  = false.
Proof.
  intros Hcs. unfold present_labels.
  pose proof (NoDup_nodup Z.eq_dec cs) as Hnd.
  assert (Hin : forall c, In c (nodup Z.eq_dec cs) -> c = 0%Z \/ c = 1%Z).
  { intros c Hc. apply nodup_In in Hc.
    exact (proj1 (List.Forall_forall _ _) Hcs c Hc). }
  split.
  - apply Nat.ltb_ge.
    apply (List.NoDup_incl_length (l' := [0%Z; 1%Z]) Hnd).
    intros c Hc. destruct (Hin c Hc) as [-> | ->]; simpl; auto.
  - destruct (existsb (Z.eqb 1) (nodup Z.eq_dec cs)) eqn:E; [reflexivity|].
    cbn [negb andb]. apply Nat.leb_gt.
    assert (length (nodup Z.eq_dec cs) <= length [0%Z]); [|simpl length in *; lia].
    apply (List.NoDup_incl_length Hnd).
    intros c Hc. destruct (Hin c Hc) as [-> | ->]; [left; reflexivity|].
    exfalso. assert (existsb (Z.eqb 1) (nodup Z.eq_dec cs) = true); [|congruence].
    apply existsb_exists. exists 1%Z. split; [exact Hc | reflexivity].
Qed.

Lemma precision_score_value (y_true y_pred : Series) :
  length y_true = length y_pred ->
  y_pred <> [] ->
  forallb is_label (y_true ++ y_pred) = true ->
  precision_score y_true y_pred
  = Ok (if count_ones y_pred =? 0 then 0%Q
        else (inject_Z (Z.of_nat (true_positives y_true y_pred))
              / inject_Z (Z.of_nat (count_ones y_pred)))%Q).
Proof.
  intros Hlen Hne Hlab. unfold precision_score.
  rewrite Hlen, Nat.eqb_refl. simpl negb. cbv iota.
  destruct y_pred as [|p y_pred]; [congruence|]. cbn [length Nat.eqb].
  destruct (classes_labels _ Hlab) as (cs & -> & Hcs).
  destruct (binary_labels_accepted cs Hcs) as [-> ->].
  rewrite (positives_counts _ _ Hlen).
  destruct (count_ones (p :: y_pred) =? 0); reflexivity.
Qed.

End Precision.

(** C4 (as amended). On aligned, non-empty binary labels the precision
    computation never fails: with no positive prediction it reports 0,
    and with at least one it reports (rows with target 1 and prediction
    1) / (rows with prediction 1). *)
Theorem precision_score_defined (y_true y_pred : Series) :
  length y_true = length y_pred ->
  y_pred <> [] ->
  forallb metrics.is_label (y_true ++ y_pred) = true ->
  (count_ones y_pred = 0 -> metrics.precision_score y_true y_pred = Ok 0%Q) /\
  (0 < count_ones y_pred ->
   metrics.precision_score y_true y_pred
   = Ok (inject_Z (Z.of_nat (true_positives y_true y_pred))
         / inject_Z (Z.of_nat (count_ones y_pred)))%Q).
Proof.
  intros Hlen Hne Hlab. rewrite (precision_score_value _ _ Hlen Hne Hlab). split.
  - intros ->. reflexivity.
  - intros Hpos. destruct (count_ones y_pred =? 0) eqn:E; [|reflexivity].
    apply Nat.eqb_eq in E. lia.
Qed.

Lemma precision_score_defined_sample :
  length [Float.one; Float.zero; Float.one] = length [Float.one; Float.one; Float.zero] /\
  [Float.one; Float.one; Float.zero] <> [] /\
  0 < count_ones [Float.one; Float.one; Float.zero] /\
  metrics.precision_score [Float.one; Float.zero; Float.one]
    [Float.one; Float.one; Float.zero]
  = Ok (inject_Z (Z.of_nat (true_positives [Float.one; Float.zero; Float.one]
                              [Float.one; Float.one; Float.zero]))
        / inject_Z (Z.of_nat (count_ones [Float.one; Float.one; Float.zero])))%Q.
Proof.
  assert (Hne : [Float.one; Float.one; Float.zero] <> []) by discriminate.
  split; [reflexivity|]. split; [exact Hne|]. split; [repeat constructor|].
  apply (precision_score_defined [Float.one; Float.zero; Float.one]
           [Float.one; Float.one; Float.zero] eq_refl Hne eq_refl).
  repeat constructor.
Defined.

(** Predictions without a single positive: the score is reported as 0,
    and the route answers "No" with that score. *)
Lemma precision_score_without_positives :
  count_ones [Float.zero; Float.zero] = 0 /\
  metrics.precision_score [Float.one; Float.zero] [Float.zero; Float.zero] = Ok 0%Q /\
  app.buy_stock_summary
    (concat_axis1 [10957%Z; 10958%Z]
       ("Target", [Float.one; Float.zero])
       ("Predictions_60%", [Float.zero; Float.zero]))
  = Ok ("No", 0%Q).
Proof. repeat split. Qed.

(** ** [backtest] *)

Section ReadsOnly.

Lemma reads_only_ret {A} (a : A) : reads_only (ret a).
Proof. intros h. reflexivity. Qed.

Lemma reads_only_lift {A} (r : result A) : reads_only (lift r).
Proof. intros h. reflexivity. Qed.

Lemma reads_only_deref r : reads_only (deref r).
Proof. intros h. unfold deref. destruct (h !! r); reflexivity. Qed.

Lemma reads_only_bind {A B} (m : Py A) (k : A -> Py B) :
  reads_only m -> (forall a, reads_only (k a)) -> reads_only (bind m k).
Proof.
  intros Hm Hk h. unfold bind. specialize (Hm h).
  destruct (m h) as [[a|e] h']; simpl in Hm; subst h'; [apply Hk | reflexivity].
Qed.

#[local] Hint Resolve reads_only_ret reads_only_lift reads_only_deref
  reads_only_bind : reads.

Lemma reads_only_shape0 data : reads_only (obj.shape0 data).
Proof. unfold obj.shape0. auto with reads. Qed.

Lemma reads_only_iloc_copy data a b : reads_only (obj.iloc_copy data a b).
Proof. unfold obj.iloc_copy. auto with reads. Qed.

#[local] Hint Resolve reads_only_shape0 reads_only_iloc_copy : reads.

Context {Model : Type} `{Classifier Model}.

Lemma reads_only_backtest_loop data predictors step starts :
  forall (model : Model) all_predictions,
    reads_only (backtest_loop data predictors step starts model all_predictions).
Proof.
  induction starts as [|i rest IH]; intros model acc; simpl.
  - auto with reads.
  - apply reads_only_bind; [auto with reads | intros train].
    apply reads_only_bind; [auto with reads | intros test].
    apply reads_only_bind; [auto with reads | intros [p m']].
    apply IH.
Qed.

(** [backtest] only reads the frame it is given. *)
Lemma reads_only_backtest data (model : Model) predictors start step :
  reads_only (backtest data model predictors start step).
Proof.
  unfold backtest.
  apply reads_only_bind; [auto with reads | intros n].
  apply reads_only_bind; [auto with reads | intros starts].
  apply reads_only_bind; [apply reads_only_backtest_loop | intros [all m']].
  auto with reads.
Qed.

End ReadsOnly.

Section Selecting.

Lemma lookup_col_map (g : Series -> Series) name cols :
  lookup_col name (map_columns g cols) = option_map g (lookup_col name cols).
Proof.
  unfold map_columns. induction cols as [|[n c] cols IH]; simpl; [reflexivity|].
  destruct (String.eqb n name); [reflexivity | exact IH].
Qed.

Lemma select_cols_map (g : Series -> Series) cols ns cs :
  select_cols cols ns = Ok cs ->
  select_cols (map_columns g cols) ns = Ok (map_columns g cs).
Proof.
  revert cs. induction ns as [|n ns IH]; simpl; intros cs.
  - intros [= <-]. reflexivity.
  - rewrite lookup_col_map. destruct (lookup_col n cols) as [c|]; [|discriminate].
    destruct (select_cols cols ns) as [cs'|e]; [|discriminate].
    intros [= <-]. simpl. rewrite (IH cs' eq_refl). reflexivity.
Qed.

Lemma getitems_iloc df ns X a b :
  getitems df ns = Ok X -> getitems (iloc a b df) ns = Ok (iloc a b X).
Proof.
  unfold getitems. destruct (select_cols (columns df) ns) as [cs|e] eqn:E;
    [|discriminate].
  intros [= <-]. unfold iloc at 1. cbn [columns].
  rewrite (select_cols_map (slice a b) _ _ _ E). reflexivity.
Qed.

Lemma getitems_index df ns X : getitems df ns = Ok X -> index X = index df.
Proof.
  unfold getitems. destruct (select_cols (columns df) ns); [|discriminate].
  intros [= <-]. reflexivity.
Qed.

Lemma getitem_iloc df name y a b :
  getitem df name = Ok y -> getitem (iloc a b df) name = Ok (slice a b y).
Proof.
  unfold getitem, iloc. cbn [columns]. rewrite lookup_col_map.
  destruct (lookup_col name (columns df)); [|discriminate].
  intros [= <-]. reflexivity.
Qed.

Lemma getitem_aligned df name y :
  aligned df -> getitem df name = Ok y -> length y = shape0 df.
Proof.
  unfold aligned, getitem. generalize (shape0 df) as n. intros n Hal.
  induction Hal as [|[n0 c] cols Hc _ IH]; simpl; [discriminate|].
  destruct (String.eqb n0 name); [intros [= <-]; exact Hc | exact IH].
Qed.

Lemma length_threshold t (s : Series) : length (threshold t s) = length s.
Proof. unfold threshold, mask_lt, mask_ge. rewrite !length_map. reflexivity. Qed.

Lemma range_runs start stop step :
  0 < step -> range start stop step = Ok (starts_of start stop step).
Proof.
  intros Hs. unfold range. destruct (step =? 0) eqn:E; [|reflexivity].
  apply Nat.eqb_eq in E. lia.
Qed.

End Selecting.

Section Backtest.

Context {Model : Type} {C : Classifier Model} {L : ClassifierLaws Model}.

Variables (df X : DataFrame) (y : Series) (predictors : list string).
Hypothesis HX : getitems df predictors = Ok X.
Hypothesis Hy : getitem df "Target" = Ok y.

(** One call of [predict] on the slices [backtest] makes. *)
Lemma predict_window (m : Model) (i step : nat) :
  predict (iloc 0 i df) (iloc i (i + step) df) predictors m
  = Ok (window_frame X y step (refit X y m i) i, refit X y m i).
Proof.
  unfold predict.
  rewrite (getitems_iloc _ _ _ 0 i HX). cbn [rbind].
  rewrite (getitem_iloc _ _ _ 0 i Hy). cbn [rbind].
  rewrite (getitems_iloc _ _ _ i (i + step) HX). cbn [rbind].
  rewrite length_threshold, predict_proba_length.
  unfold shape0, iloc at 1 2. cbn [index].
  rewrite (getitems_index _ _ _ HX), Nat.eqb_refl. cbn [negb].
  rewrite (getitem_iloc _ _ _ i (i + step) Hy). cbn [rbind].
  unfold window_frame, refit. rewrite (getitems_index _ _ _ HX). reflexivity.
Qed.

Variables (h : list DataFrame) (data : ref).
Hypothesis Hdata : h !! data = Some df.

Lemma backtest_loop_run step starts :
  forall (m : Model) acc,
    backtest_loop data predictors step starts m acc h
    = (Ok (acc ++ fst (walk_forward X y step starts m),
           snd (walk_forward X y step starts m)), h).
Proof.
  induction starts as [|i rest IH]; intros m acc; simpl.
  - unfold ret. rewrite app_nil_r. reflexivity.
  - rewrite (bind_ok _ _ _ _ _ (run_iloc_copy _ _ _ 0 i Hdata)).
    rewrite (bind_ok _ _ _ _ _ (run_iloc_copy _ _ _ i (i + step) Hdata)).
    unfold bind at 1, lift at 1. rewrite predict_window.
    rewrite IH.
    destruct (walk_forward X y step rest (refit X y m i)) as [frames final].
    simpl. rewrite <- app_assoc. reflexivity.
Qed.

(** [backtest] with a positive step: the windows are walked, and the
    result is whatever [pd.concat] makes of their frames. *)
Lemma backtest_run (model : Model) start step :
  0 < step ->
  backtest data model predictors start step h
  = (match concat (fst (walk_forward X y step
                          (starts_of start (shape0 df) step) model)) with
     | Ok res =>
         Ok (res, snd (walk_forward X y step
                         (starts_of start (shape0 df) step) model))
     | Raise e => Raise e
     end, h).
Proof.
  intros Hs. unfold backtest.
  rewrite (bind_ok _ _ _ _ _ (run_shape0 _ _ _ Hdata)).
  unfold bind at 1, lift at 1. rewrite (range_runs _ _ _ Hs).
  rewrite (bind_ok _ _ _ _ _ (backtest_loop_run step _ model [])).
  cbn [app]. unfold bind, lift, ret.
  destruct (concat _); reflexivity.
Qed.

End Backtest.

(** C8 (as amended). [clean_data] and [add_predictors] edit the frame
    they are given in place and return a new object: [clean_data] turns
    the provider's frame into [labelled bars] (six columns deleted,
    [Tomorrow] and [Target] added; row index and [Close] as before),
    [add_predictors] adds the six ratio columns to the cleaned series;
    neither touches any other object.  [backtest] leaves the whole store
    as it found it. *)
Theorem stages_and_the_store {Model : Type} `{Classifier Model}
    (h : list DataFrame) (raw : ref) (bars : list Stock_Functions.Bar)
    (model : Model) (predictors : list string) (start step : nat) :
  h !! raw = Some (history bars) ->
  exists (h1 h2 : list DataFrame),
    h1 = <[raw := labelled bars]> h ++ [cleaned bars] /\
    h2 = <[raw := labelled bars]> h
         ++ [ratios_added (cleaned bars); complete_rows (cleaned bars)] /\
    clean_data raw h = (Ok (length h), h1) /\
    add_predictors (length h) h1
    = (Ok (S (length h), map ratio_column benchmarks), h2) /\
    reads_only (backtest (S (length h)) model predictors start step) /\
    index (labelled bars) = index (history bars) /\
    getitem (labelled bars) "Close" = getitem (history bars) "Close" /\
    names (labelled bars) = ["Close"; "Tomorrow"; "Target"] /\
    index (ratios_added (cleaned bars)) = index (cleaned bars) /\
    columns (ratios_added (cleaned bars))
    = columns (cleaned bars)
      ++ map (fun w => (ratio_column w, ratio w (col_or_nan "Close" (cleaned bars))))
           benchmarks.
Proof.
  intros Hh. pose proof (lookup_lt_Some _ _ _ Hh) as Hlt.
  eexists _, _. split; [reflexivity|]. split; [reflexivity|].
  split; [apply clean_data_run, Hh|].
  split; [|split; [apply reads_only_backtest | repeat split]].
  rewrite (add_predictors_run _ (length h) (index (cleaned bars))
             (col_or_nan "Close" (cleaned bars))
             (col_or_nan "Tomorrow" (cleaned bars))
             (col_or_nan "Target" (cleaned bars))).
  - rewrite length_app, length_insert. simpl length.
    rewrite Nat.add_1_r. f_equal.
    rewrite insert_app_r_alt by (rewrite length_insert; lia).
    rewrite length_insert, Nat.sub_diag, <- app_assoc. reflexivity.
  - rewrite lookup_app_r by (rewrite length_insert; lia).
    rewrite length_insert, Nat.sub_diag. reflexivity.
  - apply cleaned_close_length.
Qed.

Lemma stages_and_the_store_three_bars :
  [history Sample.three_bars] !! 0 = Some (history Sample.three_bars) /\
  exists (h1 h2 : list DataFrame),
    h1 = [labelled Sample.three_bars; cleaned Sample.three_bars] /\
    h2 = [labelled Sample.three_bars;
          ratios_added (cleaned Sample.three_bars);
          complete_rows (cleaned Sample.three_bars)] /\
    clean_data 0 [history Sample.three_bars] = (Ok 1, h1) /\
    add_predictors 1 h1 = (Ok (2, map ratio_column benchmarks), h2) /\
    reads_only (backtest 2 NaN ["Close"] 0 63).
Proof.
  split; [reflexivity|].
  destruct (stages_and_the_store [history Sample.three_bars] 0
              Sample.three_bars NaN ["Close"] 0 63 eq_refl)
    as (h1 & h2 & E1 & E2 & Hclean & Hadd & Hback & _).
  exists h1, h2. repeat split; assumption.
Defined.

(** After [clean_data] the caller's frame has lost the provider's
    columns. *)
Lemma clean_data_edits_its_argument :
  exists (h' : list DataFrame) (after : DataFrame),
    clean_data 0 [history Sample.three_bars] = (Ok 1, h') /\
    [history Sample.three_bars] !! 0 = Some (history Sample.three_bars) /\
    h' !! 0 = Some after /\
    names (history Sample.three_bars)
    = ["Open"; "High"; "Low"; "Close"; "Volume"; "Dividends"; "Stock Splits"] /\
    names after = ["Close"; "Tomorrow"; "Target"] /\
    after <> history Sample.three_bars.
Proof.
  eexists _, _. split; [vm_compute; reflexivity|].
  split; [reflexivity|]. split; [reflexivity|].
  split; [reflexivity|]. split; [reflexivity|]. discriminate.
Qed.

Section Windows.

Lemma starts_of_none start stop step :
  0 < step -> stop <= start -> starts_of start stop step = [].
Proof.
  intros Hs Hle. unfold starts_of.
  replace (stop - start + step - 1) with (step - 1) by lia.
  rewrite Nat.div_small by lia. reflexivity.
Qed.

Lemma lookup_map {A B} (f : A -> B) (l : list A) i :
  map f l !! i = option_map f (l !! i).
Proof.
  revert i. induction l as [|x l IH]; intros [|i]; simpl; try reflexivity.
  apply IH.
Qed.

(** Every window start is [start + j * step] and lies inside the
    frame. *)
Lemma starts_of_lookup start stop step j i :
  0 < step ->
  starts_of start stop step !! j = Some i ->
  i = start + j * step /\ i < stop.
Proof.
  intros Hs. unfold starts_of. rewrite lookup_map.
  destruct (seq 0 _ !! j) as [k|] eqn:E; [|discriminate].
  apply lookup_seq in E as [-> Hj]. simpl. intros [= <-].
  split; [reflexivity|].
  pose proof (Nat.Div0.mul_div_le (stop - start + step - 1) step) as Hdiv.
  assert (step * S j <= stop - start + step - 1) by nia.
  nia.
Qed.

Lemma starts_of_nonempty start stop step :
  0 < step -> start < stop -> starts_of start stop step <> [].
Proof.
  intros Hs Hlt. unfold starts_of.
  assert (1 <= (stop - start + step - 1) / step).
  { apply Nat.div_le_lower_bound; lia. }
  destruct ((stop - start + step - 1) / step); [lia | discriminate].
Qed.

Lemma starts_of_take start stop step j i :
  0 < step ->
  starts_of start stop step !! j = Some i ->
  take (S j) (starts_of start stop step) = starts_upto start step i.
Proof.
  intros Hs Hj. destruct (starts_of_lookup _ _ _ _ _ Hs Hj) as [-> _].
  apply lookup_lt_Some in Hj. unfold starts_of in *.
  rewrite length_map, length_seq in Hj.
  unfold starts_upto. rewrite firstn_map, take_seq.
  replace (start + j * step - start) with (j * step) by lia.
  rewrite Nat.div_mul by lia.
  replace (Nat.min (S j) _) with (S j) by lia. reflexivity.
Qed.

Lemma starts_upto_bound start step i k :
  In k (starts_upto start step i) -> start <= i -> k <= i.
Proof.
  unfold starts_upto. rewrite in_map_iff. intros (n & <- & Hn) Hle.
  apply in_seq in Hn.
  pose proof (Nat.Div0.mul_div_le (i - start) step) as Hdiv.
  assert (n <= (i - start) / step) by lia. nia.
Qed.

Lemma slice_0 {A} b (l : list A) : slice 0 b l = take b l.
Proof. unfold slice. rewrite Nat.sub_0_r. reflexivity. Qed.

Lemma slice_app {A} a b c (l : list A) :
  a <= b -> b <= c -> slice a b l ++ slice b c l = slice a c l.
Proof.
  intros Hab Hbc. unfold slice.
  replace (drop b l) with (drop (b - a) (drop a l))
    by (rewrite drop_drop; f_equal; lia).
  rewrite take_take_drop. f_equal. lia.
Qed.

Lemma slice_to_end {A} a b (l : list A) :
  length l <= b -> slice a b l = drop a l.
Proof.
  intros Hb. unfold slice. apply take_ge. rewrite length_drop. lia.
Qed.

Lemma length_slice {A} a b (l : list A) :
  length (slice a b l) = Nat.min (b - a) (length l - a).
Proof. unfold slice. rewrite length_take, length_drop. reflexivity. Qed.

Lemma Sorted_drop {A} (R : A -> A -> Prop) k (l : list A) :
  Sorted R l -> Sorted R (drop k l).
Proof.
  revert l. induction k as [|k IH]; intros l Hs; [exact Hs|].
  destruct l as [|x l]; [exact Hs|]. simpl. apply IH.
  inversion Hs; assumption.
Qed.

End Windows.

Section WalkForward.

Context {Model : Type} {C : Classifier Model}.

Variables (X : DataFrame) (y : Series) (step : nat).

Lemma walk_forward_length starts : forall m : Model,
  length (fst (walk_forward X y step starts m)) = length starts.
Proof.
  induction starts as [|i rest IH]; intros m; simpl; [reflexivity|].
  specialize (IH (refit X y m i)).
  destruct (walk_forward X y step rest (refit X y m i)). simpl in *.
  rewrite IH. reflexivity.
Qed.

(** The frame of window [j] is predicted by the model fitted at the
    window starts up to and including the [j]-th. *)
Lemma walk_forward_lookup starts : forall (m : Model) j i,
  starts !! j = Some i ->
  fst (walk_forward X y step starts m) !! j
  = Some (window_frame X y step
            (fold_left (refit X y) (take (S j) starts) m) i).
Proof.
  induction starts as [|i0 rest IH]; intros m j i Hj; [discriminate|].
  simpl. specialize (IH (refit X y m i0)).
  destruct (walk_forward X y step rest (refit X y m i0)) as [frames final].
  destruct j as [|j]; simpl in *.
  - injection Hj as ->. reflexivity.
  - apply IH, Hj.
Qed.

(** Fitting on the first [i] rows or on the whole frame is the same fit
    as long as the window start does not pass [i]. *)
Lemma refit_prefix (m : Model) i k :
  k <= i -> refit (iloc 0 i X) (slice 0 i y) m k = refit X y m k.
Proof.
  intros Hk. unfold refit. f_equal.
  - unfold iloc. cbn [index columns]. f_equal.
    + rewrite !slice_0, take_take. f_equal. lia.
    + unfold map_columns. rewrite map_map. apply map_ext. intros [n c]. simpl.
      rewrite !slice_0, take_take. do 2 f_equal. lia.
  - rewrite !slice_0, take_take. f_equal. lia.
Qed.

Lemma fold_refit_prefix i (ks : list nat) : forall m : Model,
  Forall (fun k => k <= i) ks ->
  fold_left (refit (iloc 0 i X) (slice 0 i y)) ks m
  = fold_left (refit X y) ks m.
Proof.
  induction ks as [|k ks IH]; intros m Hks; [reflexivity|].
  inversion Hks as [|? ? Hk Hrest]; subst. simpl.
  rewrite refit_prefix by exact Hk. apply IH, Hrest.
Qed.

Lemma expanding_fit_prefix (m : Model) start i :
  start <= i -> i <= shape0 X ->
  expanding_fit start step m (iloc 0 i X) (slice 0 i y)
  = fold_left (refit X y) (starts_upto start step i) m.
Proof.
  intros Hs Hi. unfold expanding_fit.
  assert (E : shape0 (iloc 0 i X) = i).
  { unfold shape0, iloc. cbn [index]. rewrite slice_0, length_take.
    unfold shape0 in Hi. lia. }
  rewrite E. apply fold_refit_prefix.
  apply List.Forall_forall. intros k Hk.
  eapply starts_upto_bound; eassumption.
Qed.

End WalkForward.


(** C1. Every frame [backtest] emits for a window starting at row [i]
    holds the test rows [i, i + step) with predictions made by a model
    that was fitted on rows [0, i) only: the model is the expanding-window
    fit applied to the first [i] rows of the features and targets, so no
    row from [i] on reaches it. *)
Theorem backtest_no_lookahead {Model : Type} {C : Classifier Model}
    {L : ClassifierLaws Model}
    (h : list DataFrame) (data : ref) (df X : DataFrame) (y : Series)
    (predictors : list string) (model : Model) (start step : nat) :
  h !! data = Some df ->
  getitems df predictors = Ok X ->
  getitem df "Target" = Ok y ->
  0 < step ->
  start < shape0 df ->
  exists (frames : list DataFrame) (res : DataFrame) (final : Model),
    backtest data model predictors start step h = (Ok (res, final), h) /\
    concat frames = Ok res /\
    length frames = length (starts_of start (shape0 df) step) /\
    forall (j i : nat),
      starts_of start (shape0 df) step !! j = Some i ->
      i = start + j * step /\
      i < shape0 df /\
      frames !! j
      = Some (window_frame X y step
                (expanding_fit start step model (iloc 0 i X) (slice 0 i y)) i).
Proof.
  intros Hdata HX Hy Hstep Hstart.
  rewrite (backtest_run df X y predictors HX Hy h data Hdata model start step Hstep).
  set (starts := starts_of start (shape0 df) step).
  set (frames := fst (walk_forward X y step starts model)).
  assert (Hlen : length frames = length starts) by apply walk_forward_length.
  assert (Hne : frames <> []).
  { intros E. rewrite E in Hlen. simpl in Hlen.
    apply (starts_of_nonempty start (shape0 df) step Hstep Hstart).
    apply List.length_zero_iff_nil. symmetry. exact Hlen. }
  destruct frames as [|f frames'] eqn:Ef; [congruence|].
  eexists (f :: frames'), _, _. split; [reflexivity|].
  split; [reflexivity|]. split; [exact Hlen|].
  intros j i Hj.
  destruct (starts_of_lookup _ _ _ _ _ Hstep Hj) as [Hi Hin].
  split; [exact Hi|]. split; [exact Hin|].
  rewrite <- Ef. unfold frames.
  rewrite (walk_forward_lookup X y step starts model j i Hj).
  rewrite expanding_fit_prefix;
    [|lia | unfold shape0 in *; rewrite (getitems_index _ _ _ HX); lia].
  unfold starts. rewrite (starts_of_take _ _ _ _ _ Hstep Hj). reflexivity.
Qed.

Lemma backtest_no_lookahead_sample :
  [Sample.flat_series 10] !! 0 = Some (Sample.flat_series 10) /\
  exists (X : DataFrame) (y : Series),
    getitems (Sample.flat_series 10) ["Close"] = Ok X /\
    getitem (Sample.flat_series 10) "Target" = Ok y /\
    exists (frames : list DataFrame) (res : DataFrame) (final : float),
      backtest 0 NaN ["Close"] 4 3 [Sample.flat_series 10]
      = (Ok (res, final), [Sample.flat_series 10]) /\
      concat frames = Ok res /\
      length frames = length (starts_of 4 (shape0 (Sample.flat_series 10)) 3) /\
      forall (j i : nat),
        starts_of 4 (shape0 (Sample.flat_series 10)) 3 !! j = Some i ->
        i = 4 + j * 3 /\
        i < shape0 (Sample.flat_series 10) /\
        frames !! j
        = Some (window_frame X y 3
                  (expanding_fit 4 3 NaN (iloc 0 i X) (slice 0 i y)) i).
Proof.
  split; [reflexivity|]. eexists _, _.
  split; [reflexivity|]. split; [reflexivity|].
  apply (backtest_no_lookahead [Sample.flat_series 10] 0 (Sample.flat_series 10)
           _ _ ["Close"] NaN 4 3 eq_refl eq_refl eq_refl).
  - repeat constructor.
  - repeat constructor.
Defined.

(** C3 (what the code does). With a positive step and a start at or past
    the end of the frame there is no window, [pd.concat] is handed an
    empty list and raises [ValueError]; no empty frame is returned. *)
Theorem backtest_without_window_raises {Model : Type} {C : Classifier Model}
    (h : list DataFrame) (data : ref) (df : DataFrame)
    (predictors : list string) (model : Model) (start step : nat) :
  h !! data = Some df ->
  0 < step ->
  shape0 df <= start ->
  backtest data model predictors start step h = (Raise ValueError, h).
Proof.
  intros Hdata Hstep Hstart. unfold backtest.
  rewrite (bind_ok _ _ _ _ _ (run_shape0 _ _ _ Hdata)).
  unfold bind at 1, lift at 1.
  rewrite (range_runs _ _ _ Hstep), (starts_of_none _ _ _ Hstep Hstart).
  reflexivity.
Qed.

Lemma backtest_without_window_raises_sample :
  [Sample.flat_series 3] !! 0 = Some (Sample.flat_series 3) /\
  0 < 63 /\
  shape0 (Sample.flat_series 3) <= 3 /\
  backtest 0 NaN ["Close"] 3 63 [Sample.flat_series 3]
  = (Raise ValueError, [Sample.flat_series 3]).
Proof.
  assert (Hstep : 0 < 63) by (apply Nat.ltb_lt; reflexivity).
  assert (Hn : shape0 (Sample.flat_series 3) <= 3) by (apply Nat.leb_le; reflexivity).
  split; [reflexivity|]. split; [exact Hstep|]. split; [exact Hn|].
  exact (backtest_without_window_raises [Sample.flat_series 3] 0
           (Sample.flat_series 3) ["Close"] NaN 3 63 eq_refl Hstep Hn).
Defined.

Section Coverage.

Context {Model : Type} {C : Classifier Model} {L : ClassifierLaws Model}.

(** Four consecutive slices that reach the end of a column tile its
    tail. *)
Lemma four_slices {A} (l : list A) a b c d e :
  a <= b -> b <= c -> c <= d -> d <= e -> length l <= e ->
  slice a b l ++ slice b c l ++ slice c d l ++ slice d e l ++ [] = drop a l.
Proof.
  intros Hab Hbc Hcd Hde Hl. rewrite app_nil_r.
  rewrite (slice_app c d e), (slice_app b c e), (slice_app a b e) by lia.
  apply slice_to_end, Hl.
Qed.

Lemma length_slice_inside {A} (l : list A) a b :
  a <= b -> b <= length l -> length (slice a b l) = b - a.
Proof. intros Hab Hb. rewrite length_slice. lia. Qed.

(** A walk of four windows, the last one cut short by the end of the
    frame: the four calls of [predict], the frames they return, and their
    concatenation. *)
Lemma backtest_four_windows
    (h : list DataFrame) (data : ref) (df X : DataFrame) (y : Series)
    (predictors : list string) (model : Model) (n a b c d step : nat) :
  h !! data = Some df ->
  getitems df predictors = Ok X ->
  getitem df "Target" = Ok y ->
  aligned df ->
  shape0 df = n ->
  0 < step ->
  starts_of a n step = [a; b; c; d] ->
  b = a + step -> c = b + step -> d = c + step ->
  d <= n -> n <= d + step ->
  exists (f1 f2 f3 f4 res : DataFrame) (m1 m2 m3 final : Model)
         (p1 p2 p3 p4 : Series),
    backtest data model predictors a step h = (Ok (res, final), h) /\
    predict (iloc 0 a df) (iloc a (a + step) df) predictors model = Ok (f1, m1) /\
    predict (iloc 0 b df) (iloc b (b + step) df) predictors m1 = Ok (f2, m2) /\
    predict (iloc 0 c df) (iloc c (c + step) df) predictors m2 = Ok (f3, m3) /\
    predict (iloc 0 d df) (iloc d (d + step) df) predictors m3 = Ok (f4, final) /\
    concat [f1; f2; f3; f4] = Ok res /\
    f1 = mkFrame (slice a b (index df))
           [("Target", slice a b y); ("Predictions_60%", p1)] /\
    f2 = mkFrame (slice b c (index df))
           [("Target", slice b c y); ("Predictions_60%", p2)] /\
    f3 = mkFrame (slice c d (index df))
           [("Target", slice c d y); ("Predictions_60%", p3)] /\
    f4 = mkFrame (slice d n (index df))
           [("Target", slice d n y); ("Predictions_60%", p4)] /\
    map shape0 [f1; f2; f3; f4] = [b - a; c - b; d - c; n - d] /\
    map (length (A := float)) [p1; p2; p3; p4] = [b - a; c - b; d - c; n - d] /\
    res = mkFrame (drop a (index df))
            [("Target", drop a y);
             ("Predictions_60%", p1 ++ p2 ++ p3 ++ p4)] /\
    shape0 res = n - a /\
    length (p1 ++ p2 ++ p3 ++ p4) = n - a /\
    (Sorted Z.lt (index df) -> Sorted Z.lt (index res)).
Proof.
  intros Hdata HX Hy Hal Hn Hstep Hstarts Hb Hc Hd Hdn Hnd.
  assert (Hidx : length (index df) = n) by exact Hn.
  assert (HiX : index X = index df) by exact (getitems_index _ _ _ HX).
  assert (Hly : length y = n)
    by (rewrite (getitem_aligned _ _ _ Hal Hy); exact Hn).
  assert (Hlast : forall {A} (l : list A),
            length l = n -> slice d (d + step) l = slice d n l).
  { intros A l Hl. rewrite !slice_to_end by lia. reflexivity. }
  set (m1 := refit X y model a).
  set (m2 := refit X y m1 b).
  set (m3 := refit X y m2 c).
  set (m4 := refit X y m3 d).
  set (p1 := threshold cutoff_60 (predict_proba m1 (iloc a (a + step) X))).
  set (p2 := threshold cutoff_60 (predict_proba m2 (iloc b (b + step) X))).
  set (p3 := threshold cutoff_60 (predict_proba m3 (iloc c (c + step) X))).
  set (p4 := threshold cutoff_60 (predict_proba m4 (iloc d (d + step) X))).
  assert (Hw : forall m i j,
            j = i + step ->
            window_frame X y step m i
            = mkFrame (slice i j (index df))
                [("Target", slice i j y);
                 ("Predictions_60%",
                  threshold cutoff_60 (predict_proba m (iloc i (i + step) X)))]).
  { intros m i j ->. unfold window_frame, concat_axis1. rewrite HiX. reflexivity. }
  assert (Hw4 : window_frame X y step m4 d
                = mkFrame (slice d n (index df))
                    [("Target", slice d n y); ("Predictions_60%", p4)]).
  { rewrite (Hw m4 d (d + step) eq_refl).
    rewrite (Hlast _ (index df) Hidx), (Hlast _ y Hly). reflexivity. }
  assert (Hlp : forall m i j,
            j = i + step -> j <= n ->
            length (threshold cutoff_60 (predict_proba m (iloc i (i + step) X)))
            = j - i).
  { intros m i j -> Hj. rewrite length_threshold, predict_proba_length.
    unfold shape0, iloc. cbn [index]. rewrite HiX.
    apply length_slice_inside; lia. }
  assert (Hlp4 : length p4 = n - d).
  { unfold p4. rewrite length_threshold, predict_proba_length.
    unfold shape0, iloc. cbn [index]. rewrite HiX, (Hlast _ (index df) Hidx).
    apply length_slice_inside; lia. }
  exists (window_frame X y step m1 a), (window_frame X y step m2 b),
    (window_frame X y step m3 c), (window_frame X y step m4 d).
  exists (mkFrame (drop a (index df))
            [("Target", drop a y); ("Predictions_60%", p1 ++ p2 ++ p3 ++ p4)]).
  exists m1, m2, m3, m4, p1, p2, p3, p4.
  assert (Hcat : concat [window_frame X y step m1 a; window_frame X y step m2 b;
                         window_frame X y step m3 c; window_frame X y step m4 d]
                 = Ok (mkFrame (drop a (index df))
                         [("Target", drop a y);
                          ("Predictions_60%", p1 ++ p2 ++ p3 ++ p4)])).
  { rewrite (Hw m1 a b Hb), (Hw m2 b c Hc), (Hw m3 c d Hd), Hw4.
    fold p1 p2 p3. unfold concat, names.
    cbn [index columns map fst snd col_or_nan lookup_col String.eqb
         Ascii.eqb Bool.eqb List.concat].
    rewrite (four_slices (index df) a b c d n), (four_slices y a b c d n) by lia.
    rewrite app_nil_r. reflexivity. }
  split.
  { rewrite (backtest_run df X y predictors HX Hy h data Hdata model a step Hstep).
    rewrite Hn, Hstarts. cbn [walk_forward fst snd].
    fold m1 m2 m3 m4. rewrite Hcat. reflexivity. }
  split; [apply (predict_window df X y predictors HX Hy)|].
  split; [apply (predict_window df X y predictors HX Hy)|].
  split; [apply (predict_window df X y predictors HX Hy)|].
  split; [apply (predict_window df X y predictors HX Hy)|].
  split; [exact Hcat|].
  split; [exact (Hw m1 a b Hb)|]. split; [exact (Hw m2 b c Hc)|].
  split; [exact (Hw m3 c d Hd)|]. split; [exact Hw4|].
  assert (Hl1 : length p1 = b - a) by (apply Hlp; lia).
  assert (Hl2 : length p2 = c - b) by (apply Hlp; lia).
  assert (Hl3 : length p3 = d - c) by (apply Hlp; lia).
  split.
  { rewrite (Hw m1 a b Hb), (Hw m2 b c Hc), (Hw m3 c d Hd), Hw4.
    unfold shape0. cbn [index map].
    rewrite !length_slice_inside by lia. reflexivity. }
  split; [cbn [map]; rewrite Hl1, Hl2, Hl3, Hlp4; reflexivity|].
  split; [reflexivity|].
  unfold shape0. cbn [index]. rewrite length_drop, Hidx.
  split; [reflexivity|]. split; [|apply Sorted_drop].
  rewrite !length_app, Hl1, Hl2, Hl3, Hlp4. lia.
Qed.

End Coverage.

(** C2. On a frame of 1000 rows, [backtest] with start 700 and step 90
    makes four calls of [predict], for the test rows [700,790),
    [790,880), [880,970) and [970,1000) (the slice [970:1060] stops at
    the end of the frame), each with the model the call before returned.
    The four frames carry the dates and targets of their rows and 90,
    90, 90 and 30 predictions; the result is their concatenation: the
    300 rows from 700 on, each once and in the order of the input, so in
    ascending date order when the input is, with their targets and 300
    predictions. *)
Theorem backtest_covers_1000 {Model : Type} {C : Classifier Model}
    {L : ClassifierLaws Model}
    (h : list DataFrame) (data : ref) (df X : DataFrame) (y : Series)
    (predictors : list string) (model : Model) :
  h !! data = Some df ->
  getitems df predictors = Ok X ->
  getitem df "Target" = Ok y ->
  aligned df ->
  shape0 df = 1000 ->
  exists (f1 f2 f3 f4 res : DataFrame) (m1 m2 m3 final : Model)
         (p1 p2 p3 p4 : Series),
    backtest data model predictors 700 90 h = (Ok (res, final), h) /\
    predict (iloc 0 700 df) (iloc 700 (700 + 90) df) predictors model
    = Ok (f1, m1) /\
    predict (iloc 0 790 df) (iloc 790 (790 + 90) df) predictors m1
    = Ok (f2, m2) /\
    predict (iloc 0 880 df) (iloc 880 (880 + 90) df) predictors m2
    = Ok (f3, m3) /\
    predict (iloc 0 970 df) (iloc 970 (970 + 90) df) predictors m3
    = Ok (f4, final) /\
    concat [f1; f2; f3; f4] = Ok res /\
    f1 = mkFrame (slice 700 790 (index df))
           [("Target", slice 700 790 y); ("Predictions_60%", p1)] /\
    f2 = mkFrame (slice 790 880 (index df))
           [("Target", slice 790 880 y); ("Predictions_60%", p2)] /\
    f3 = mkFrame (slice 880 970 (index df))
           [("Target", slice 880 970 y); ("Predictions_60%", p3)] /\
    f4 = mkFrame (slice 970 1000 (index df))
           [("Target", slice 970 1000 y); ("Predictions_60%", p4)] /\
    map shape0 [f1; f2; f3; f4] = [90; 90; 90; 30] /\
    map (length (A := float)) [p1; p2; p3; p4] = [90; 90; 90; 30] /\
    res = mkFrame (drop 700 (index df))
            [("Target", drop 700 y);
             ("Predictions_60%", p1 ++ p2 ++ p3 ++ p4)] /\
    shape0 res = 300 /\
    length (p1 ++ p2 ++ p3 ++ p4) = 300 /\
    (Sorted Z.lt (index df) -> Sorted Z.lt (index res)).
Proof.
  intros Hdata HX Hy Hal Hn.
  apply (backtest_four_windows h data df X y predictors model
           1000 700 790 880 970 90 Hdata HX Hy Hal Hn);
    by_evaluation.
Qed.

Lemma backtest_covers_1000_flat :
  [Sample.flat_series 1000] !! 0 = Some (Sample.flat_series 1000) /\
  aligned (Sample.flat_series 1000) /\
  shape0 (Sample.flat_series 1000) = 1000 /\
  exists (X : DataFrame) (y : Series),
    getitems (Sample.flat_series 1000) ["Close"] = Ok X /\
    getitem (Sample.flat_series 1000) "Target" = Ok y /\
    exists (res : DataFrame) (final : float) (p1 p2 p3 p4 : Series),
      backtest 0 NaN ["Close"] 700 90 [Sample.flat_series 1000]
      = (Ok (res, final), [Sample.flat_series 1000]) /\
      map (length (A := float)) [p1; p2; p3; p4] = [90; 90; 90; 30] /\
      res = mkFrame (drop 700 (index (Sample.flat_series 1000)))
              [("Target", drop 700 y);
               ("Predictions_60%", p1 ++ p2 ++ p3 ++ p4)] /\
      shape0 res = 300 /\
      length (p1 ++ p2 ++ p3 ++ p4) = 300.
Proof.
  assert (Hal : aligned (Sample.flat_series 1000))
    by (repeat constructor; vm_compute; reflexivity).
  assert (Hn : shape0 (Sample.flat_series 1000) = 1000)
    by (vm_compute; reflexivity).
  split; [reflexivity|]. split; [exact Hal|]. split; [exact Hn|].
  eexists _, _. split; [reflexivity|]. split; [reflexivity|].
  destruct (backtest_covers_1000 [Sample.flat_series 1000] 0
              (Sample.flat_series 1000) _ _ ["Close"] NaN
              eq_refl eq_refl eq_refl Hal Hn)
    as (f1 & f2 & f3 & f4 & res & m1 & m2 & m3 & final & p1 & p2 & p3 & p4
        & Hrun & _ & _ & _ & _ & _ & _ & _ & _ & _ & _ & Hp & Hres & Hrows
        & Hlen & _).
  exists res, final, p1, p2, p3, p4.
  split; [exact Hrun|]. split; [exact Hp|]. split; [exact Hres|].
  split; [exact Hrows | exact Hlen].
Defined.

(** ** The pipeline on small inputs *)

(** The cut at the floor drops the bar of 1999. *)
Example cleaned_three_bars :
  cleaned Sample.three_bars
  = cleaned_series [10959; 10960]%Z [Fin 12; Fin 11] [Fin 11; NaN]
      [Float.zero; Float.zero].
Proof. reflexivity. Qed.

(** A price of zero has an undefined ratio. *)
Example ratio_of_zero_prices : ratio 2 [Fin 0; Fin 0; Fin 0] = [NaN; NaN; NaN].
Proof. reflexivity. Qed.

(** Ten flat days, start 4, step 3: two windows, six predictions, all 0. *)
Example backtest_flat_10 :
  fst (backtest 0 NaN ["Close"] 4 3 [Sample.flat_series 10])
  = Ok (mkFrame [10961; 10962; 10963; 10964; 10965; 10966]%Z
          [("Target", repeat Float.zero 6);
           ("Predictions_60%", repeat Float.zero 6)],
        Fin (0 # 7)).
Proof. vm_compute. reflexivity. Qed.

(** A history shorter than the longest window leaves no complete row;
    [buy_stock] then starts at 0 on an empty frame and the concatenation
    of no window raises. *)
Example buy_stock_short_history :
  fst (buy_stock 0 NaN [history Sample.three_bars]) = Raise ValueError.
Proof. vm_compute. reflexivity. Qed.

(** * Further properties *)

Import News_Functions Arith views Further.

(** ** [get_news] *)

Section News.

Lemma collect_filter (articles : list Article) : forall acc,
  collect articles acc = acc ++ map headline_of (List.filter kept articles).
Proof.
  induction articles as [|a rest IH]; intros acc; simpl.
  - rewrite app_nil_r. reflexivity.
  - unfold kept at 1. destruct (negb (String.eqb (source_name a) "[Removed]")).
    + rewrite IH, <- app_assoc. reflexivity.
    + apply IH.
Qed.

Lemma get_news_filter (articles : list Article) :
  get_news articles = map headline_of (List.filter kept (take 10 articles)).
Proof. unfold get_news. apply collect_filter. Qed.

Lemma filter_sublist {A} (p : A -> bool) (l : list A) :
  List.filter p l `sublist_of` l.
Proof.
  induction l as [|x l IH]; simpl; [constructor|].
  destruct (p x); [apply sublist_skip | apply sublist_cons]; exact IH.
Qed.

Lemma sublist_map {A B} (f : A -> B) (l1 l2 : list A) :
  l1 `sublist_of` l2 -> map f l1 `sublist_of` map f l2.
Proof. induction 1; simpl; constructor; assumption. Qed.

End News.

(** X1. [get_news] returns at most ten headlines, none of them from a
    removed article, in the order of the response; they are taken from
    the first ten articles only, so a removed article among those is not
    replaced by a later one, and when none of the first ten is removed the
    headlines are exactly those of the first ten. *)
Theorem get_news_first_ten (articles : list Article) :
  length (get_news articles) <= Nat.min 10 (length articles) /\
  Forall (fun h => source h <> "[Removed]") (get_news articles) /\
  get_news articles `sublist_of` map headline_of (take 10 articles) /\
  (forall later : list Article,
      10 <= length articles -> get_news (articles ++ later) = get_news articles) /\
  (Forall (fun a => source_name a <> "[Removed]") (take 10 articles) ->
   get_news articles = map headline_of (take 10 articles)).
Proof.
  rewrite get_news_filter. repeat split.
  - rewrite length_map.
    pose proof (sublist_length _ _ (filter_sublist kept (take 10 articles))) as H.
    rewrite length_take in H. exact H.
  - apply Forall_map, List.Forall_forall. intros a Ha.
    apply filter_In in Ha as [_ Hk]. unfold kept in Hk. simpl.
    intros E. rewrite E in Hk. discriminate Hk.
  - apply sublist_map, filter_sublist.
  - intros later Hlen. rewrite get_news_filter, take_app_le by exact Hlen.
    reflexivity.
  - intros Hall. f_equal. apply filter_all.
    eapply Forall_impl; [exact Hall|]. intros a Ha. unfold kept.
    destruct (String.eqb_spec (source_name a) "[Removed]"); [contradiction | reflexivity].
Qed.

(** ** The [/api/get_stock_data] route *)

Section StockDataRoute.

Lemma bind_raises {A B} (m : Py A) (k : A -> Py B) h e h' :
  m h = (Raise e, h') -> bind m k h = (Raise e, h').
Proof. unfold bind. intros ->. reflexivity. Qed.

Lemma dict_get_default {V} (d : list (string * V)) key (default : V) :
  (forall k, In k (map fst d) -> k <> key) -> dict_get d key default = default.
Proof.
  induction d as [|[k v] d IH]; simpl; intros Hk; [reflexivity|].
  destruct (String.eqb_spec k key) as [E|_].
  - exfalso. apply (Hk k); [left; reflexivity | exact E].
  - apply IH. intros k' Hin. apply Hk. right. exact Hin.
Qed.

(** Every period asks for at least two rows. *)
Lemma period_days_at_least_two key :
  2 <= dict_get period_days key (252 + 1).
Proof.
  unfold period_days. cbn [dict_get].
  repeat match goal with
         | |- context [String.eqb ?k key] => destruct (String.eqb k key)
         end;
    apply Nat.leb_le; reflexivity.
Qed.

Lemma length_tail {A} n (rows : list A) :
  length (tail n rows) = Nat.min n (length rows).
Proof. unfold tail. rewrite length_drop. lia. Qed.

Lemma length_records (bars : list Bar) :
  length (records (cleaned bars)) = shape0 (cleaned bars).
Proof.
  unfold records. rewrite length_combine, length_map, cleaned_close_length.
  unfold shape0. lia.
Qed.

(** The least of a list of numbers, as Python's [min] finds it. *)
Lemma fold_min_finite (rest : Series) : forall v,
  finite v -> Forall finite rest ->
  exists m : Q,
    fold_left (fun best x => if Float.lt x best then x else best) rest v = Fin m /\
    In (Fin m) (v :: rest) /\
    (forall q, In (Fin q) (v :: rest) -> (m <= q)%Q).
Proof.
  induction rest as [|x rest IH]; intros v Hv Hrest.
  - destruct v as [| |a]; try contradiction. exists a. simpl.
    split; [reflexivity|]. split; [auto|].
    intros q [[= <-]|[]]. lra.
  - inversion Hrest as [|? ? Hx Hrest']; subst.
    destruct v as [| |a]; try contradiction.
    destruct x as [| |b]; try contradiction. simpl fold_left.
    destruct (Float.lt (Fin b) (Fin a)) eqn:E.
    + apply lt_Fin in E.
      destruct (IH (Fin b) I Hrest') as (m & Hm & Hin & Hle).
      exists m. split; [exact Hm|]. split.
      * destruct Hin as [Hin|Hin]; [right; left; exact Hin | right; right; exact Hin].
      * pose proof (Hle b (or_introl eq_refl)) as Hmb.
        intros q [[= <-]|[[= <-]|Hq]]; [lra | lra | apply Hle; right; exact Hq].
    + assert (a <= b)%Q.
      { destruct (Qlt_le_dec b a) as [H|H]; [|exact H].
        apply lt_Fin in H. congruence. }
      destruct (IH (Fin a) I Hrest') as (m & Hm & Hin & Hle).
      exists m. split; [exact Hm|]. split.
      * destruct Hin as [Hin|Hin]; [left; exact Hin | right; right; exact Hin].
      * pose proof (Hle a (or_introl eq_refl)) as Hma.
        intros q [[= <-]|[[= <-]|Hq]]; [lra | lra | apply Hle; right; exact Hq].
Qed.

Lemma gt_Fin p t : Float.gt (Fin p) (Fin t) = true <-> (t < p)%Q.
Proof.
  unfold Float.gt; simpl. destruct (p ?= t)%Q eqn:E.
  - apply Qeq_alt in E. split; [discriminate | lra].
  - apply Qlt_alt in E. split; [discriminate | lra].
  - apply Qgt_alt in E. split; [intros _; lra | reflexivity].
Qed.

Lemma fold_max_finite (rest : Series) : forall v,
  finite v -> Forall finite rest ->
  exists m : Q,
    fold_left (fun best x => if Float.gt x best then x else best) rest v = Fin m /\
    In (Fin m) (v :: rest) /\
    (forall q, In (Fin q) (v :: rest) -> (q <= m)%Q).
Proof.
  induction rest as [|x rest IH]; intros v Hv Hrest.
  - destruct v as [| |a]; try contradiction. exists a. simpl.
    split; [reflexivity|]. split; [auto|].
    intros q [[= <-]|[]]. lra.
  - inversion Hrest as [|? ? Hx Hrest']; subst.
    destruct v as [| |a]; try contradiction.
    destruct x as [| |b]; try contradiction. simpl fold_left.
    destruct (Float.gt (Fin b) (Fin a)) eqn:E.
    + apply gt_Fin in E.
      destruct (IH (Fin b) I Hrest') as (m & Hm & Hin & Hle).
      exists m. split; [exact Hm|]. split.
      * destruct Hin as [Hin|Hin]; [right; left; exact Hin | right; right; exact Hin].
      * pose proof (Hle b (or_introl eq_refl)) as Hmb.
        intros q [[= <-]|[[= <-]|Hq]]; [lra | lra | apply Hle; right; exact Hq].
    + assert (b <= a)%Q.
      { destruct (Qlt_le_dec a b) as [H|H]; [|exact H].
        apply gt_Fin in H. congruence. }
      destruct (IH (Fin a) I Hrest') as (m & Hm & Hin & Hle).
      exists m. split; [exact Hm|]. split.
      * destruct Hin as [Hin|Hin]; [left; exact Hin | right; right; exact Hin].
      * pose proof (Hle a (or_introl eq_refl)) as Hma.
        intros q [[= <-]|[[= <-]|Hq]]; [lra | lra | apply Hle; right; exact Hq].
Qed.

(** The route up to the test on the number of rows. *)
Lemma get_stock_data_run (h : list DataFrame) raw bars period_arg :
  h !! raw = Some (history bars) ->
  get_stock_data raw period_arg h
  = (let days := dict_get period_days
                   (match period_arg with Some p => p | None => "1y" end)
                   (252 + 1) in
     let filtered_data := tail days (records (cleaned bars)) in
     if days <=? length filtered_data then
       (lo <- lift (py_min (map snd filtered_data)) ;;
        hi <- lift (py_max (map snd filtered_data)) ;;
        ret (mkStockData filtered_data
               (Some (round2 (mul (Float.div
                         (sub (snd (List.last filtered_data ("", NaN)))
                              (snd (hd ("", NaN) filtered_data)))
                         (snd (hd ("", NaN) filtered_data))) (Fin 100))))
               (Some (round2 lo), Some (round2 hi))))
     else ret (mkStockData filtered_data None (None, None)))
      (<[raw := labelled bars]> h ++ [cleaned bars]).
Proof.
  intros Hh. unfold get_stock_data.
  rewrite (bind_ok _ _ _ _ _ (clean_data_run h raw bars Hh)).
  erewrite bind_ok; [|apply deref_at; lookup_allocated].
  unfold bind at 1, lift at 1. reflexivity.
Qed.

End StockDataRoute.

(** X2. [/api/get_stock_data] answers with the last [days] records of the
    cleaned series, [days] being the entry of the requested period; when
    the series has fewer than [days] rows it still answers, with all its
    records and [null] for the percent change and the closing range. *)
Theorem get_stock_data_window (h : list DataFrame) (raw : ref)
    (bars : list Stock_Functions.Bar) (period_arg : option string) :
  h !! raw = Some (history bars) ->
  exists (resp : StockData) (h' : list DataFrame) (days : nat),
    days = dict_get period_days
             (match period_arg with Some p => p | None => "1y" end) (252 + 1) /\
    get_stock_data raw period_arg h = (Ok resp, h') /\
    stock_data resp = tail days (records (cleaned bars)) /\
    length (stock_data resp) = Nat.min days (shape0 (cleaned bars)) /\
    (shape0 (cleaned bars) < days ->
     stock_data resp = records (cleaned bars) /\
     percent_change resp = None /\ closing_cost_range resp = (None, None)) /\
    (days <= shape0 (cleaned bars) ->
     exists pc lo hi : float,
       percent_change resp = Some pc /\
       closing_cost_range resp = (Some lo, Some hi)).
Proof.
  intros Hh. rewrite (get_stock_data_run h raw bars period_arg Hh).
  set (days := dict_get period_days _ _).
  pose proof (period_days_at_least_two
                (match period_arg with Some p => p | None => "1y" end)) as H2.
  fold days in H2. cbv zeta.
  pose proof (length_tail days (records (cleaned bars))) as Hlen.
  rewrite length_records in Hlen.
  destruct (days <=? length (tail days (records (cleaned bars)))) eqn:E.
  - apply Nat.leb_le in E.
    destruct (tail days (records (cleaned bars))) as [|r rows] eqn:Et;
      [simpl in E; lia|].
    eexists _, _, days. split; [reflexivity|]. split; [reflexivity|].
    cbn [stock_data percent_change closing_cost_range].
    split; [symmetry; exact Et|]. split; [exact Hlen|]. split; [lia|].
    intros _. eexists _, _, _. split; reflexivity.
  - apply Nat.leb_gt in E.
    eexists _, _, days. split; [reflexivity|]. split; [reflexivity|].
    cbn [stock_data percent_change closing_cost_range].
    split; [reflexivity|]. split; [exact Hlen|]. split; [|lia].
    intros Hn. split; [|split; reflexivity].
    unfold tail. rewrite length_records.
    replace (shape0 (cleaned bars) - days) with 0 by lia. reflexivity.
Qed.

Lemma get_stock_data_window_three_bars :
  [history Sample.three_bars] !! 0 = Some (history Sample.three_bars) /\
  exists (resp : StockData) (h' : list DataFrame) (days : nat),
    days = dict_get period_days "1w" (252 + 1) /\
    get_stock_data 0 (Some "1w") [history Sample.three_bars] = (Ok resp, h') /\
    stock_data resp = tail days (records (cleaned Sample.three_bars)) /\
    length (stock_data resp) = Nat.min days (shape0 (cleaned Sample.three_bars)) /\
    (shape0 (cleaned Sample.three_bars) < days ->
     stock_data resp = records (cleaned Sample.three_bars) /\
     percent_change resp = None /\ closing_cost_range resp = (None, None)) /\
    (days <= shape0 (cleaned Sample.three_bars) ->
     exists pc lo hi : float,
       percent_change resp = Some pc /\
       closing_cost_range resp = (Some lo, Some hi)).
Proof.
  split; [reflexivity|].
  exact (get_stock_data_window [history Sample.three_bars] 0 Sample.three_bars
           (Some "1w") eq_refl).
Defined.

(** X3. A period that is not one of the eight known ones is answered as
    one year, like a request that names no period. *)
Theorem get_stock_data_unknown_period (raw : ref) (period : string)
    (h : list DataFrame) :
  (forall k, In k (map fst period_days) -> k <> period) ->
  get_stock_data raw (Some period) h = get_stock_data raw (Some "1y") h /\
  get_stock_data raw None h = get_stock_data raw (Some "1y") h.
Proof.
  intros Hk. split; [|reflexivity]. unfold get_stock_data.
  rewrite (dict_get_default period_days period (252 + 1) Hk). reflexivity.
Qed.

Lemma get_stock_data_unknown_period_10y :
  (forall k, In k (map fst period_days) -> k <> "10y") /\
  get_stock_data 0 (Some "10y") [history Sample.three_bars]
  = get_stock_data 0 (Some "1y") [history Sample.three_bars].
Proof.
  assert (Hk : forall k, In k (map fst period_days) -> k <> "10y").
  { intros k Hin. simpl in Hin.
    repeat (destruct Hin as [<-|Hin]; [discriminate|]). contradiction. }
  split; [exact Hk|].
  apply (get_stock_data_unknown_period 0 "10y" [history Sample.three_bars] Hk).
Defined.

(** X4. When the series has enough rows and its closes are numbers, the
    reported closing range is the rounded least and greatest close among
    the returned records. *)
Theorem get_stock_data_range (h : list DataFrame) (raw : ref)
    (bars : list Stock_Functions.Bar) (period_arg : option string) :
  h !! raw = Some (history bars) ->
  dict_get period_days
    (match period_arg with Some p => p | None => "1y" end) (252 + 1)
  <= shape0 (cleaned bars) ->
  Forall finite (map Close bars) ->
  exists (resp : StockData) (h' : list DataFrame) (lo hi : Q),
    get_stock_data raw period_arg h = (Ok resp, h') /\
    closing_cost_range resp = (Some (round2 (Fin lo)), Some (round2 (Fin hi))) /\
    In (Fin lo) (map snd (stock_data resp)) /\
    In (Fin hi) (map snd (stock_data resp)) /\
    (forall q, In (Fin q) (map snd (stock_data resp)) -> (lo <= q <= hi)%Q).
Proof.
  intros Hh Hdays Hfin. rewrite (get_stock_data_run h raw bars period_arg Hh).
  set (days := dict_get period_days _ _) in *.
  pose proof (period_days_at_least_two
                (match period_arg with Some p => p | None => "1y" end)) as H2.
  fold days in H2. cbv zeta.
  pose proof (length_tail days (records (cleaned bars))) as Hlen.
  rewrite length_records in Hlen.
  assert (E : (days <=? length (tail days (records (cleaned bars)))) = true)
    by (apply Nat.leb_le; lia).
  rewrite E.
  assert (Hprices : Forall finite (map snd (tail days (records (cleaned bars))))).
  { unfold tail, records. rewrite <- skipn_map.
    apply Forall_drop.
    assert (Hc : Forall finite (col_or_nan "Close" (cleaned bars))).
    { unfold cleaned, loc_from, iloc_from, labelled, col_or_nan. simpl.
      apply Forall_drop, Hfin. }
    revert Hc. generalize (col_or_nan "Close" (cleaned bars)).
    generalize (map strftime (index (cleaned bars))).
    intros dates. induction dates as [|d dates IH]; intros close Hc; simpl;
      [constructor|].
    destruct close as [|c close]; simpl; [constructor|].
    inversion Hc; subst. constructor; [assumption | apply IH; assumption]. }
  destruct (map snd (tail days (records (cleaned bars)))) as [|v rest] eqn:Ev.
  { apply (f_equal (@length float)) in Ev. rewrite length_map in Ev.
    simpl in Ev. lia. }
  inversion Hprices as [|? ? Hv Hrest]; subst.
  destruct (fold_min_finite rest v Hv Hrest) as (lo & Hlo & Hlo_in & Hlo_le).
  destruct (fold_max_finite rest v Hv Hrest) as (hi & Hhi & Hhi_in & Hhi_ge).
  eexists _, _, lo, hi. unfold bind, lift, ret, py_min, py_max.
  rewrite Hlo, Hhi. split; [reflexivity|].
  cbn [stock_data closing_cost_range]. rewrite Ev.
  split; [reflexivity|]. split; [exact Hlo_in|]. split; [exact Hhi_in|].
  intros q Hq. split; [apply Hlo_le | apply Hhi_ge]; exact Hq.
Qed.

Lemma get_stock_data_range_three_bars :
  [history Sample.three_bars] !! 0 = Some (history Sample.three_bars) /\
  dict_get period_days "1d" (252 + 1) <= shape0 (cleaned Sample.three_bars) /\
  Forall finite (map Close Sample.three_bars) /\
  exists (resp : StockData) (h' : list DataFrame) (lo hi : Q),
    get_stock_data 0 (Some "1d") [history Sample.three_bars] = (Ok resp, h') /\
    closing_cost_range resp = (Some (round2 (Fin lo)), Some (round2 (Fin hi))) /\
    In (Fin lo) (map snd (stock_data resp)) /\
    In (Fin hi) (map snd (stock_data resp)) /\
    (forall q, In (Fin q) (map snd (stock_data resp)) -> (lo <= q <= hi)%Q).
Proof.
  assert (Hd : dict_get period_days "1d" (252 + 1) <= shape0 (cleaned Sample.three_bars))
    by (apply Nat.leb_le; reflexivity).
  assert (Hf : Forall finite (map Close Sample.three_bars))
    by (repeat constructor).
  split; [reflexivity|]. split; [exact Hd|]. split; [exact Hf|].
  exact (get_stock_data_range [history Sample.three_bars] 0 Sample.three_bars
           (Some "1d") eq_refl Hd Hf).
Defined.

(** ** More on [clean_data] *)

Section Labels.

Lemma lookup_gt (a b : list float) i x y :
  a !! i = Some x -> b !! i = Some y -> gt a b !! i = Some (Float.gt x y).
Proof.
  revert b i. induction a as [|x0 a IH]; intros [|y0 b] [|i]; simpl;
    try discriminate.
  - intros [= ->] [= ->]. reflexivity.
  - apply IH.
Qed.

Lemma lookup_shift_back (s : list float) i x :
  s !! S i = Some x -> shift (-1) s !! i = Some x.
Proof.
  intros Hx. assert (Hne : s <> []) by (destruct s; [discriminate | congruence]).
  rewrite (shift_back_snoc s Hne). unfold Series.
  rewrite lookup_app_l, lookup_drop; [exact Hx|].
  rewrite length_drop. apply lookup_lt_Some in Hx. lia.
Qed.

(** Inside the labelled frame every row but the last is labelled from
    the next close. *)
Lemma labelled_rows (close : list float) i c c' :
  close !! i = Some c -> close !! S i = Some c' ->
  shift (-1) close !! i = Some c' /\
  astype_int (gt (shift (-1) close) close) !! i
  = Some (if Float.gt c' c then Float.one else Float.zero).
Proof.
  intros Hc Hc'. pose proof (lookup_shift_back close i c' Hc') as Ht.
  split; [exact Ht|]. unfold astype_int, Series in *.
  rewrite lookup_map, (lookup_gt _ _ i c' c Ht Hc). reflexivity.
Qed.

Lemma astype_int_labels bs : Forall (fun x => metrics.is_label x = true) (astype_int bs).
Proof.
  unfold astype_int. apply Forall_map, List.Forall_forall.
  intros [] _; reflexivity.
Qed.

End Labels.

(** X5. In the frame [clean_data] returns, every row that has a
    successor carries the successor's close as [Tomorrow] and the label 1
    exactly when that close is greater than its own; every label is 0 or
    1 and the three columns are as long as the index. *)
Theorem clean_data_labels (h : list DataFrame) (data : ref)
    (bars : list Stock_Functions.Bar) :
  h !! data = Some (history bars) ->
  exists (out : ref) (h' : list DataFrame) (df : DataFrame)
         (close tomorrow target : Series),
    clean_data data h = (Ok out, h') /\
    h' !! out = Some df /\
    columns df = [("Close", close); ("Tomorrow", tomorrow); ("Target", target)] /\
    aligned df /\
    Forall (fun x => metrics.is_label x = true) target /\
    forall (k : nat) (c c' : float),
      close !! k = Some c -> close !! S k = Some c' ->
      tomorrow !! k = Some c' /\
      target !! k = Some (if Float.gt c' c then Float.one else Float.zero).
Proof.
  intros Hh. rewrite (clean_data_run h data bars Hh).
  set (j := first_not_before floor_date (map Date bars)).
  set (cl := map Close bars).
  eexists _, _, (cleaned bars), (drop j cl), (drop j (shift (-1) cl)),
    (drop j (astype_int (gt (shift (-1) cl) cl))).
  split; [reflexivity|]. split; [lookup_allocated|].
  split; [reflexivity|]. split; [|split].
  - unfold aligned, cleaned, loc_from, iloc_from, labelled, shape0.
    cbn [index columns map_columns map fst snd]. fold j cl.
    repeat constructor; cbn [snd]; rewrite !length_drop;
      rewrite ?length_astype_int, ?length_gt, ?length_shift;
      unfold cl; rewrite ?length_shift, ?length_map; reflexivity.
  - apply Forall_drop, astype_int_labels.
  - intros k c c'. unfold Series. rewrite !lookup_drop.
    replace (j + S k) with (S (j + k)) by lia. apply labelled_rows.
Qed.

Lemma clean_data_labels_three_bars :
  [history Sample.three_bars] !! 0 = Some (history Sample.three_bars) /\
  exists (out : ref) (h' : list DataFrame) (df : DataFrame)
         (close tomorrow target : Series),
    clean_data 0 [history Sample.three_bars] = (Ok out, h') /\
    h' !! out = Some df /\
    columns df = [("Close", close); ("Tomorrow", tomorrow); ("Target", target)] /\
    aligned df /\
    Forall (fun x => metrics.is_label x = true) target /\
    forall (k : nat) (c c' : float),
      close !! k = Some c -> close !! S k = Some c' ->
      tomorrow !! k = Some c' /\
      target !! k = Some (if Float.gt c' c then Float.one else Float.zero).
Proof.
  split; [reflexivity|].
  exact (clean_data_labels [history Sample.three_bars] 0 Sample.three_bars eq_refl).
Defined.

Section Repeated.

(** [clean_data] on a frame without a [Dividends] column raises at its
    first statement. *)
Lemma clean_data_without_dividends (h : list DataFrame) data df :
  h !! data = Some df ->
  lookup_col "Dividends" (columns df) = None ->
  clean_data data h = (Raise KeyError, h).
Proof.
  intros Hh Hno. unfold clean_data.
  apply bind_raises. unfold obj.del.
  rewrite (bind_ok _ _ _ _ _ (deref_at _ _ _ Hh)).
  apply bind_raises. unfold lift, delitem.
  assert (E : remove_col "Dividends" (columns df) = None).
  { revert Hno. generalize (columns df). intros cols.
    induction cols as [|[n c] cols IH]; simpl; [reflexivity|].
    destruct (String.eqb n "Dividends"); [discriminate|].
    intros Hno. rewrite (IH Hno). reflexivity. }
  rewrite E. reflexivity.
Qed.

End Repeated.

(** X6. [clean_data] cannot be run twice on the same data: after a
    successful call, a second call on the frame it was given, or on the
    frame it returned, raises [KeyError] (the [Dividends] column is gone)
    and changes nothing. *)
Theorem clean_data_twice (h : list DataFrame) (data : ref)
    (bars : list Stock_Functions.Bar) :
  h !! data = Some (history bars) ->
  exists (out : ref) (h' : list DataFrame),
    clean_data data h = (Ok out, h') /\
    clean_data data h' = (Raise KeyError, h') /\
    clean_data out h' = (Raise KeyError, h').
Proof.
  intros Hh. pose proof (lookup_lt_Some _ _ _ Hh) as Hlt.
  rewrite (clean_data_run h data bars Hh).
  eexists _, _. split; [reflexivity|]. split.
  - apply (clean_data_without_dividends _ data (labelled bars)); [|reflexivity].
    rewrite lookup_app_l by (rewrite length_insert; exact Hlt).
    apply held_again, Hlt.
  - apply (clean_data_without_dividends _ _ (cleaned bars)); [|reflexivity].
    lookup_allocated.
Qed.

Lemma clean_data_twice_three_bars :
  [history Sample.three_bars] !! 0 = Some (history Sample.three_bars) /\
  exists (out : ref) (h' : list DataFrame),
    clean_data 0 [history Sample.three_bars] = (Ok out, h') /\
    clean_data 0 h' = (Raise KeyError, h') /\
    clean_data out h' = (Raise KeyError, h').
Proof.
  split; [reflexivity|].
  exact (clean_data_twice [history Sample.three_bars] 0 Sample.three_bars eq_refl).
Defined.

(** ** More on [add_predictors] *)

Section Complete.

Lemma compress_Forall {A} (P : A -> Prop) (f : nat -> bool) (d : A) :
  forall n s (l : list A),
    (forall k, k < length l -> f (s + k) = true -> P (nth k l d)) ->
    Forall P (compress (map f (seq s n)) l).
Proof.
  induction n as [|n IH]; intros s l Hl; simpl; [constructor|].
  destruct l as [|x l]; [constructor|].
  assert (Hrest : Forall P (compress (map f (seq (S s) n)) l)).
  { apply IH. intros k Hk Hf. apply (Hl (S k)); [simpl; lia|].
    replace (s + S k) with (S s + k) by lia. exact Hf. }
  destruct (f s) eqn:E; [|exact Hrest].
  constructor; [|exact Hrest].
  apply (Hl 0); [simpl; lia | rewrite Nat.add_0_r; exact E].
Qed.

Lemma compress_length_eq {A B} mask : forall (l : list A) (l' : list B),
  length l = length l' ->
  length (compress mask l) = length (compress mask l').
Proof.
  induction mask as [|m mask IH]; intros [|x l] [|y l']; simpl; try lia;
    try reflexivity.
  intros [= E]. destruct m; simpl; rewrite (IH l l' E); reflexivity.
Qed.

(** A kept row has no NaN in any column [dropna] looks at. *)
Lemma compress_complete (cols : list Series) (c : Series) n :
  In c cols ->
  Forall (fun x => Float.isna x = false)
    (compress (map (row_complete cols) (seq 0 n)) c).
Proof.
  intros Hin. apply (compress_Forall _ _ NaN). intros k _ Hk.
  unfold row_complete in Hk. rewrite forallb_forall in Hk.
  apply negb_true_iff, (Hk c Hin).
Qed.

Lemma with_ratios_lengths idx close tomorrow target n c :
  length close = length idx -> length tomorrow = length idx ->
  length target = length idx ->
  In (n, c) (columns (with_ratios idx close tomorrow target)) ->
  length c = length idx.
Proof.
  intros Hc Htm Htg Hin. unfold with_ratios in Hin. cbn [columns app] in Hin.
  destruct Hin as [E | [E | [E | Hin]]]; try (inversion E; subst; assumption).
  apply in_map_iff in Hin as (w & E & _). inversion E; subst.
  rewrite length_ratio. exact Hc.
Qed.

End Complete.

(** X7. The frame [add_predictors] returns has the three columns of the
    cleaned series followed by the six ratio columns, all as long as its
    index, and no NaN anywhere but in [Tomorrow]. *)
Theorem add_predictors_complete (h : list DataFrame) (data : ref)
    (idx : list Z) (close tomorrow target : Series) :
  h !! data = Some (cleaned_series idx close tomorrow target) ->
  length close = length idx ->
  length tomorrow = length idx ->
  length target = length idx ->
  exists (out : ref) (new_predictors : list string) (h' : list DataFrame)
         (df : DataFrame),
    add_predictors data h = (Ok (out, new_predictors), h') /\
    h' !! out = Some df /\
    new_predictors
    = ["Close_Ratio_2"; "Close_Ratio_5"; "Close_Ratio_21"; "Close_Ratio_63";
       "Close_Ratio_252"; "Close_Ratio_1260"] /\
    names df = ["Close"; "Tomorrow"; "Target"] ++ new_predictors /\
    aligned df /\
    forall (n : string) (c : Series),
      In (n, c) (columns df) -> n <> "Tomorrow" ->
      Forall (fun x => Float.isna x = false) c.
Proof.
  intros Hh Hc Htm Htg.
  rewrite (add_predictors_run h data idx close tomorrow target Hh Hc).
  eexists _, _, _, (featured idx close tomorrow target).
  split; [reflexivity|]. split; [lookup_allocated|].
  split; [reflexivity|]. split; [reflexivity|]. split.
  - unfold aligned, featured, shape0. cbn [index columns]. unfold map_columns.
    apply Forall_map, List.Forall_forall. intros [n c] Hin. cbn [snd fst].
    apply compress_length_eq.
    apply (with_ratios_lengths idx close tomorrow target n c Hc Htm Htg Hin).
  - intros n c Hin Hn. unfold featured in Hin. cbn [columns] in Hin.
    unfold map_columns in Hin. apply in_map_iff in Hin as ([n0 c0] & E & Hin0).
    cbn [fst snd] in E. inversion E; subst n c.
    unfold complete. apply compress_complete.
    unfold with_ratios in Hin0. cbn [columns app] in Hin0.
    destruct Hin0 as [E0 | [E0 | [E0 | Hin0]]].
    + inversion E0; subst. left. reflexivity.
    + inversion E0; subst. congruence.
    + inversion E0; subst. right. left. reflexivity.
    + apply in_map_iff in Hin0 as (w & E0 & Hw). inversion E0; subst.
      right. right. apply in_map_iff. exists w. split; [reflexivity | exact Hw].
Qed.

Lemma add_predictors_complete_flat :
  [Sample.flat_series 1262] !! 0 = Some (Sample.flat_series 1262) /\
  exists (out : ref) (new_predictors : list string) (h' : list DataFrame)
         (df : DataFrame),
    add_predictors 0 [Sample.flat_series 1262] = (Ok (out, new_predictors), h') /\
    h' !! out = Some df /\
    new_predictors
    = ["Close_Ratio_2"; "Close_Ratio_5"; "Close_Ratio_21"; "Close_Ratio_63";
       "Close_Ratio_252"; "Close_Ratio_1260"] /\
    names df = ["Close"; "Tomorrow"; "Target"] ++ new_predictors /\
    aligned df /\
    forall (n : string) (c : Series),
      In (n, c) (columns df) -> n <> "Tomorrow" ->
      Forall (fun x => Float.isna x = false) c.
Proof.
  split; [reflexivity|].
  apply (add_predictors_complete [Sample.flat_series 1262] 0
           (Sample.flat_index 1262) (Sample.flat_close 1262)
           (Sample.flat_tomorrow 1262) (Sample.flat_target 1262) eq_refl);
    vm_compute; reflexivity.
Defined.

Section Again.

(** The loop run on a frame that already has the ratio columns rewrites
    them with the same values. *)
Lemma add_ratios_again (h : list DataFrame) data idx close tomorrow target :
  data < length h ->
  length close = length idx ->
  add_ratios data benchmarks []
    (<[data := with_ratios idx close tomorrow target]> h)
  = (Ok (map ratio_column benchmarks),
     <[data := with_ratios idx close tomorrow target]> h).
Proof.
  intros Hlt Hlen. unfold with_ratios, benchmarks, add_ratios. cbn [app map].
  do 6 (erewrite bind_ok;
          [|eapply run_get; [apply held_again, Hlt | reflexivity]];
        erewrite bind_ok;
          [|apply run_set; [exact Hlt | apply (eq_trans (length_ratio _ _) Hlen)]]).
  reflexivity.
Qed.

End Again.

(** X8. Running [add_predictors] a second time on the same frame adds no
    column to it and returns a frame equal to the first result: the ratio
    columns are overwritten with the same values. *)
Theorem add_predictors_twice (h : list DataFrame) (data : ref)
    (idx : list Z) (close tomorrow target : Series) :
  h !! data = Some (cleaned_series idx close tomorrow target) ->
  length close = length idx ->
  exists (out : ref) (new_predictors : list string) (h' : list DataFrame)
         (df : DataFrame),
    add_predictors data h = (Ok (out, new_predictors), h') /\
    h' !! out = Some df /\
    add_predictors data h' = (Ok (length h', new_predictors), h' ++ [df]).
Proof.
  intros Hh Hc. pose proof (lookup_lt_Some _ _ _ Hh) as Hlt.
  rewrite (add_predictors_run h data idx close tomorrow target Hh Hc).
  eexists _, _, _, (featured idx close tomorrow target).
  split; [reflexivity|]. split; [lookup_allocated|].
  set (h1 := <[data := with_ratios idx close tomorrow target]> h
             ++ [featured idx close tomorrow target]).
  assert (Hlt1 : data < length h1)
    by (unfold h1; rewrite length_app, length_insert; lia).
  assert (Hh1 : h1 !! data = Some (with_ratios idx close tomorrow target)).
  { unfold h1. rewrite lookup_app_l by (rewrite length_insert; exact Hlt).
    apply held_again, Hlt. }
  rewrite <- (list_insert_id h1 data _ Hh1) at 1.
  unfold add_predictors.
  erewrite bind_ok; [|apply add_ratios_again; assumption].
  erewrite bind_ok; [|apply deref_at, held_again, Hlt1].
  rewrite (list_insert_id h1 data _ Hh1).
  unfold bind, lift, alloc, ret. simpl. reflexivity.
Qed.

Lemma add_predictors_twice_flat :
  [Sample.flat_series 5] !! 0 = Some (Sample.flat_series 5) /\
  exists (out : ref) (new_predictors : list string) (h' : list DataFrame)
         (df : DataFrame),
    add_predictors 0 [Sample.flat_series 5] = (Ok (out, new_predictors), h') /\
    h' !! out = Some df /\
    add_predictors 0 h' = (Ok (length h', new_predictors), h' ++ [df]).
Proof.
  split; [reflexivity|].
  exact (add_predictors_twice [Sample.flat_series 5] 0 (Sample.flat_index 5)
           (Sample.flat_close 5) (Sample.flat_tomorrow 5) (Sample.flat_target 5)
           eq_refl eq_refl).
Defined.

(** X9. [add_predictors] needs a [Close] column: on a frame without one
    it raises [KeyError] before it has changed anything. *)
Theorem add_predictors_without_close (h : list DataFrame) (data : ref)
    (df : DataFrame) :
  h !! data = Some df ->
  lookup_col "Close" (columns df) = None ->
  add_predictors data h = (Raise KeyError, h).
Proof.
  intros Hh Hno. unfold add_predictors, benchmarks, add_ratios.
  do 2 apply bind_raises. unfold obj.get.
  rewrite (bind_ok _ _ _ _ _ (deref_at _ _ _ Hh)).
  unfold lift, getitem. rewrite Hno. reflexivity.
Qed.

Lemma add_predictors_without_close_sample :
  [mkFrame [10959%Z] [("Open", [Fin 1])]] !! 0
  = Some (mkFrame [10959%Z] [("Open", [Fin 1])]) /\
  add_predictors 0 [mkFrame [10959%Z] [("Open", [Fin 1])]]
  = (Raise KeyError, [mkFrame [10959%Z] [("Open", [Fin 1])]]).
Proof.
  split; [reflexivity|].
  exact (add_predictors_without_close [mkFrame [10959%Z] [("Open", [Fin 1])]] 0
           (mkFrame [10959%Z] [("Open", [Fin 1])]) eq_refl eq_refl).
Defined.

(** ** More on [predict] and [backtest] *)

Section Predict.

Context {Model : Type} {C : Classifier Model}.

Lemma threshold_labels t (s : Series) : Forall label_or_nan (threshold t s).
Proof.
  rewrite threshold_map. apply Forall_map, List.Forall_forall.
  intros x _. apply label_cases.
Qed.

End Predict.

Section Decided.

Lemma label_decided p : decided p (label cutoff_60 p).
Proof.
  unfold decided. split; [|split].
  - rewrite label_one_iff. unfold cutoff_60. split; [tauto|].
    intros H. split; [exact H | lra].
  - rewrite label_zero_iff. unfold cutoff_60. split; [|tauto].
    intros [H | [_ H]]; [exact H | lra].
  - split.
    + unfold label. destruct (Float.ge p (Fin cutoff_60)) eqn:G.
      * destruct (Float.lt Float.one (Fin cutoff_60)); discriminate.
      * destruct (Float.lt p (Fin cutoff_60)); [discriminate | tauto].
    + intros ->. reflexivity.
Qed.

Lemma threshold_decided (probs : Series) :
  Forall2 decided probs (threshold cutoff_60 probs).
Proof.
  rewrite threshold_map. induction probs as [|p probs IH]; simpl; constructor;
    [apply label_decided | exact IH].
Qed.

End Decided.

(** X11. What a successful [predict] returns: the model fitted on the
    training rows, and a frame on the index of the test rows with their
    [Target] column and a [Predictions_60%] column that holds, for the
    probability the fitted model gives each test row, 1 when it is at
    least 0.60, 0 when it is below, and NaN exactly when the probability
    is NaN. *)
Theorem predict_output {Model : Type} {C : Classifier Model}
    (train test : DataFrame) (predictors : list string) (model fitted : Model)
    (combined : DataFrame) :
  predict train test predictors model = Ok (combined, fitted) ->
  exists (X X_test : DataFrame) (y target probs preds : Series),
    getitems train predictors = Ok X /\
    getitem train "Target" = Ok y /\
    fitted = fit model X y /\
    getitems test predictors = Ok X_test /\
    probs = predict_proba fitted X_test /\
    length probs = shape0 test /\
    getitem test "Target" = Ok target /\
    combined
    = mkFrame (index test) [("Target", target); ("Predictions_60%", preds)] /\
    Forall2 decided probs preds.
Proof.
  unfold predict.
  destruct (getitems train predictors) as [X|e] eqn:EX; [|discriminate].
  destruct (getitem train "Target") as [y|e] eqn:Ey; [|discriminate].
  cbn [rbind].
  destruct (getitems test predictors) as [X_test|e] eqn:EXt; [|discriminate].
  cbn [rbind].
  destruct (negb (length (threshold cutoff_60 (predict_proba (fit model X y) X_test))
                  =? shape0 test)) eqn:El; [discriminate|].
  destruct (getitem test "Target") as [target|e] eqn:Et; [|discriminate].
  cbn [rbind]. intros [= <- <-].
  exists X, X_test, y, target, (predict_proba (fit model X y) X_test),
    (threshold cutoff_60 (predict_proba (fit model X y) X_test)).
  repeat (split; [reflexivity|]). split.
  - apply negb_false_iff, Nat.eqb_eq in El.
    rewrite length_threshold in El. exact El.
  - split; [reflexivity|]. split; [reflexivity | apply threshold_decided].
Qed.

Lemma predict_output_flat :
  predict (iloc 0 4 (Sample.flat_series 10)) (iloc 4 7 (Sample.flat_series 10))
    ["Close"] NaN
  = Ok (mkFrame (slice 4 7 (Sample.flat_index 10))
          [("Target", repeat Float.zero 3);
           ("Predictions_60%", repeat Float.zero 3)], Fin (0 # 4)) /\
  exists (X X_test : DataFrame) (y target probs preds : Series),
    getitems (iloc 0 4 (Sample.flat_series 10)) ["Close"] = Ok X /\
    getitem (iloc 0 4 (Sample.flat_series 10)) "Target" = Ok y /\
    Fin (0 # 4) = fit NaN X y /\
    getitems (iloc 4 7 (Sample.flat_series 10)) ["Close"] = Ok X_test /\
    probs = predict_proba (Fin (0 # 4)) X_test /\
    length probs = shape0 (iloc 4 7 (Sample.flat_series 10)) /\
    getitem (iloc 4 7 (Sample.flat_series 10)) "Target" = Ok target /\
    mkFrame (slice 4 7 (Sample.flat_index 10))
      [("Target", repeat Float.zero 3);
       ("Predictions_60%", repeat Float.zero 3)]
    = mkFrame (index (iloc 4 7 (Sample.flat_series 10)))
        [("Target", target); ("Predictions_60%", preds)] /\
    Forall2 decided probs preds.
Proof.
  assert (E : predict (iloc 0 4 (Sample.flat_series 10))
                (iloc 4 7 (Sample.flat_series 10)) ["Close"] NaN
              = Ok (mkFrame (slice 4 7 (Sample.flat_index 10))
                      [("Target", repeat Float.zero 3);
                       ("Predictions_60%", repeat Float.zero 3)], Fin (0 # 4)))
    by (vm_compute; reflexivity).
  split; [exact E|].
  exact (predict_output _ _ _ _ _ _ E).
Defined.

Section Covering.

Lemma starts_of_step start stop step :
  0 < step -> start < stop ->
  starts_of start stop step = start :: starts_of (start + step) stop step.
Proof.
  intros Hs Hlt. unfold starts_of.
  assert (E : (stop - start + step - 1) / step
              = S ((stop - (start + step) + step - 1) / step)).
  { destruct (Nat.le_gt_cases (start + step) stop) as [Hle|Hgt].
    - replace (stop - start + step - 1)
        with (stop - (start + step) + step - 1 + 1 * step) by lia.
      rewrite Nat.div_add by lia. lia.
    - replace (stop - (start + step) + step - 1) with (step - 1) by lia.
      rewrite (Nat.div_small (step - 1)) by lia.
      replace (stop - start + step - 1)
        with (stop - start - 1 + 1 * step) by lia.
      rewrite Nat.div_add, Nat.div_small by lia. reflexivity. }
  rewrite E. cbn [seq map]. rewrite Nat.add_0_r. f_equal.
  rewrite <- seq_shift, map_map. apply map_ext. intros k. simpl. lia.
Qed.

(** The test slices of the windows tile the column from [start] on. *)
Lemma concat_slices {A} (l : list A) step :
  0 < step ->
  forall d start,
    length l - start <= d ->
    List.concat (map (fun i => slice i (i + step) l) (starts_of start (length l) step))
    = drop start l.
Proof.
  intros Hs. induction d as [|d IH]; intros start Hd.
  - rewrite starts_of_none by lia. rewrite drop_ge by lia. reflexivity.
  - destruct (Nat.le_gt_cases (length l) start) as [Hge|Hlt].
    + rewrite starts_of_none by lia. rewrite drop_ge by lia. reflexivity.
    + rewrite starts_of_step by lia. cbn [map List.concat].
      rewrite IH by lia. unfold slice.
      replace (start + step - start) with step by lia.
      replace (drop (start + step) l) with (drop step (drop start l))
        by (rewrite drop_drop; reflexivity).
      apply take_drop.
Qed.

Lemma concat_slices_from {A} (l : list A) n start step :
  0 < step -> length l = n ->
  List.concat (map (fun i => slice i (i + step) l) (starts_of start n step))
  = drop start l.
Proof.
  intros Hs <-. apply (concat_slices l step Hs _ start (Nat.le_refl _)).
Qed.

Context {Model : Type} {C : Classifier Model} {L : ClassifierLaws Model}.

Variables (X : DataFrame) (y : Series) (step : nat).

Lemma walk_forward_index starts : forall m : Model,
  map index (fst (walk_forward X y step starts m))
  = map (fun i => slice i (i + step) (index X)) starts.
Proof.
  induction starts as [|i rest IH]; intros m; simpl; [reflexivity|].
  specialize (IH (refit X y m i)).
  destruct (walk_forward X y step rest (refit X y m i)). simpl in *.
  rewrite IH. reflexivity.
Qed.

Lemma walk_forward_target starts : forall m : Model,
  map (col_or_nan "Target") (fst (walk_forward X y step starts m))
  = map (fun i => slice i (i + step) y) starts.
Proof.
  induction starts as [|i rest IH]; intros m; simpl; [reflexivity|].
  specialize (IH (refit X y m i)).
  destruct (walk_forward X y step rest (refit X y m i)). simpl in *.
  rewrite IH. reflexivity.
Qed.

Lemma walk_forward_predictions starts : forall m : Model,
  Forall2 (fun (p : Series) i =>
             length p = length (slice i (i + step) (index X)) /\
             Forall label_or_nan p)
    (map (col_or_nan "Predictions_60%") (fst (walk_forward X y step starts m)))
    starts.
Proof.
  induction starts as [|i rest IH]; intros m; simpl; [constructor|].
  specialize (IH (refit X y m i)).
  destruct (walk_forward X y step rest (refit X y m i)). simpl in *.
  constructor; [|exact IH]. split.
  - change (col_or_nan "Predictions_60%" (window_frame X y step (refit X y m i) i))
      with (threshold cutoff_60
              (predict_proba (refit X y m i) (iloc i (i + step) X))).
    rewrite length_threshold, predict_proba_length. reflexivity.
  - apply threshold_labels.
Qed.

Lemma walk_forward_final starts : forall m : Model,
  snd (walk_forward X y step starts m) = fold_left (refit X y) starts m.
Proof.
  induction starts as [|i rest IH]; intros m; simpl; [reflexivity|].
  specialize (IH (refit X y m i)).
  destruct (walk_forward X y step rest (refit X y m i)). simpl in *. exact IH.
Qed.

(** The concatenation of the window frames, column by column. *)
Lemma concat_walk_forward starts (m : Model) :
  starts <> [] ->
  concat (fst (walk_forward X y step starts m))
  = Ok (mkFrame
          (List.concat (map (fun i => slice i (i + step) (index X)) starts))
          [("Target", List.concat (map (fun i => slice i (i + step) y) starts));
           ("Predictions_60%",
            List.concat (map (col_or_nan "Predictions_60%")
                           (fst (walk_forward X y step starts m))))]).
Proof.
  intros Hne. rewrite <- walk_forward_index with (m := m).
  rewrite <- walk_forward_target with (m := m).
  destruct starts as [|i rest]; [congruence|]. simpl.
  destruct (walk_forward X y step rest (refit X y m i)). reflexivity.
Qed.

End Covering.

Section Lengths.

Lemma length_concat_Forall2 {A B} (R : list A -> B -> Prop) (len : B -> nat) :
  forall (ps : list (list A)) (ws : list B),
    Forall2 (fun p i => length p = len i /\ R p i) ps ws ->
    length (List.concat ps) = list_sum (map len ws).
Proof.
  induction 1 as [|p i ps ws [Hp _] _ IH]; simpl; [reflexivity|].
  rewrite length_app, Hp, IH. reflexivity.
Qed.

Lemma length_concat_map {A B} (f : B -> list A) (ws : list B) :
  length (List.concat (map f ws)) = list_sum (map (fun i => length (f i)) ws).
Proof.
  induction ws as [|i ws IH]; simpl; [reflexivity|].
  rewrite length_app, IH. reflexivity.
Qed.

Lemma Forall_concat_Forall2 {A B} (P : A -> Prop) (Q : list A -> B -> Prop) :
  forall (ps : list (list A)) (ws : list B),
    Forall2 (fun p i => Q p i /\ Forall P p) ps ws ->
    Forall P (List.concat ps).
Proof.
  induction 1 as [|p i ps ws [_ Hp] _ IH]; simpl; [constructor|].
  apply Forall_app. split; assumption.
Qed.

End Lengths.

Section FromStart.

Context {Model : Type} {C : Classifier Model} {L : ClassifierLaws Model}.

Lemma window_predictions_labels X y step starts (m : Model) :
  Forall label_or_nan (window_predictions X y step starts m).
Proof.
  exact (Forall_concat_Forall2 _ _ _ _
           (Forall2_impl _ _ _ _ (walk_forward_predictions X y step starts m)
              (fun p i H => H))).
Qed.

Lemma window_predictions_length X y step start (m : Model) :
  0 < step ->
  length (window_predictions X y step (starts_of start (shape0 X) step) m)
  = shape0 X - start.
Proof.
  intros Hstep. unfold window_predictions.
  rewrite (length_concat_Forall2 _ _ _ _
             (walk_forward_predictions X y step _ m)).
  rewrite <- length_concat_map.
  rewrite (concat_slices_from (index X) (shape0 X) start step Hstep eq_refl).
  apply length_drop.
Qed.

(** [backtest] from a start inside the frame: the result, column by
    column. *)
Lemma backtest_from_start (h : list DataFrame) (data : ref)
    (df X : DataFrame) (y : Series) (predictors : list string)
    (model : Model) (start step : nat) :
  h !! data = Some df ->
  getitems df predictors = Ok X ->
  getitem df "Target" = Ok y ->
  aligned df ->
  0 < step ->
  start < shape0 df ->
  backtest data model predictors start step h
  = (Ok (mkFrame (drop start (index df))
           [("Target", drop start y);
            ("Predictions_60%",
             window_predictions X y step (starts_of start (shape0 df) step) model)],
         snd (walk_forward X y step (starts_of start (shape0 df) step) model)),
     h).
Proof.
  intros Hdata HX Hy Hal Hstep Hstart.
  assert (HiX : index X = index df) by exact (getitems_index _ _ _ HX).
  assert (Hly : length y = shape0 df) by exact (getitem_aligned _ _ _ Hal Hy).
  rewrite (backtest_run df X y predictors HX Hy h data Hdata model start step Hstep).
  rewrite concat_walk_forward by (apply starts_of_nonempty; assumption).
  rewrite HiX.
  rewrite (concat_slices_from (index df) (shape0 df) start step Hstep eq_refl).
  rewrite (concat_slices_from y (shape0 df) start step Hstep Hly).
  reflexivity.
Qed.

End FromStart.

(** X12. For any start inside the frame and any positive step, [backtest]
    returns one row per row of the frame from [start] on, in order: its
    index and its [Target] column are those of the input from [start] on,
    and its [Predictions_60%] column has as many entries, each 0 or 1 (NaN
    only where the classifier gave NaN). *)
Theorem backtest_covers_from_start {Model : Type} {C : Classifier Model}
    {L : ClassifierLaws Model}
    (h : list DataFrame) (data : ref) (df X : DataFrame) (y : Series)
    (predictors : list string) (model : Model) (start step : nat) :
  h !! data = Some df ->
  getitems df predictors = Ok X ->
  getitem df "Target" = Ok y ->
  aligned df ->
  0 < step ->
  start < shape0 df ->
  exists (res : DataFrame) (final : Model) (preds : Series),
    backtest data model predictors start step h = (Ok (res, final), h) /\
    index res = drop start (index df) /\
    columns res = [("Target", drop start y); ("Predictions_60%", preds)] /\
    length preds = shape0 df - start /\
    Forall label_or_nan preds.
Proof.
  intros Hdata HX Hy Hal Hstep Hstart.
  rewrite (backtest_from_start h data df X y predictors model start step
             Hdata HX Hy Hal Hstep Hstart).
  eexists _, _, _. split; [reflexivity|].
  split; [reflexivity|]. split; [reflexivity|]. split.
  - replace (shape0 df) with (shape0 X)
      by (unfold shape0; rewrite (getitems_index _ _ _ HX); reflexivity).
    apply window_predictions_length, Hstep.
  - apply window_predictions_labels.
Qed.

Lemma backtest_covers_from_start_flat :
  [Sample.flat_series 10] !! 0 = Some (Sample.flat_series 10) /\
  aligned (Sample.flat_series 10) /\
  exists (X : DataFrame) (y : Series),
    getitems (Sample.flat_series 10) ["Close"] = Ok X /\
    getitem (Sample.flat_series 10) "Target" = Ok y /\
    exists (res : DataFrame) (final : float) (preds : Series),
      backtest 0 NaN ["Close"] 4 3 [Sample.flat_series 10]
      = (Ok (res, final), [Sample.flat_series 10]) /\
      index res = drop 4 (index (Sample.flat_series 10)) /\
      columns res = [("Target", drop 4 y); ("Predictions_60%", preds)] /\
      length preds = shape0 (Sample.flat_series 10) - 4 /\
      Forall label_or_nan preds.
Proof.
  assert (Hal : aligned (Sample.flat_series 10)) by (repeat constructor).
  split; [reflexivity|]. split; [exact Hal|].
  eexists _, _. split; [reflexivity|]. split; [reflexivity|].
  apply (backtest_covers_from_start [Sample.flat_series 10] 0
           (Sample.flat_series 10) _ _ ["Close"] NaN 4 3
           eq_refl eq_refl eq_refl Hal); repeat constructor.
Defined.

Section Missing.

Lemma select_cols_missing cols ns p :
  In p ns -> lookup_col p cols = None -> select_cols cols ns = Raise KeyError.
Proof.
  induction ns as [|n ns IH]; simpl; [contradiction|].
  intros [->|Hin] Hp.
  - rewrite Hp. reflexivity.
  - destruct (lookup_col n cols); [|reflexivity].
    rewrite (IH Hin Hp). reflexivity.
Qed.

Lemma lookup_col_map_none (g : Series -> Series) name cols :
  lookup_col name cols = None -> lookup_col name (map_columns g cols) = None.
Proof. intros H. rewrite lookup_col_map, H. reflexivity. Qed.

End Missing.

(** X13. When one of the predictors is not a column of the frame and
    there is at least one window, [backtest] raises [KeyError] at the
    first window and leaves the store as it was. *)
Theorem backtest_missing_predictor {Model : Type} {C : Classifier Model}
    (h : list DataFrame) (data : ref) (df : DataFrame)
    (predictors : list string) (p : string) (model : Model) (start step : nat) :
  h !! data = Some df ->
  In p predictors ->
  lookup_col p (columns df) = None ->
  0 < step ->
  start < shape0 df ->
  backtest data model predictors start step h = (Raise KeyError, h).
Proof.
  intros Hdata Hin Hp Hstep Hstart. unfold backtest.
  rewrite (bind_ok _ _ _ _ _ (run_shape0 _ _ _ Hdata)).
  unfold bind at 1, lift at 1. rewrite (range_runs _ _ _ Hstep).
  rewrite (starts_of_step _ _ _ Hstep Hstart).
  apply bind_raises. cbn [backtest_loop].
  rewrite (bind_ok _ _ _ _ _ (run_iloc_copy _ _ _ 0 start Hdata)).
  rewrite (bind_ok _ _ _ _ _ (run_iloc_copy _ _ _ start (start + step) Hdata)).
  apply bind_raises. unfold lift, predict, getitems.
  rewrite (select_cols_missing _ predictors p Hin); [reflexivity|].
  unfold iloc. cbn [columns]. apply lookup_col_map_none, Hp.
Qed.

Lemma backtest_missing_predictor_flat :
  [Sample.flat_series 10] !! 0 = Some (Sample.flat_series 10) /\
  In "Volume" ["Close"; "Volume"] /\
  lookup_col "Volume" (columns (Sample.flat_series 10)) = None /\
  backtest 0 NaN ["Close"; "Volume"] 4 3 [Sample.flat_series 10]
  = (Raise KeyError, [Sample.flat_series 10]).
Proof.
  assert (Hin : In "Volume" ["Close"; "Volume"]) by (right; left; reflexivity).
  split; [reflexivity|]. split; [exact Hin|]. split; [reflexivity|].
  apply (backtest_missing_predictor [Sample.flat_series 10] 0
           (Sample.flat_series 10) ["Close"; "Volume"] "Volume" NaN 4 3
           eq_refl Hin eq_refl); repeat constructor.
Defined.

(** X14. The model [backtest] hands back has been refitted once per
    window and last on the rows before the start of the last window: it
    is the expanding-window fit of those rows, so the rows of the last
    test window never reach it. *)
Theorem backtest_final_model {Model : Type} {C : Classifier Model}
    {L : ClassifierLaws Model}
    (h : list DataFrame) (data : ref) (df X : DataFrame) (y : Series)
    (predictors : list string) (model : Model) (start step : nat) :
  h !! data = Some df ->
  getitems df predictors = Ok X ->
  getitem df "Target" = Ok y ->
  0 < step ->
  start < shape0 df ->
  exists (res : DataFrame) (final : Model) (i : nat),
    backtest data model predictors start step h = (Ok (res, final), h) /\
    last (starts_of start (shape0 df) step) = Some i /\
    i < shape0 df /\ shape0 df <= i + step /\
    final = expanding_fit start step model (iloc 0 i X) (slice 0 i y).
Proof.
  intros Hdata HX Hy Hstep Hstart.
  rewrite (backtest_run df X y predictors HX Hy h data Hdata model start step Hstep).
  set (starts := starts_of start (shape0 df) step).
  assert (Hne : starts <> []) by (apply starts_of_nonempty; assumption).
  rewrite concat_walk_forward by exact Hne.
  rewrite walk_forward_final.
  destruct (last starts) as [i|] eqn:Elast;
    [|apply last_None in Elast; contradiction].
  assert (Hj : starts !! pred (length starts) = Some i)
    by (rewrite <- last_lookup; exact Elast).
  destruct (starts_of_lookup _ _ _ _ _ Hstep Hj) as [Hi Hin].
  eexists _, _, i. split; [reflexivity|]. split; [reflexivity|].
  split; [exact Hin|]. split.
  - unfold starts, starts_of in Hi. rewrite length_map, length_seq in Hi.
    pose proof (Nat.div_mod_eq (shape0 df - start + step - 1) step) as Hdm.
    pose proof (Nat.mod_upper_bound (shape0 df - start + step - 1) step
                  ltac:(lia)) as Hmod.
    assert (Hpos : 1 <= (shape0 df - start + step - 1) / step)
      by (apply Nat.div_le_lower_bound; lia).
    destruct ((shape0 df - start + step - 1) / step) as [|c]; [lia|].
    simpl pred in Hi. nia.
  - rewrite expanding_fit_prefix;
      [|rewrite Hi; apply Nat.le_add_r
       |unfold shape0 in *; rewrite (getitems_index _ _ _ HX); lia].
    rewrite <- (starts_of_take _ _ _ _ _ Hstep Hj).
    fold starts. rewrite take_ge by lia. reflexivity.
Qed.

Lemma backtest_final_model_flat :
  [Sample.flat_series 10] !! 0 = Some (Sample.flat_series 10) /\
  exists (X : DataFrame) (y : Series),
    getitems (Sample.flat_series 10) ["Close"] = Ok X /\
    getitem (Sample.flat_series 10) "Target" = Ok y /\
    exists (res : DataFrame) (final : float) (i : nat),
      backtest 0 NaN ["Close"] 4 3 [Sample.flat_series 10]
      = (Ok (res, final), [Sample.flat_series 10]) /\
      last (starts_of 4 (shape0 (Sample.flat_series 10)) 3) = Some i /\
      i < shape0 (Sample.flat_series 10) /\
      shape0 (Sample.flat_series 10) <= i + 3 /\
      final = expanding_fit 4 3 NaN (iloc 0 i X) (slice 0 i y).
Proof.
  split; [reflexivity|].
  eexists _, _. split; [reflexivity|]. split; [reflexivity|].
  apply (backtest_final_model [Sample.flat_series 10] 0
           (Sample.flat_series 10) _ _ ["Close"] NaN 4 3
           eq_refl eq_refl eq_refl); repeat constructor.
Defined.

(** ** Earlier predictions do not change when rows are added *)

Section Prefix.

Lemma slice_take {A} a b n (l : list A) :
  b <= n -> slice a b (take n l) = slice a b l.
Proof.
  intros Hb. unfold slice.
  destruct (Nat.le_gt_cases a b) as [Hab|Hab].
  - rewrite !firstn_skipn_comm, take_take.
    replace (Nat.min (a + (b - a)) n) with (a + (b - a)) by lia. reflexivity.
  - replace (b - a) with 0 by lia. reflexivity.
Qed.

Lemma iloc_iloc_0 a b n (X : DataFrame) :
  b <= n -> iloc a b (iloc 0 n X) = iloc a b X.
Proof.
  intros Hb. unfold iloc. cbn [index columns]. f_equal.
  - rewrite slice_0. apply slice_take, Hb.
  - unfold map_columns. rewrite map_map. apply map_ext. intros [n0 c]. simpl.
    rewrite slice_0, slice_take by exact Hb. reflexivity.
Qed.

Lemma starts_of_split step q : forall s stop,
  0 < step -> s + q * step <= stop ->
  starts_of s stop step
  = starts_of s (s + q * step) step ++ starts_of (s + q * step) stop step.
Proof.
  induction q as [|q IH]; intros s stop Hs Hle.
  - rewrite Nat.add_0_r. rewrite (starts_of_none s s) by lia. reflexivity.
  - rewrite (starts_of_step s stop) by (simpl in Hle; lia).
    rewrite (starts_of_step s (s + S q * step)) by (simpl; lia).
    cbn [app]. f_equal.
    replace (s + S q * step) with (s + step + q * step) by (simpl; lia).
    apply IH; [exact Hs | simpl in Hle; lia].
Qed.

Lemma starts_of_inside start step q :
  0 < step ->
  Forall (fun i => i + step <= start + q * step)
    (starts_of start (start + q * step) step).
Proof.
  intros Hs. apply Forall_lookup. intros j i Hj.
  destruct (starts_of_lookup _ _ _ _ _ Hs Hj) as [-> Hlt].
  assert (j < q) by nia. nia.
Qed.

Context {Model : Type} {C : Classifier Model} {L : ClassifierLaws Model}.

Variables (X : DataFrame) (y : Series) (step n : nat).

(** Windows that end inside the first [n] rows see the same data in the
    frame cut after row [n]. *)
Lemma walk_forward_truncated starts : forall m : Model,
  Forall (fun i => i + step <= n) starts ->
  walk_forward (iloc 0 n X) (slice 0 n y) step starts m
  = walk_forward X y step starts m.
Proof.
  induction starts as [|i rest IH]; intros m Hin; [reflexivity|].
  inversion Hin as [|? ? Hi Hrest]; subst. cbn [walk_forward].
  rewrite refit_prefix by lia. rewrite (IH _ Hrest).
  unfold window_frame. rewrite iloc_iloc_0 by exact Hi.
  unfold iloc at 1. cbn [index].
  rewrite !slice_0, !slice_take by exact Hi. reflexivity.
Qed.

Lemma walk_forward_app l1 : forall (l2 : list nat) (m : Model),
  fst (walk_forward X y step (l1 ++ l2) m)
  = fst (walk_forward X y step l1 m)
    ++ fst (walk_forward X y step l2 (snd (walk_forward X y step l1 m))).
Proof.
  induction l1 as [|i l1 IH]; intros l2 m; [reflexivity|].
  cbn [app walk_forward]. specialize (IH l2 (refit X y m i)).
  destruct (walk_forward X y step (l1 ++ l2) (refit X y m i)).
  destruct (walk_forward X y step l1 (refit X y m i)). simpl in *.
  rewrite IH. reflexivity.
Qed.

Lemma length_concat_slices {A} (l : list A) start q :
  0 < step -> start + q * step <= length l ->
  length (List.concat
            (map (fun i => slice i (i + step) l)
                 (starts_of start (start + q * step) step)))
  = q * step.
Proof.
  intros Hs Hl.
  rewrite (map_ext_in _ (fun i => slice i (i + step) (take (start + q * step) l))).
  - rewrite (concat_slices_from (take (start + q * step) l) (start + q * step)
               start step Hs) by (rewrite length_take; lia).
    rewrite length_drop, length_take. lia.
  - intros i Hi. symmetry. apply slice_take.
    apply (proj1 (List.Forall_forall _ _) (starts_of_inside start step q Hs) i Hi).
Qed.

End Prefix.

(** X15. Rows added at the end do not change earlier predictions: run on
    the first [start + q * step] rows only (a cut at a window boundary),
    [backtest] returns exactly the first [q * step] rows of what it
    returns on the whole frame. *)
Theorem backtest_prefix_stable {Model : Type} {C : Classifier Model}
    {L : ClassifierLaws Model}
    (h h' : list DataFrame) (data data' : ref) (df X : DataFrame) (y : Series)
    (predictors : list string) (model : Model) (start step q : nat) :
  h !! data = Some df ->
  h' !! data' = Some (iloc 0 (start + q * step) df) ->
  getitems df predictors = Ok X ->
  getitem df "Target" = Ok y ->
  aligned df ->
  0 < step ->
  0 < q ->
  start + q * step <= shape0 df ->
  exists (res res' : DataFrame) (final final' : Model),
    backtest data model predictors start step h = (Ok (res, final), h) /\
    backtest data' model predictors start step h' = (Ok (res', final'), h') /\
    res' = iloc 0 (q * step) res.
Proof.
  intros Hdata Hdata' HX Hy Hal Hstep Hq Hn.
  set (n := start + q * step) in *.
  assert (HiX : index X = index df) by exact (getitems_index _ _ _ HX).
  assert (Hly : length y = shape0 df) by exact (getitem_aligned _ _ _ Hal Hy).
  assert (Hshape : shape0 (iloc 0 n df) = n).
  { unfold shape0, iloc. cbn [index]. rewrite slice_0, length_take.
    unfold shape0 in Hn. lia. }
  assert (Hlt : start < n) by (unfold n; nia).
  rewrite (backtest_run df X y predictors HX Hy h data Hdata model start step Hstep).
  rewrite (backtest_run (iloc 0 n df) (iloc 0 n X) (slice 0 n y) predictors
             (getitems_iloc _ _ _ 0 n HX) (getitem_iloc _ _ _ 0 n Hy)
             h' data' Hdata' model start step Hstep).
  rewrite Hshape.
  rewrite (walk_forward_truncated X y step n) by (apply starts_of_inside, Hstep).
  rewrite (starts_of_split step q start (shape0 df) Hstep Hn).
  fold n. set (inner := starts_of start n step).
  set (outer := starts_of n (shape0 df) step).
  assert (Hinner : inner <> []) by (apply starts_of_nonempty; assumption).
  rewrite (concat_walk_forward X y step inner model Hinner).
  rewrite (concat_walk_forward X y step (inner ++ outer) model)
    by (destruct inner; [congruence | discriminate]).
  eexists _, _, _, _. split; [reflexivity|]. split; [reflexivity|].
  rewrite walk_forward_app, !map_app, !concat_app.
  unfold iloc. cbn [index columns map_columns map fst snd].
  rewrite !slice_0.
  assert (Hidx : length (List.concat
                   (map (fun i => slice i (i + step) (index X)) inner)) = q * step).
  { apply length_concat_slices; [exact Hstep|].
    rewrite HiX. unfold shape0 in Hn. exact Hn. }
  assert (Htg : length (List.concat
                  (map (fun i => slice i (i + step) y) inner)) = q * step).
  { apply length_concat_slices; [exact Hstep | rewrite Hly; exact Hn]. }
  assert (Hpr : length (List.concat
                  (map (col_or_nan "Predictions_60%")
                     (fst (walk_forward X y step inner model)))) = q * step).
  { rewrite (length_concat_Forall2 _ _ _ _
               (walk_forward_predictions X y step inner model)).
    rewrite <- length_concat_map. exact Hidx. }
  rewrite !take_app_length' by (symmetry; assumption).
  reflexivity.
Qed.

Lemma backtest_prefix_stable_flat :
  [Sample.flat_series 10] !! 0 = Some (Sample.flat_series 10) /\
  [iloc 0 (4 + 1 * 3) (Sample.flat_series 10)] !! 0
  = Some (iloc 0 (4 + 1 * 3) (Sample.flat_series 10)) /\
  aligned (Sample.flat_series 10) /\
  4 + 1 * 3 <= shape0 (Sample.flat_series 10) /\
  exists (res res' : DataFrame) (final final' : float),
    backtest 0 NaN ["Close"] 4 3 [Sample.flat_series 10]
    = (Ok (res, final), [Sample.flat_series 10]) /\
    backtest 0 NaN ["Close"] 4 3 [iloc 0 (4 + 1 * 3) (Sample.flat_series 10)]
    = (Ok (res', final'), [iloc 0 (4 + 1 * 3) (Sample.flat_series 10)]) /\
    res' = iloc 0 (1 * 3) res.
Proof.
  assert (Hal : aligned (Sample.flat_series 10)) by (repeat constructor).
  assert (Hn : 4 + 1 * 3 <= shape0 (Sample.flat_series 10))
    by (apply Nat.leb_le; reflexivity).
  split; [reflexivity|]. split; [reflexivity|]. split; [exact Hal|].
  split; [exact Hn|].
  apply (backtest_prefix_stable [Sample.flat_series 10]
           [iloc 0 (4 + 1 * 3) (Sample.flat_series 10)] 0 0
           (Sample.flat_series 10) _ _ ["Close"] NaN 4 3 1
           eq_refl eq_refl eq_refl eq_refl Hal);
    [repeat constructor | repeat constructor | exact Hn].
Defined.

(** ** The /api/buy_stock route *)

Section Summary.

Import metrics.

Lemma positives_le (y_true y_pred : Series) :
  fst (positives y_true y_pred) <= snd (positives y_true y_pred).
Proof.
  revert y_pred. induction y_true as [|t y_true IH]; intros [|p y_pred];
    simpl; try lia.
  specialize (IH y_pred). destruct (positives y_true y_pred) as [tp pp].
  simpl in IH. destruct (is_one p), (is_one t); simpl; lia.
Qed.

(** A precision is a fraction. *)
Lemma precision_score_bounds (y_true y_pred : Series) q :
  precision_score y_true y_pred = Ok q -> (0 <= q <= 1)%Q.
Proof.
  unfold precision_score.
  destruct (negb (length y_true =? length y_pred)); [discriminate|].
  destruct (length y_true =? 0); [discriminate|].
  destruct (classes (y_true ++ y_pred)) as [cs|]; [|discriminate].
  cbv zeta.
  destruct (2 <? length (present_labels cs)); [discriminate|].
  destruct (negb (existsb (Z.eqb 1) (present_labels cs))
            && (2 <=? length (present_labels cs))); [discriminate|].
  pose proof (positives_le y_true y_pred) as Hle.
  destruct (positives y_true y_pred) as [tp pp]. simpl in Hle.
  destruct (pp =? 0) eqn:E; intros [= <-]; [lra|].
  apply Nat.eqb_neq in E.
  assert (Hpp : (0 < inject_Z (Z.of_nat pp))%Q)
    by (rewrite <- (Zlt_Qlt 0); lia).
  assert (Htp : (0 <= inject_Z (Z.of_nat tp))%Q)
    by (rewrite <- (Zle_Qle 0); lia).
  assert (Htp' : (inject_Z (Z.of_nat tp) <= inject_Z (Z.of_nat pp))%Q)
    by (rewrite <- Zle_Qle; lia).
  split.
  - apply Qle_shift_div_l; [exact Hpp | lra].
  - apply Qle_shift_div_r; [exact Hpp | lra].
Qed.

(** Of a label, [bool] is true exactly for 1. *)
Lemma truthy_label x : is_label x = true -> app.truthy x = is_one x.
Proof.
  unfold is_label, app.truthy, is_zero, is_one.
  destruct x as [| s | q]; simpl; try discriminate.
  - destruct s; discriminate.
  - destruct (q ?= 0)%Q eqn:E0; destruct (q ?= 1)%Q eqn:E1; simpl;
      try reflexivity; try discriminate.
    apply Qeq_alt in E0, E1. lra.
Qed.

Lemma forallb_labels (a b : Series) :
  Forall (fun x => is_label x = true) a ->
  Forall (fun x => is_label x = true) b ->
  forallb is_label (a ++ b) = true.
Proof.
  intros Ha Hb. apply forallb_forall. intros x Hx.
  apply in_app_or in Hx as [Hx|Hx];
    [exact (proj1 (List.Forall_forall _ _) Ha x Hx)
    | exact (proj1 (List.Forall_forall _ _) Hb x Hx)].
Qed.

(** The answer of the route on a frame of labels. *)
Lemma buy_stock_summary_value (idx : list Z) (target preds : Series) :
  idx <> [] ->
  length target = length idx ->
  length preds = length idx ->
  Forall (fun x => is_label x = true) target ->
  Forall (fun x => is_label x = true) preds ->
  app.buy_stock_summary
    (mkFrame idx [("Target", target); ("Predictions_60%", preds)])
  = match precision_score target preds with
    | Ok q => Ok (if is_one (nth (length idx - 1) preds NaN) then "Yes" else "No", q)
    | Raise e => Raise e
    end.
Proof.
  intros Hne Ht Hp Hlt Hlp.
  unfold app.buy_stock_summary, app.last_row_at, shape0. cbn [index columns].
  destruct idx as [|d idx]; [congruence|].
  cbn [length lookup list_lookup rbind Nat.sub].
  change (getitem (mkFrame (d :: idx) [("Target", target); ("Predictions_60%", preds)])
            "Target") with (Ok (A := Series) target).
  change (getitem (mkFrame (d :: idx) [("Target", target); ("Predictions_60%", preds)])
            "Predictions_60%") with (Ok (A := Series) preds).
  cbn [rbind]. destruct (precision_score target preds) as [q|e]; [|reflexivity].
  cbn [rbind]. rewrite Nat.sub_0_r.
  rewrite truthy_label; [reflexivity|].
  apply (proj1 (Forall_nth (fun x => is_label x = true) NaN preds) Hlp).
  simpl in Hp. lia.
Qed.

Lemma precision_score_succeeds (target preds : Series) :
  length target = length preds ->
  preds <> [] ->
  Forall (fun x => is_label x = true) target ->
  Forall (fun x => is_label x = true) preds ->
  exists q, precision_score target preds = Ok q /\ (0 <= q <= 1)%Q.
Proof.
  intros Hlen Hne Hlt Hlp.
  destruct (precision_score target preds) as [q|e] eqn:E.
  - exists q. split; [reflexivity | exact (precision_score_bounds _ _ _ E)].
  - rewrite precision_score_value in E;
      [discriminate | exact Hlen | exact Hne | apply forallb_labels; assumption].
Qed.

End Summary.

(** X16. On a frame of predictions with at least one row, whose targets
    and predictions are all 0 or 1, the [/api/buy_stock] route answers:
    Yes exactly when the prediction of the last row is 1, with a
    precision between 0 and 1. *)
Theorem buy_stock_summary_reports (idx : list Z) (target preds : Series) :
  idx <> [] ->
  length target = length idx ->
  length preds = length idx ->
  Forall (fun x => metrics.is_label x = true) target ->
  Forall (fun x => metrics.is_label x = true) preds ->
  exists q : Q,
    app.buy_stock_summary
      (mkFrame idx [("Target", target); ("Predictions_60%", preds)])
    = Ok (if metrics.is_one (nth (length idx - 1) preds NaN) then "Yes" else "No", q) /\
    (0 <= q <= 1)%Q.
Proof.
  intros Hne Ht Hp Hlt Hlp.
  destruct (precision_score_succeeds target preds) as (q & E & Hq);
    [congruence
    | destruct preds, idx; simpl in Hp; congruence
    | exact Hlt | exact Hlp |].
  exists q. split; [|exact Hq].
  rewrite (buy_stock_summary_value idx target preds Hne Ht Hp Hlt Hlp), E.
  reflexivity.
Qed.

Lemma buy_stock_summary_reports_sample :
  [10957; 10958; 10959]%Z <> [] /\
  exists q : Q,
    app.buy_stock_summary
      (mkFrame [10957; 10958; 10959]%Z
         [("Target", [Float.one; Float.zero; Float.one]);
          ("Predictions_60%", [Float.one; Float.one; Float.zero])])
    = Ok ("No", q) /\
    (0 <= q <= 1)%Q.
Proof.
  split; [discriminate|].
  apply (buy_stock_summary_reports [10957; 10958; 10959]%Z
           [Float.one; Float.zero; Float.one] [Float.one; Float.one; Float.zero]);
    [discriminate | reflexivity | reflexivity
    | repeat constructor | repeat constructor].
Defined.

(** ** [buy_stock], end to end *)

Section Pipeline.

Context {Model : Type} {C : Classifier Model} {L : ClassifierLaws Model}.

(** No window: [pd.concat] of no frame. *)
Lemma backtest_empty_range (h : list DataFrame) data df predictors
    (model : Model) start step :
  h !! data = Some df -> 0 < step -> shape0 df <= start ->
  backtest data model predictors start step h = (Raise ValueError, h).
Proof.
  intros Hdata Hstep Hstart. unfold backtest.
  rewrite (bind_ok _ _ _ _ _ (run_shape0 _ _ _ Hdata)).
  unfold bind at 1, lift at 1.
  rewrite (range_runs _ _ _ Hstep), (starts_of_none _ _ _ Hstep Hstart).
  reflexivity.
Qed.

(** The store after the two preparation stages of [buy_stock]. *)
Lemma prepared_lookup (h : list DataFrame) raw bars :
  (<[raw := labelled bars]> h
   ++ [ratios_added (cleaned bars); complete_rows (cleaned bars)])
    !! S (length h)
  = Some (complete_rows (cleaned bars)).
Proof.
  rewrite lookup_app_r by (rewrite length_insert; lia).
  rewrite length_insert. replace (S (length h) - length h) with 1 by lia.
  reflexivity.
Qed.

(** [buy_stock] is [backtest] on the complete rows, from a fifth of
    them on. *)
Lemma buy_stock_run (h : list DataFrame) raw bars (model : Model) :
  h !! raw = Some (history bars) ->
  buy_stock raw model h
  = backtest (S (length h)) model (map ratio_column benchmarks ++ ["Close"])
      (shape0 (complete_rows (cleaned bars)) / 5) default_step
      (<[raw := labelled bars]> h
       ++ [ratios_added (cleaned bars); complete_rows (cleaned bars)]).
Proof.
  intros Hh. unfold buy_stock.
  rewrite (bind_ok _ _ _ _ _ (clean_data_run h raw bars Hh)).
  assert (Hadd : add_predictors (length h)
                   (<[raw := labelled bars]> h ++ [cleaned bars])
                 = (Ok (S (length h), map ratio_column benchmarks),
                    <[raw := labelled bars]> h
                    ++ [ratios_added (cleaned bars); complete_rows (cleaned bars)])).
  { rewrite (add_predictors_run _ (length h) (index (cleaned bars))
               (col_or_nan "Close" (cleaned bars))
               (col_or_nan "Tomorrow" (cleaned bars))
               (col_or_nan "Target" (cleaned bars))).
    - rewrite length_app, length_insert. simpl length.
      rewrite Nat.add_1_r. f_equal.
      rewrite insert_app_r_alt by (rewrite length_insert; lia).
      rewrite length_insert, Nat.sub_diag, <- app_assoc. reflexivity.
    - rewrite lookup_app_r by (rewrite length_insert; lia).
      rewrite length_insert, Nat.sub_diag. reflexivity.
    - apply cleaned_close_length. }
  rewrite (bind_ok _ _ _ _ _ Hadd).
  rewrite (bind_ok _ _ _ _ _ (run_shape0 _ _ _ (prepared_lookup h raw bars))).
  reflexivity.
Qed.

Lemma cleaned_columns (bars : list Bar) :
  let k := first_not_before floor_date (map Date bars) in
  index (cleaned bars) = drop k (map Date bars) /\
  col_or_nan "Close" (cleaned bars) = drop k (map Close bars) /\
  col_or_nan "Tomorrow" (cleaned bars) = drop k (shift (-1) (map Close bars)) /\
  col_or_nan "Target" (cleaned bars)
  = drop k (astype_int (gt (shift (-1) (map Close bars)) (map Close bars))).
Proof. repeat split. Qed.

Lemma cleaned_lengths (bars : list Bar) :
  length (col_or_nan "Tomorrow" (cleaned bars)) = length (index (cleaned bars)) /\
  length (col_or_nan "Target" (cleaned bars)) = length (index (cleaned bars)).
Proof.
  destruct (cleaned_columns bars) as (-> & _ & -> & ->).
  rewrite !length_drop, length_astype_int, length_gt, length_shift, !length_map;
    [split; reflexivity|].
  rewrite length_shift. reflexivity.
Qed.

Lemma cleaned_target_labels (bars : list Bar) :
  Forall (fun x => metrics.is_label x = true) (col_or_nan "Target" (cleaned bars)).
Proof.
  destruct (cleaned_columns bars) as (_ & _ & _ & ->).
  apply Forall_drop, astype_int_labels.
Qed.

Lemma label_not_na x : metrics.is_label x = true -> Float.isna x = false.
Proof. destruct x; [discriminate | reflexivity | reflexivity]. Qed.

(** Fewer rows than the longest window: no row is complete. *)
Lemma complete_rows_short (df : DataFrame) :
  shape0 df < horizon -> shape0 (complete_rows df) = 0.
Proof.
  intros Hn. unfold shape0 in *.
  pose proof (featured_index_late (index df) (col_or_nan "Close" df)
                (col_or_nan "Tomorrow" df) (col_or_nan "Target" df)) as Hsub.
  rewrite drop_ge in Hsub by lia.
  apply sublist_nil_r in Hsub. unfold complete_rows. rewrite Hsub. reflexivity.
Qed.

Lemma aligned_iloc_from a (df : DataFrame) :
  aligned df -> aligned (iloc_from a df).
Proof.
  unfold aligned, iloc_from, shape0, map_columns. cbn [index columns].
  intros Hal. apply Forall_map. eapply Forall_impl; [exact Hal|].
  intros [n c] Hc. simpl in *. rewrite !length_drop, Hc. reflexivity.
Qed.

Lemma aligned_with_ratios idx close tomorrow target :
  length close = length idx -> length tomorrow = length idx ->
  length target = length idx ->
  aligned (with_ratios idx close tomorrow target).
Proof.
  intros Hc Htm Htg. apply List.Forall_forall. intros [n c] Hin.
  exact (with_ratios_lengths idx close tomorrow target n c Hc Htm Htg Hin).
Qed.

End Pipeline.

(** X17. When fewer rows than the longest rolling window (1260) are left
    on or after the floor date, no row has all six ratios, and
    [buy_stock] raises [ValueError]: it asks [backtest] to start at row 0
    of an empty frame. *)
Theorem buy_stock_needs_horizon {Model : Type} {C : Classifier Model}
    (h : list DataFrame) (raw : ref) (bars : list Stock_Functions.Bar)
    (model : Model) :
  h !! raw = Some (history bars) ->
  shape0 (cleaned bars) < horizon ->
  buy_stock raw model h
  = (Raise ValueError,
     <[raw := labelled bars]> h
     ++ [ratios_added (cleaned bars); complete_rows (cleaned bars)]).
Proof.
  intros Hh Hshort. rewrite (buy_stock_run h raw bars model Hh).
  apply (backtest_empty_range _ _ _ _ _ _ _ (prepared_lookup h raw bars)).
  - apply Nat.ltb_lt. reflexivity.
  - rewrite (complete_rows_short _ Hshort). apply Nat.le_0_l.
Qed.

Lemma buy_stock_needs_horizon_three_bars :
  [history Sample.three_bars] !! 0 = Some (history Sample.three_bars) /\
  shape0 (cleaned Sample.three_bars) < horizon /\
  buy_stock 0 NaN [history Sample.three_bars]
  = (Raise ValueError,
     [labelled Sample.three_bars; ratios_added (cleaned Sample.three_bars);
      complete_rows (cleaned Sample.three_bars)]).
Proof.
  assert (Hshort : shape0 (cleaned Sample.three_bars) < horizon)
    by (apply Nat.ltb_lt; vm_compute; reflexivity).
  split; [reflexivity|]. split; [exact Hshort|].
  exact (buy_stock_needs_horizon [history Sample.three_bars] 0
           Sample.three_bars NaN eq_refl Hshort).
Defined.

Section Long.

Variables (bars : list Stock_Functions.Bar).

Hypothesis Hpos : Forall positive (col_or_nan "Close" (cleaned bars)).

Lemma complete_rows_long :
  complete_rows (cleaned bars)
  = iloc_from (horizon - 1) (ratios_added (cleaned bars)).
Proof.
  destruct (cleaned_lengths bars) as [Htm Htg].
  apply featured_exact;
    [apply cleaned_close_length | exact Htm | exact Htg | exact Hpos |].
  eapply Forall_impl; [apply cleaned_target_labels|].
  intros x. apply label_not_na.
Qed.

Lemma complete_rows_count :
  shape0 (complete_rows (cleaned bars)) = shape0 (cleaned bars) - (horizon - 1).
Proof.
  rewrite complete_rows_long. unfold shape0, iloc_from, ratios_added, with_ratios.
  cbn [index]. apply length_drop.
Qed.

End Long.

Lemma flat_bars_positive n :
  Forall positive (col_or_nan "Close" (cleaned (Sample2.flat_bars n))).
Proof.
  destruct (cleaned_columns (Sample2.flat_bars n)) as (_ & -> & _).
  apply Forall_drop. unfold Sample2.flat_bars. rewrite map_map.
  apply Forall_map, List.Forall_forall. intros k _. reflexivity.
Qed.

(** X18. On a history with n >= 1260 rows on or after the floor date and
    positive closes, [buy_stock] is one call of [backtest], with the
    default step of 63: on the cleaned rows from row 1259 on with their
    six ratios (nine aligned columns), with the six ratios and [Close] as
    predictors, started at row (n - 1259) / 5 of that frame.  For n below
    1264 that start is 0, so the first window is trained on no row. *)
Theorem buy_stock_walks_complete_rows {Model : Type} {C : Classifier Model}
    (h : list DataFrame) (raw : ref) (bars : list Stock_Functions.Bar)
    (model : Model) :
  h !! raw = Some (history bars) ->
  horizon <= shape0 (cleaned bars) ->
  Forall positive (col_or_nan "Close" (cleaned bars)) ->
  exists (features : DataFrame) (h' : list DataFrame),
    features = iloc_from (horizon - 1) (ratios_added (cleaned bars)) /\
    h' = <[raw := labelled bars]> h ++ [ratios_added (cleaned bars); features] /\
    names features
    = ["Close"; "Tomorrow"; "Target"; "Close_Ratio_2"; "Close_Ratio_5";
       "Close_Ratio_21"; "Close_Ratio_63"; "Close_Ratio_252"; "Close_Ratio_1260"] /\
    aligned features /\
    shape0 features = shape0 (cleaned bars) - (horizon - 1) /\
    buy_stock raw model h
    = backtest (S (length h)) model
        ["Close_Ratio_2"; "Close_Ratio_5"; "Close_Ratio_21"; "Close_Ratio_63";
         "Close_Ratio_252"; "Close_Ratio_1260"; "Close"]
        (shape0 features / 5) default_step h' /\
    (shape0 (cleaned bars) < horizon + 4 -> shape0 features / 5 = 0).
Proof.
  intros Hh Hlong Hpos.
  destruct (cleaned_lengths bars) as [Htm Htg].
  pose proof (complete_rows_long bars Hpos) as Hrows.
  pose proof (complete_rows_count bars Hpos) as Hcount.
  eexists _, _. split; [reflexivity|]. split; [reflexivity|].
  split; [reflexivity|]. split.
  { apply aligned_iloc_from, aligned_with_ratios;
      [apply cleaned_close_length | exact Htm | exact Htg]. }
  rewrite <- Hrows. split; [exact Hcount|]. split.
  - exact (buy_stock_run h raw bars model Hh).
  - intros Hshort. rewrite Hcount. apply Nat.div_small. lia.
Qed.

Lemma buy_stock_walks_complete_rows_flat :
  [history (Sample2.flat_bars 1262)] !! 0 = Some (history (Sample2.flat_bars 1262)) /\
  horizon <= shape0 (cleaned (Sample2.flat_bars 1262)) /\
  shape0 (cleaned (Sample2.flat_bars 1262)) < horizon + 4 /\
  exists (features : DataFrame),
    features
    = iloc_from (horizon - 1) (ratios_added (cleaned (Sample2.flat_bars 1262))) /\
    buy_stock 0 NaN [history (Sample2.flat_bars 1262)]
    = backtest 2 NaN
        ["Close_Ratio_2"; "Close_Ratio_5"; "Close_Ratio_21"; "Close_Ratio_63";
         "Close_Ratio_252"; "Close_Ratio_1260"; "Close"]
        (shape0 features / 5) default_step
        [labelled (Sample2.flat_bars 1262);
         ratios_added (cleaned (Sample2.flat_bars 1262)); features] /\
    shape0 features / 5 = 0.
Proof.
  assert (Hlong : horizon <= shape0 (cleaned (Sample2.flat_bars 1262)))
    by (apply Nat.leb_le; vm_compute; reflexivity).
  assert (Hshort : shape0 (cleaned (Sample2.flat_bars 1262)) < horizon + 4)
    by (apply Nat.ltb_lt; vm_compute; reflexivity).
  split; [reflexivity|]. split; [exact Hlong|]. split; [exact Hshort|].
  destruct (buy_stock_walks_complete_rows [history (Sample2.flat_bars 1262)] 0
              (Sample2.flat_bars 1262) NaN eq_refl Hlong (flat_bars_positive 1262))
    as (features & h' & Hf & Hh' & _ & _ & _ & Hrun & Hstart).
  exists features. split; [exact Hf|]. split; [|exact (Hstart Hshort)].
  rewrite Hrun, Hh'. reflexivity.
Defined.
